(** * dp-map-renderer: the choropleth renderer (renderer/svg.go)

    A shallow embedding of the SVG renderer of the map service: the
    value-to-colour classification, the derived break information, the
    viewbox sizing policy and the layout of the horizontal and vertical
    legends, together with the properties the design document states
    about them.

    Conventions of the embedding
    - a Go [float64] is a primitive binary64 [float]; comparisons and
      arithmetic are the IEEE ones, so a NaN compares false with
      everything, as in Go, and every operation rounds on its own;
    - a Go pointer that may be nil is an [option]; a slice is a [list]
      (the one slice whose nil-ness is tested, [Data], is an [option]);
      the rows, breaks and features a slice holds are not nil;
    - a run-time panic (index out of range, nil dereference) is the
      [Panic] result of the [result] monad;
    - a Go [map] with string keys is a [gmap string _];
    - a [bytes.Buffer] that is only appended to is the string written;
    - code that lives outside svg.go (text metrics, fmt verbs, the
      topojson decoder, the geojson2svg drawing library, the rest of the
      renderer package) is the [Collaborators] interface.

    Part I holds the definitions, Part II the theorems. *)

From Stdlib Require Import ZArith Floats Sorting.Sorted.
From stdpp Require Import gmap strings list fin_maps pretty sorting.

Set Warnings "-register-all,-inexact-float".

(** * Part I: the embedding *)

(** ** binary64 comparisons *)

Module F64.

(** Go's [x >= y], [x > y], [x <= y] and [x < y] on float64. *)
Definition ge (x y : float) : bool := PrimFloat.leb y x.
Definition gt (x y : float) : bool := PrimFloat.ltb y x.
Definition le (x y : float) : bool := PrimFloat.leb x y.
Definition lt (x y : float) : bool := PrimFloat.ltb x y.

(** [math.Abs]. *)
Definition Abs (x : float) : float := PrimFloat.abs x.

(** [math.Signbit], [math.IsNaN] and [math.IsInf(x, sign)]. *)
Definition Signbit (x : float) : bool := PrimFloat.get_sign x.
Definition IsNaN (x : float) : bool := PrimFloat.is_nan x.
Definition IsInf (x : float) (positive : bool) : bool :=
  if positive then PrimFloat.eqb x PrimFloat.infinity
  else PrimFloat.eqb x PrimFloat.neg_infinity.

(** [math.Max], with the special cases of the Go library. *)
Definition Max (x y : float) : float :=
  if IsInf x true || IsInf y true then PrimFloat.infinity
  else if IsNaN x || IsNaN y then PrimFloat.nan
  else if PrimFloat.eqb x PrimFloat.zero && PrimFloat.eqb x y
       then (if Signbit x then y else x)
  else if gt x y then x else y.

(** [math.Min], with the special cases of the Go library. *)
Definition Min (x y : float) : float :=
  if IsInf x false || IsInf y false then PrimFloat.neg_infinity
  else if IsNaN x || IsNaN y then PrimFloat.nan
  else if PrimFloat.eqb x PrimFloat.zero && PrimFloat.eqb x y
       then (if Signbit x then x else y)
  else if lt x y then x else y.

(** The rank of a non-NaN value in the total order the comparison
    follows: class first (-inf, negative, zero, positive, +inf), then
    exponent and mantissa, both negated for negative numbers. *)
Definition key (f : spec_float) : option (Z * Z * Z) :=
  match f with
  | S754_nan => None
  | S754_infinity true => Some (-2, 0, 0)%Z
  | S754_infinity false => Some (2, 0, 0)%Z
  | S754_zero _ => Some (0, 0, 0)%Z
  | S754_finite true m e => Some (-1, - e, - Z.pos m)%Z
  | S754_finite false m e => Some (1, e, Z.pos m)%Z
  end.

Definition key_lt (a b : Z * Z * Z) : Prop :=
  let '(a1, a2, a3) := a in
  let '(b1, b2, b3) := b in
  (a1 < b1 \/ (a1 = b1 /\ (a2 < b2 \/ (a2 = b2 /\ a3 < b3))))%Z.

Definition key_rel (c : comparison) (a b : Z * Z * Z) : Prop :=
  match c with
  | Lt => key_lt a b
  | Eq => a = b
  | Gt => key_lt b a
  end.

(** The comparison of two floats, when both are numbers. *)
Definition cmp (x y : float) : option comparison :=
  SFcompare (Prim2SF x) (Prim2SF y).

End F64.

(** ** Run-time panics

    The renderer returns no error values: what can go wrong is a Go
    run-time panic.  [result] makes the two kinds that svg.go can raise
    explicit. *)

Inductive panic : Set :=
| IndexOutOfRange   (* s[i] with i outside 0 .. len(s)-1 *)
| NilDereference.   (* field access through a nil pointer *)

Inductive result (A : Type) : Type :=
| Ok (a : A)
| Panic (p : panic).

Arguments Ok {A} a.
Arguments Panic {A} p.

#[export] Instance result_ret : MRet result := fun A a => Ok a.
#[export] Instance result_bind : MBind result := fun A B f r =>
  match r with
  | Ok a => f a
  | Panic p => Panic p
  end.

(** [s[i]] on a slice, with Go's bounds check. *)
Definition index {A : Type} (s : list A) (i : Z) : result A :=
  if (i <? 0)%Z then Panic IndexOutOfRange
  else match s !! Z.to_nat i with
       | Some a => Ok a
       | None => Panic IndexOutOfRange
       end.

(** [len(s)] as a Go int. *)
Definition len {A : Type} (s : list A) : Z := Z.of_nat (length s).

(** [*p] on a pointer that may be nil. *)
Definition deref {A : Type} (p : option A) : result A :=
  match p with
  | Some a => Ok a
  | None => Panic NilDereference
  end.

(** ** Values of type [interface{}] decoded from JSON *)

Inductive value : Type :=
| VNil
| VBool (b : bool)
| VNumber (f : float)
| VString (s : string)
| VList (l : list value)
| VMap (m : list (string * value)).

(** The type assertion [v.(string)] on the result of a map lookup. *)
Definition assertString (v : option value) : string * bool :=
  match v with
  | Some (VString s) => (s, true)
  | _ => (EmptyString, false)
  end.

(** ** The request (package models) and the geometry types

    The declarations of these packages are not part of svg.go; the
    records hold the fields svg.go reads, with the types its uses fix. *)

Module models.

Record DataRow : Type := {
  ID : string;
  Value : float
}.

Record ChoroplethBreak : Type := {
  LowerBound : float;
  Colour : string
}.

Definition LegendPositionBefore : string := "before".
Definition LegendPositionAfter : string := "after".

Record Choropleth : Type := {
  ReferenceValue : float;
  ReferenceValueText : string;
  ValuePrefix : string;
  ValueSuffix : string;
  Breaks : list ChoroplethBreak;
  UpperBound : float;
  HorizontalLegendPosition : string;
  VerticalLegendPosition : string
}.

End models.

Module topojson.

Record Object : Type := {
  Type_ : string;
  ArcIndices : list Z
}.

Record Topology : Type := {
  Arcs : list (list (list float));
  Objects : gmap string Object
}.

End topojson.

Module geojson.

(** The id of a feature is an [interface{}]; a GeoJSON id is a string or
    a number when it is present. *)
Inductive FeatureID : Type :=
| NoID
| StringID (s : string)
| NumberID (f : float).

(** A feature: its id, its property bag (an allocated map) and its
    geometry, which svg.go never reads. *)
Record Feature : Type := {
  ID : FeatureID;
  Properties : gmap string value;
  Coordinates : list (list (list float))
}.

Record FeatureCollection : Type := {
  Features : list Feature
}.

End geojson.

Record Geography : Type := {
  Topojson : option topojson.Topology;
  IDProperty : string;
  NameProperty : string
}.

Record RenderRequest : Type := {
  Filename : string;
  Geography_ : option Geography;
  Data : option (list models.DataRow);
  Choropleth_ : option models.Choropleth;
  DefaultWidth : float;
  MinWidth : float;
  MaxWidth : float;
  IncludeFallbackPng : bool;
  FontSize : Z
}.

(** ** sort.Slice

    [sort.Slice] orders a slice by a [less] function and is not stable.
    The embedding fixes the order among ties as that of the insertion
    sort the Go library runs on short slices: each element in turn moves
    left past the elements it is less than. *)

(** [ins less x rp]: [rp] is the sorted prefix, last element first. *)
Fixpoint ins {A : Type} (less : A -> A -> bool) (x : A) (rp : list A) : list A :=
  match rp with
  | [] => [x]
  | y :: rp' => if less x y then y :: ins less x rp' else x :: rp
  end.

Definition sort_Slice {A : Type} (less : A -> A -> bool) (s : list A) : list A :=
  rev (fold_left (fun rp x => ins less x rp) s []).

(** A loop whose body may panic. *)
Fixpoint foldM {A S : Type} (body : S -> A -> result S) (s : S) (l : list A)
  : result S :=
  match l with
  | [] => Ok s
  | a :: l' => s' ← body s a; foldM body s' l'
  end.

(** ** Text building *)

(** The double quote and the newline, which the templates contain. *)
Definition dq : string := String (Ascii.ascii_of_nat 34) EmptyString.
Definition nl : string := String (Ascii.ascii_of_nat 10) EmptyString.

(** [name="v"]. *)
Definition attr (name v : string) : string := name +:+ "=" +:+ dq +:+ v +:+ dq.

(** [strings.Replace(s, "\n", "", -1)]. *)
Fixpoint removeNewlines (s : string) : string :=
  match s with
  | EmptyString => EmptyString
  | String c s' =>
      if Ascii.eqb c (Ascii.ascii_of_nat 10) then removeNewlines s'
      else String c (removeNewlines s')
  end.

(** [strings.Join]. *)
Fixpoint join (sep : string) (l : list string) : string :=
  match l with
  | [] => EmptyString
  | [s] => s
  | s :: l' => s +:+ sep +:+ join sep l'
  end.

(** [RegionClassName] is the class assigned to all map regions. *)
Definition RegionClassName : string := "mapRegion".

(** [MissingDataText] is appended to the title of a region that has
    missing data. *)
Definition MissingDataText : string := "data unavailable".

Definition polygon (points : string) : string :=
  "<polygon " +:+ attr "points" points +:+ "></polygon>".

(** [fmt.Sprintf(MissingDataPattern, id)]: the pattern used for regions
    with missing data. *)
Definition MissingDataPattern (id : string) : string :=
  join nl
    [ "<pattern " +:+ attr "id" (id +:+ "-nodata") +:+ " " +:+ attr "width" "20"
        +:+ " " +:+ attr "height" "20" +:+ " "
        +:+ attr "patternUnits" "userSpaceOnUse" +:+ ">";
      "<g " +:+ attr "fill" "#6D6E72" +:+ ">";
      polygon "00 00 02 00 00 02 00 00";
      polygon "04 00 06 00 00 06 00 04";
      polygon "08 00 10 00 00 10 00 08";
      polygon "12 00 14 00 00 14 00 12";
      polygon "16 00 18 00 00 18 00 16";
      polygon "20 00 20 02 02 20 00 20";
      polygon "20 04 20 06 06 20 04 20";
      polygon "20 08 20 10 10 20 08 20";
      polygon "20 12 20 14 14 20 12 20";
      polygon "20 16 20 18 18 20 16 20";
      "</g>";
      "</pattern>" ].

(** ** Collaborators *)

Module g2s.

(** [PNGConverter] generates fallback png images for svgs. *)
Record PNGConverter : Type := {
  IncludeFallbackImage : string -> string -> float -> float -> string
}.

(** The options [RenderSVG] passes to the drawing library. *)
Inductive Option : Type :=
| UseProperties (names : list string)
| WithTitles (nameProperty : string)
| WithAttribute (name v : string)
| WithPNGFallback (converter : option PNGConverter)
| WithPattern (pattern : string)
| WithResponsiveSize (responsive : bool).

End g2s.

(** What svg.go calls and does not define.  The [g2s.SVG] object of a
    request holds a pointer to the request's feature collection and
    nothing else, so the drawing functions take the features as they
    are when the call is made. *)
Class Collaborators : Type := {
  (* package topojson: Topology.ToGeoJSON, a pointer to a collection *)
  ToGeoJSON : topojson.Topology -> option geojson.FeatureCollection;
  (* package geojson2svg: SVG.GetHeightForWidth with the Mercator projection *)
  GetHeightForWidth : geojson.FeatureCollection -> float -> float;
  (* package geojson2svg: SVG.DrawWithProjection with the Mercator projection *)
  DrawWithProjection :
    list geojson.Feature -> float -> float -> list g2s.Option -> string;
  (* package htmlutil: the approximate width of a text at a font size *)
  GetApproximateTextWidth : string -> Z -> float;
  (* package renderer, other files *)
  idPrefix : RenderRequest -> string;
  mapID : RenderRequest -> string;
  (* package fmt: the verbs %g, %f and %.f on a float64, %v on a value *)
  fmt_g : float -> string;
  fmt_f : float -> string;
  fmt_0f : float -> string;
  fmt_v : value -> string;
  (* the package variable pngConverter, set once by UsePNGConverter *)
  pngConverter : option g2s.PNGConverter
}.

(** ** The renderer's own types *)

(** [valueAndColour] is a choropleth data point: a value and its colour. *)
Record valueAndColour : Type := {
  value_ : float;
  colour : string
}.

(** [breakInfo] describes a break (the boundary between colours): lower
    bound, upper bound and relative size. *)
Record breakInfo : Type := {
  LowerBound : float;
  UpperBound : float;
  RelativeSize : float;
  Colour : string
}.

(** [SVGRequest] wraps a request and caches the expensive calculations.
    Its [svg] field aliases [geoJSON] and is not a field of its own
    here. *)
Record SVGRequest : Type := {
  request : RenderRequest;
  geoJSON : option geojson.FeatureCollection;
  ViewBoxWidth : float;
  ViewBoxHeight : float;
  breaks : list breakInfo;
  referencePos : float;
  VerticalLegendWidth : float;
  verticalKeyOffset : float;
  responsiveSize : bool
}.

(** [horizontalRefTextInfo] holds the reference value and label with
    their approximate lengths. *)
Record horizontalRefTextInfo : Type := {
  referenceTextShort : string;
  referenceTextShortLen : float;
  referenceTextLong : string;
  referenceTextLongLen : float
}.

(** [horizontalKeyInfo] holds the width of the key, its x position and
    the texts of the reference tick. *)
Record horizontalKeyInfo : Type := {
  referenceTextLeft : string;
  referenceTextLeftLen : float;
  referenceTextRight : string;
  referenceTextRightLen : float;
  keyWidth : float;
  keyX : float
}.

(** ** The choropleth colourizer *)

(** The loop of [getColour]: the colour of the first break, in slice
    order, whose lower bound the value reaches. *)
Fixpoint getColour_scan (v : float) (breaks : list models.ChoroplethBreak)
  : option string :=
  match breaks with
  | [] => None
  | b :: rest =>
      if F64.ge v (models.LowerBound b) then Some (models.Colour b)
      else getColour_scan v rest
  end.

(** [getColour] returns the colour for the given value; when the loop
    finds no break it reads [breaks[len(breaks)-1]]. *)
Definition getColour (v : float) (breaks : list models.ChoroplethBreak)
  : result string :=
  match getColour_scan v breaks with
  | Some c => Ok c
  | None => b ← index breaks (len breaks - 1); Ok (models.Colour b)
  end.

(** [sortBreaks] returns a sorted copy of the breaks, ascending or
    descending by lower bound. *)
Definition sortBreaks (breaks : list models.ChoroplethBreak) (asc : bool)
  : list models.ChoroplethBreak :=
  sort_Slice
    (fun ci cj =>
       if asc then F64.lt (models.LowerBound ci) (models.LowerBound cj)
       else F64.gt (models.LowerBound ci) (models.LowerBound cj))
    breaks.

(** The loop of [mapDataToColour]: a later row with the same id replaces
    an earlier one. *)
Definition mapDataToColour_row (breaks : list models.ChoroplethBreak)
    (prefix : string) (dataMap : gmap string valueAndColour)
    (row : models.DataRow) : result (gmap string valueAndColour) :=
  c ← getColour (models.Value row) breaks;
  Ok (<[prefix +:+ models.ID row :=
          {| value_ := models.Value row; colour := c |}]> dataMap).

(** [mapDataToColour] maps each prefixed row id to its value and colour. *)
Definition mapDataToColour (data : list models.DataRow)
    (choropleth : models.Choropleth) (prefix : string)
  : result (gmap string valueAndColour) :=
  let breaks := sortBreaks (models.Breaks choropleth) false in
  foldM (mapDataToColour_row breaks prefix) ∅ data.

(** [dataMap[feature.ID]]: the keys of the map are strings, so an id of
    another dynamic type finds nothing. *)
Definition lookupID (dataMap : gmap string valueAndColour)
    (id : geojson.FeatureID) : option valueAndColour :=
  match id with
  | geojson.StringID s => dataMap !! s
  | _ => None
  end.

(** Breaks in strictly descending order of lower bound. *)
Definition descending (breaks : list models.ChoroplethBreak) : Prop :=
  Sorted (fun a b => F64.gt (models.LowerBound a) (models.LowerBound b) = true)
         breaks.

Section Renderer.
Context {collab : Collaborators}.

(** ** Geometry and viewbox *)

(** [getGeoJSON] performs a sanity check for missing properties, then
    converts the topojson to geojson. *)
Definition getGeoJSON (request : RenderRequest)
  : option geojson.FeatureCollection :=
  match Geography_ request with
  | None => None
  | Some geography =>
      match Topojson geography with
      | None => None
      | Some topology =>
          if (len (topojson.Arcs topology) =? 0)%Z
             || (Z.of_nat (size (topojson.Objects topology)) =? 0)%Z
          then None
          else ToGeoJSON topology
      end
  end.

(** [getViewBoxDimensions] chooses the width of the viewbox and
    calculates the height relative to it. *)
Definition getViewBoxDimensions (svg : geojson.FeatureCollection)
    (request : RenderRequest) : float * float :=
  let width := DefaultWidth request in
  let width :=
    if F64.le width 0%float
    then ((MinWidth request + MaxWidth request) / 2)%float
    else width in
  let width := if F64.le width 0%float then 400%float else width in
  let height := GetHeightForWidth svg width in
  (width, height).

(** ** Feature ids, classes and colours *)

Definition withID (feature : geojson.Feature) (id : geojson.FeatureID)
  : geojson.Feature :=
  {| geojson.ID := id;
     geojson.Properties := geojson.Properties feature;
     geojson.Coordinates := geojson.Coordinates feature |}.

Definition withProperty (feature : geojson.Feature) (name : string) (v : value)
  : geojson.Feature :=
  {| geojson.ID := geojson.ID feature;
     geojson.Properties := <[name := v]> (geojson.Properties feature);
     geojson.Coordinates := geojson.Coordinates feature |}.

(** The body of [setFeatureIDs]: the property named [idProperty] becomes
    the id when it is a non-empty string, else a non-empty string id is
    kept; either way it gets the prefix. *)
Definition setFeatureID (idProperty prefix : string) (feature : geojson.Feature)
  : geojson.Feature :=
  let '(id, isString) :=
    assertString (geojson.Properties feature !! idProperty) in
  if isString && (0 <? String.length id)%nat
  then withID feature (geojson.StringID (prefix +:+ id))
  else match geojson.ID feature with
       | geojson.StringID id =>
           if (0 <? String.length id)%nat
           then withID feature (geojson.StringID (prefix +:+ id))
           else feature
       | _ => feature
       end.

Definition setFeatureIDs (features : list geojson.Feature)
    (idProperty prefix : string) : list geojson.Feature :=
  map (setFeatureID idProperty prefix) features.

(** [appendProperty] sets a property by the given name, appending any
    existing value. *)
Definition appendProperty (feature : geojson.Feature)
    (propertyName v : string) : geojson.Feature :=
  let s :=
    match geojson.Properties feature !! propertyName with
    | Some original => v +:+ " " +:+ fmt_v original
    | None => v
    end in
  withProperty feature propertyName (VString s).

(** [setClassProperty] populates a class property in each feature. *)
Definition setClassProperty (features : list geojson.Feature)
    (className : string) : list geojson.Feature :=
  map (fun feature => appendProperty feature "class" className) features.

(** The body of the loop of [setChoroplethColoursAndTitles]. *)
Definition setColourAndTitle (request : RenderRequest)
    (choropleth : models.Choropleth) (dataMap : gmap string valueAndColour)
    (missingValueStyle : string) (feature : geojson.Feature)
  : result geojson.Feature :=
  geography ← deref (Geography_ request);
  let nameProperty := NameProperty geography in
  let title :=
    match geojson.Properties feature !! nameProperty with
    | Some title => title
    | None => VString EmptyString
    end in
  let '(style, title) :=
    match lookupID dataMap (geojson.ID feature) with
    | Some vc =>
        ("fill: " +:+ colour vc +:+ ";",
         fmt_v title +:+ " " +:+ models.ValuePrefix choropleth
           +:+ fmt_g (value_ vc) +:+ models.ValueSuffix choropleth)
    | None =>
        (missingValueStyle, fmt_v title +:+ " " +:+ MissingDataText)
    end in
  let feature := withProperty feature nameProperty (VString title) in
  Ok (appendProperty feature "style" style).

(** [setChoroplethColoursAndTitles] creates a mapping from the id of a
    data row to its value and colour, then iterates through the features
    assigning a title and style for the colour. *)
Definition setChoroplethColoursAndTitles (features : list geojson.Feature)
    (request : RenderRequest) : result (list geojson.Feature) :=
  match Choropleth_ request, Data request with
  | Some choropleth, Some data =>
      let id := idPrefix request in
      dataMap ← mapDataToColour data choropleth (id +:+ "-");
      let missingValueStyle := "fill: url(#" +:+ id +:+ "-nodata);" in
      mapM (setColourAndTitle request choropleth dataMap missingValueStyle)
           features
  | _, _ => Ok features
  end.

(** ** Break information *)

Definition withLowerBound (b : breakInfo) (lower : float) : breakInfo :=
  {| LowerBound := lower; UpperBound := UpperBound b;
     RelativeSize := RelativeSize b; Colour := Colour b |}.

Definition withRelativeSize (b : breakInfo) (size : float) : breakInfo :=
  {| LowerBound := LowerBound b; UpperBound := UpperBound b;
     RelativeSize := size; Colour := Colour b |}.

(** [getSortedBreakInfo] returns information about the breaks, lowest
    first, and the relative position of the reference value.  [info] is
    the slice of pointers the function fills: an entry is nil until it is
    assigned. *)
Definition getSortedBreakInfo (request : RenderRequest)
  : result (list breakInfo * float) :=
  let data :=
    sort_Slice (fun di dj => F64.lt (models.Value di) (models.Value dj))
               (default [] (Data request)) in
  choropleth ← deref (Choropleth_ request);
  let breaks := sortBreaks (models.Breaks choropleth) true in
  d0 ← index data 0;
  b0 ← index breaks 0;
  let minValue := F64.Min (models.Value d0) (models.LowerBound b0) in
  let maxValue := models.UpperBound choropleth in
  bl ← index breaks (len breaks - 1);
  maxValue ←
    (if F64.lt maxValue (models.LowerBound bl)
     then dl ← index data (len data - 1); Ok (models.Value dl)
     else Ok maxValue);
  let totalRange := (maxValue - minValue)%float in
  let breakCount := len breaks in
  let info : list (option breakInfo) := replicate (length breaks) None in
  info ←
    foldM (fun info i =>
             bi ← index breaks i;
             bj ← index breaks (i + 1);
             Ok (<[Z.to_nat i :=
                     Some {| LowerBound := models.LowerBound bi;
                             UpperBound := models.LowerBound bj;
                             RelativeSize := 0%float;
                             Colour := models.Colour bi |}]> info))
          info (seqZ 0 (breakCount - 1));
  first ← index info 0;
  first ← deref first;
  let info := <[0%nat := Some (withLowerBound first minValue)]> info in
  bl ← index breaks (breakCount - 1);
  let info :=
    <[Z.to_nat (breakCount - 1) :=
        Some {| LowerBound := models.LowerBound bl;
                UpperBound := maxValue;
                RelativeSize := 0%float;
                Colour := models.Colour bl |}]> info in
  info ←
    mapM (fun b =>
            b ← deref b;
            Ok (withRelativeSize b
                  ((UpperBound b - LowerBound b) / totalRange)%float))
         info;
  let referencePos :=
    ((models.ReferenceValue choropleth - minValue) / totalRange)%float in
  Ok (info, referencePos).

(** ** Legend measurements *)

(** The width of the text of a bound, as the legends print it. *)
Definition boundTextWidth (request : RenderRequest) (bound : float) : float :=
  GetApproximateTextWidth (fmt_g bound) (FontSize request).

(** [getHorizontalRefTextInfo] calculates the approximate width of the
    reference value and text, dividing them into short and long. *)
Definition getHorizontalRefTextInfo (request : RenderRequest)
  : result horizontalRefTextInfo :=
  choropleth ← deref (Choropleth_ request);
  let refTextLen :=
    GetApproximateTextWidth (models.ReferenceValueText choropleth)
                            (FontSize request) in
  let refValue := fmt_g (models.ReferenceValue choropleth) in
  let refValueLen := GetApproximateTextWidth refValue (FontSize request) in
  if F64.gt refTextLen refValueLen
  then Ok {| referenceTextLong := models.ReferenceValueText choropleth;
             referenceTextLongLen := refTextLen;
             referenceTextShort := refValue;
             referenceTextShortLen := refValueLen |}
  else Ok {| referenceTextLong := refValue;
             referenceTextLongLen := refValueLen;
             referenceTextShort := models.ReferenceValueText choropleth;
             referenceTextShortLen := refTextLen |}.

(** [getHorizontalKeyInfo] returns the width of the key, the x position
    of the key and the reference tick texts, making sure that the longer
    of the reference value and text is given the most space. *)
Definition getHorizontalKeyInfo (svgWidth : float) (svgRequest : SVGRequest)
  : result horizontalKeyInfo :=
  let request := request svgRequest in
  refInfo ← getHorizontalRefTextInfo request;
  (* assume a default width of 90% of svg *)
  let keyWidth := (svgWidth * 0.9)%float in
  let keyX := ((svgWidth - keyWidth) / 2)%float in
  (* half of the upper and lower bound text will sit outside the key *)
  let breaks := breaks svgRequest in
  b0 ← index breaks 0;
  let left := (boundTextWidth request (LowerBound b0) / 2)%float in
  bl ← index breaks (len breaks - 1);
  let right := (boundTextWidth request (UpperBound bl) / 2)%float in
  (* the longer bit of reference text sits on the side with the most space *)
  let switch := F64.lt (referencePos svgRequest) 0.5%float in
  let textLeft :=
    if switch then referenceTextShort refInfo else referenceTextLong refInfo in
  let textLeftLen :=
    if switch then referenceTextShortLen refInfo
    else referenceTextLongLen refInfo in
  let textRight :=
    if switch then referenceTextLong refInfo else referenceTextShort refInfo in
  let textRightLen :=
    if switch then referenceTextLongLen refInfo
    else referenceTextShortLen refInfo in
  (* see if reference text is long enough to go beyond the bounds of the key *)
  let refPos := (keyWidth * referencePos svgRequest)%float in
  let left :=
    if F64.lt (refPos - textLeftLen)%float (0.0 - left)%float
    then F64.Abs (refPos - textLeftLen)%float else left in
  let right :=
    if F64.gt ((refPos + textRightLen) - keyWidth)%float right
    then ((refPos + textRightLen) - keyWidth)%float else right in
  (* if any text goes beyond the bounds of the svg, shorten the key *)
  let shorten := F64.gt (keyWidth + left + right)%float svgWidth in
  Ok {| referenceTextLeft := textLeft;
        referenceTextLeftLen := textLeftLen;
        referenceTextRight := textRight;
        referenceTextRightLen := textRightLen;
        keyWidth := if shorten then (svgWidth - (left + right))%float
                    else keyWidth;
        keyX := if shorten then left else keyX |}.

(** [getVerticalTickTextWidth] calculates the approximate total width of
    the ticks on both sides of the key, allowing 38 pixels for the colour
    bar, and the offset of the key from the middle of the legend. *)
Definition getVerticalTickTextWidth (request : RenderRequest)
    (breaks : list breakInfo) : result (float * float) :=
  let maxTick :=
    fold_left
      (fun maxTick b =>
         let lbound := boundTextWidth request (LowerBound b) in
         let maxTick := if F64.gt lbound maxTick then lbound else maxTick in
         let ubound := boundTextWidth request (UpperBound b) in
         if F64.gt ubound maxTick then ubound else maxTick)
      breaks 0.0%float in
  choropleth ← deref (Choropleth_ request);
  let refTick :=
    GetApproximateTextWidth (models.ReferenceValueText choropleth)
                            (FontSize request) in
  let refValue := boundTextWidth request (models.ReferenceValue choropleth) in
  let refWidth := F64.Max refTick refValue in
  Ok ((maxTick + refWidth + 38.0)%float, (maxTick - refWidth)%float).

(** [getVerticalLegendWidth] determines the approximate width required
    for the legend, and the offset of the key. *)
Definition getVerticalLegendWidth (request : RenderRequest)
    (breaks : list breakInfo) : result (float * float) :=
  let missingWidth :=
    (GetApproximateTextWidth MissingDataText (FontSize request) + 12)%float in
  choropleth ← deref (Choropleth_ request);
  let titleWidth :=
    GetApproximateTextWidth
      (models.ValuePrefix choropleth +:+ " " +:+ models.ValueSuffix choropleth)
      (FontSize request) in
  let maxWidth := F64.Max missingWidth titleWidth in
  '(keyWidth, offset) ← getVerticalTickTextWidth request breaks;
  Ok ((F64.Max maxWidth keyWidth + 10)%float, offset).

(** [hasVerticalLegend]: the request includes a vertical legend. *)
Definition hasVerticalLegend (request : RenderRequest) : bool :=
  match Choropleth_ request with
  | None => false
  | Some choropleth =>
      String.eqb (models.VerticalLegendPosition choropleth)
                 models.LegendPositionBefore
      || String.eqb (models.VerticalLegendPosition choropleth)
                    models.LegendPositionAfter
  end.

(** [hasHorizontalLegend]: the request includes a horizontal legend. *)
Definition hasHorizontalLegend (request : RenderRequest) : bool :=
  match Choropleth_ request with
  | None => false
  | Some choropleth =>
      String.eqb (models.HorizontalLegendPosition choropleth)
                 models.LegendPositionBefore
      || String.eqb (models.HorizontalLegendPosition choropleth)
                    models.LegendPositionAfter
  end.

(** [getKeyClass] returns the class of the map key, with an additional
    class if both keys are rendered. *)
Definition getKeyClass (request : RenderRequest) (keyType : string) : string :=
  let keyClass := "map_key_" +:+ keyType in
  if hasVerticalLegend request && hasHorizontalLegend request
  then keyClass +:+ " " +:+ keyClass +:+ "_both"
  else keyClass.

(** ** Request preparation *)

(** [PrepareSVGRequest] wraps the request in an [SVGRequest], caching
    expensive calculations up front. *)
Definition PrepareSVGRequest (request : RenderRequest) : result SVGRequest :=
  let geoJSON := getGeoJSON request in
  let '(width, height) :=
    match geoJSON with
    | Some collection => getViewBoxDimensions collection request
    | None => (0.0%float, 0.0%float)
    end in
  let responsiveSize :=
    F64.gt (MinWidth request) 0%float && F64.gt (MaxWidth request) 0%float in
  let withBreaks :=
    match Choropleth_ request with
    | Some choropleth => (0 <? len (models.Breaks choropleth))%Z
    | None => false
    end in
  if withBreaks
  then
    '(breaks, referencePos) ← getSortedBreakInfo request;
    '(legendWidth, keyOffset) ← getVerticalLegendWidth request breaks;
    Ok {| request := request; geoJSON := geoJSON;
          ViewBoxWidth := width; ViewBoxHeight := height;
          breaks := breaks; referencePos := referencePos;
          VerticalLegendWidth := legendWidth; verticalKeyOffset := keyOffset;
          responsiveSize := responsiveSize |}
  else
    Ok {| request := request; geoJSON := geoJSON;
          ViewBoxWidth := width; ViewBoxHeight := height;
          breaks := []; referencePos := 0%float;
          VerticalLegendWidth := 0%float; verticalKeyOffset := 0%float;
          responsiveSize := responsiveSize |}.

(** ** The map *)

(** The attributes and options [RenderSVG] hands to the drawing library. *)
Definition mapOptions (svgRequest : SVGRequest) (nameProperty : string)
  : list g2s.Option :=
  let request := request svgRequest in
  let converter :=
    if IncludeFallbackPng request then pngConverter else None in
  [ g2s.UseProperties ["style"; "class"];
    g2s.WithTitles nameProperty;
    g2s.WithAttribute "id" (mapID request +:+ "-svg");
    g2s.WithAttribute "viewBox"
      ("0 0 " +:+ fmt_0f (ViewBoxWidth svgRequest) +:+ " "
              +:+ fmt_0f (ViewBoxHeight svgRequest));
    g2s.WithPNGFallback converter;
    g2s.WithPattern (removeNewlines (MissingDataPattern (idPrefix request)));
    g2s.WithResponsiveSize (responsiveSize svgRequest) ].

(** [RenderSVG] generates an SVG map for the given request. *)
Definition RenderSVG (svgRequest : SVGRequest) : result string :=
  match geoJSON svgRequest with
  | None => Ok EmptyString
  | Some collection =>
      let request := request svgRequest in
      let id := idPrefix request in
      geography ← deref (Geography_ request);
      let features :=
        setFeatureIDs (geojson.Features collection) (IDProperty geography)
                      (id +:+ "-") in
      let features := setClassProperty features RegionClassName in
      features ← setChoroplethColoursAndTitles features request;
      Ok (DrawWithProjection features (ViewBoxWidth svgRequest)
            (ViewBoxHeight svgRequest)
            (mapOptions svgRequest (NameProperty geography)))
  end.

(** ** Legend markup *)

(** [ textLength="n" lengthAdjust="spacingAndGlyphs"]: the hint that
    makes the browser fit a text in [n] pixels. *)
Definition textLengthAttr (n : float) : string :=
  " " +:+ attr "textLength" (fmt_0f n) +:+ " "
      +:+ attr "lengthAdjust" "spacingAndGlyphs".

Definition translate (x y : string) : string :=
  attr "transform" ("translate(" +:+ x +:+ ", " +:+ y +:+ ")").

(** [writeHorizontalKeyTitle] writes the title above the key for a
    horizontal legend, ensuring that the text fits within the svg. *)
Definition writeHorizontalKeyTitle (request : RenderRequest) (svgWidth : float)
  : result string :=
  choropleth ← deref (Choropleth_ request);
  let titleText :=
    models.ValuePrefix choropleth +:+ " " +:+ models.ValueSuffix choropleth in
  let titleTextLen := GetApproximateTextWidth titleText (FontSize request) in
  let textAdjust :=
    if F64.ge titleTextLen svgWidth
    then textLengthAttr (svgWidth - 2)%float else EmptyString in
  Ok ("<text " +:+ attr "x" (fmt_f (svgWidth / 2.0)%float) +:+ " "
        +:+ attr "y" "6" +:+ " " +:+ attr "dy" ".5em" +:+ " "
        +:+ attr "style" "text-anchor: middle;" +:+ " "
        +:+ attr "class" "keyText" +:+ textAdjust +:+ ">"
        +:+ titleText +:+ "</text>").

(** [writeHorizontalKeyTick] draws a vertical line (the tick) at the
    given position, labelling it with the given value. *)
Definition writeHorizontalKeyTick (xPos v : float) : string :=
  "<g " +:+ attr "class" "map__tick" +:+ " " +:+ translate (fmt_f xPos) "0"
    +:+ ">"
    +:+ "<line " +:+ attr "x2" "0" +:+ " " +:+ attr "y2" "15" +:+ " "
    +:+ attr "style" "stroke-width: 1; stroke: Black;" +:+ "></line>"
    +:+ "<text " +:+ attr "x" "0" +:+ " " +:+ attr "y" "18" +:+ " "
    +:+ attr "dy" ".74em" +:+ " " +:+ attr "style" "text-anchor: middle;"
    +:+ " " +:+ attr "class" "keyText" +:+ ">" +:+ fmt_g v +:+ "</text>"
    +:+ "</g>".

(** [writeVerticalKeyTick] draws a horizontal line (the tick) at the
    given position, labelling it with the given value. *)
Definition writeVerticalKeyTick (yPos v : float) : string :=
  "<g " +:+ attr "class" "map__tick" +:+ " " +:+ translate "0" (fmt_f yPos)
    +:+ ">"
    +:+ "<line " +:+ attr "x1" "8" +:+ " " +:+ attr "x2" "-15" +:+ " "
    +:+ attr "style" "stroke-width: 1; stroke: Black;" +:+ "></line>"
    +:+ "<text " +:+ attr "x" "-18" +:+ " " +:+ attr "y" "0" +:+ " "
    +:+ attr "dy" "0.32em" +:+ " " +:+ attr "style" "text-anchor: end;"
    +:+ " " +:+ attr "class" "keyText" +:+ ">" +:+ fmt_g v +:+ "</text>"
    +:+ "</g>".

(** The length-adjust hints of [writeHorizontalKeyRefTick]: the length
    the text on each side of the reference tick is squeezed to, when its
    approximate width does not fit between the tick and the edge of the
    svg. *)
Definition refTickLeftAdjust (keyInfo : horizontalKeyInfo)
    (svgRequest : SVGRequest) : option float :=
  let xPos := (keyWidth keyInfo * referencePos svgRequest)%float in
  if F64.gt (referenceTextLeftLen keyInfo) (xPos + keyX keyInfo)%float
  then Some (xPos + keyX keyInfo - 1)%float else None.

Definition refTickRightAdjust (keyInfo : horizontalKeyInfo)
    (svgRequest : SVGRequest) : option float :=
  let xPos := (keyWidth keyInfo * referencePos svgRequest)%float in
  let svgWidth := ViewBoxWidth svgRequest in
  if F64.gt (referenceTextRightLen keyInfo)
            (svgWidth - (xPos + keyX keyInfo))%float
  then Some (svgWidth - (xPos + keyX keyInfo) - 2)%float else None.

Definition adjustAttr (adjust : option float) : string :=
  match adjust with
  | Some n => textLengthAttr n
  | None => EmptyString
  end.

(** [writeHorizontalKeyRefTick] draws a vertical line at the position of
    the reference value, labelling it with the reference value and
    reference text. *)
Definition writeHorizontalKeyRefTick (keyInfo : horizontalKeyInfo)
    (svgRequest : SVGRequest) : string :=
  let xPos := (keyWidth keyInfo * referencePos svgRequest)%float in
  "<g " +:+ attr "class" "map__tick" +:+ " " +:+ translate (fmt_f xPos) "0"
    +:+ ">"
    +:+ "<line " +:+ attr "x2" "0" +:+ " " +:+ attr "y1" "8" +:+ " "
    +:+ attr "y2" "45" +:+ " "
    +:+ attr "style" "stroke-width: 1; stroke: DimGrey;" +:+ "></line>"
    +:+ "<text " +:+ attr "x" "0" +:+ " " +:+ attr "y" "33" +:+ " "
    +:+ attr "dx" "-0.1em" +:+ " " +:+ attr "dy" ".74em" +:+ " "
    +:+ attr "style" "text-anchor: end; fill: DimGrey;" +:+ " "
    +:+ attr "class" "keyText"
    +:+ adjustAttr (refTickLeftAdjust keyInfo svgRequest) +:+ ">"
    +:+ referenceTextLeft keyInfo +:+ "</text>"
    +:+ "<text " +:+ attr "x" "0" +:+ " " +:+ attr "y" "33" +:+ " "
    +:+ attr "dx" "0.1em" +:+ " " +:+ attr "dy" ".74em" +:+ " "
    +:+ attr "style" "text-anchor: start; fill: DimGrey;" +:+ " "
    +:+ attr "class" "keyText"
    +:+ adjustAttr (refTickRightAdjust keyInfo svgRequest) +:+ ">"
    +:+ referenceTextRight keyInfo +:+ "</text>"
    +:+ "</g>".

(** [writeVerticalKeyRefTick] draws a horizontal line at the position of
    the reference value, labelling it with the reference value and
    reference text. *)
Definition writeVerticalKeyRefTick (yPos : float) (request : RenderRequest)
  : result string :=
  choropleth ← deref (Choropleth_ request);
  let text := models.ReferenceValueText choropleth in
  let v := models.ReferenceValue choropleth in
  let textLen := GetApproximateTextWidth text (FontSize request) in
  Ok ("<g " +:+ attr "class" "map__tick" +:+ " "
        +:+ translate "0" (fmt_f yPos) +:+ ">"
        +:+ "<line " +:+ attr "x2" "45" +:+ " " +:+ attr "x1" "8" +:+ " "
        +:+ attr "style" "stroke-width: 1; stroke: DimGrey;" +:+ "></line>"
        +:+ "<text " +:+ attr "x" "18" +:+ " " +:+ attr "dy" "-.32em" +:+ " "
        +:+ attr "style" "text-anchor: start; fill: DimGrey;" +:+ " "
        +:+ attr "class" "keyText" +:+ textLengthAttr textLen +:+ ">"
        +:+ text +:+ "</text>"
        +:+ "<text " +:+ attr "x" "18" +:+ " " +:+ attr "dy" "1em" +:+ " "
        +:+ attr "style" "text-anchor: start; fill: DimGrey;" +:+ " "
        +:+ attr "class" "keyText" +:+ ">" +:+ fmt_g v +:+ "</text>"
        +:+ "</g>").

(** [writeKeyMissingPattern] draws a square filled with the missing
    pattern at the given position, labelling it with [MissingDataText]. *)
Definition writeKeyMissingPattern (id : string) (xPos yPos : float)
    (fontSize : Z) : string :=
  "<g " +:+ attr "class" "missingPattern" +:+ " "
    +:+ translate (fmt_f xPos) (fmt_f yPos) +:+ ">"
    +:+ "<rect " +:+ attr "class" "keyColour" +:+ " " +:+ attr "height" "8"
    +:+ " " +:+ attr "width" "8" +:+ " "
    +:+ attr "style"
          ("stroke-width: 0.8; stroke: black; fill: url(#" +:+ id
             +:+ "-nodata);")
    +:+ "></rect>"
    +:+ "<text " +:+ attr "x" "12" +:+ " " +:+ attr "dy" ".55em" +:+ " "
    +:+ attr "style" "text-anchor: start; fill: DimGrey;" +:+ " "
    +:+ attr "class" "keyText"
    +:+ textLengthAttr (GetApproximateTextWidth MissingDataText fontSize)
    +:+ ">" +:+ MissingDataText +:+ "</text>"
    +:+ "</g>".

(** [writeVerticalLegendTitle] writes the title of the vertical legend. *)
Definition writeVerticalLegendTitle (keyWidth svgHeight : float)
    (request : RenderRequest) : result string :=
  choropleth ← deref (Choropleth_ request);
  let text :=
    models.ValuePrefix choropleth +:+ " " +:+ models.ValueSuffix choropleth in
  let textLen := GetApproximateTextWidth text (FontSize request) in
  Ok ("<text " +:+ attr "x" (fmt_f (keyWidth / 2)%float) +:+ " "
        +:+ attr "y" (fmt_f (svgHeight * 0.05)%float) +:+ " "
        +:+ attr "dy" ".5em" +:+ " " +:+ attr "style" "text-anchor: middle;"
        +:+ " " +:+ attr "class" "keyText" +:+ textLengthAttr textLen +:+ ">"
        +:+ text +:+ "</text>").

(** The attributes every legend svg carries: id, class and viewBox. *)
Definition legendViewBox (svgRequest : SVGRequest) (keyType : string)
    (width height : float) : string :=
  let request := request svgRequest in
  attr "id" (idPrefix request +:+ "-legend-" +:+ keyType +:+ "-svg") +:+ " "
    +:+ attr "class" (getKeyClass request keyType) +:+ " "
    +:+ attr "viewBox" ("0 0 " +:+ fmt_0f width +:+ " " +:+ fmt_0f height).

(** The pixel size of a legend svg: [ width="w" height="h"]. *)
Definition legendSize (width height : float) : string :=
  " " +:+ attr "width" (fmt_0f width) +:+ " " +:+ attr "height" (fmt_0f height).

(** The attributes of a legend's svg element: the pixel size is added
    unless the size is responsive. *)
Definition legendAttributes (svgRequest : SVGRequest) (keyType : string)
    (width height : float) : string :=
  let attributes := legendViewBox svgRequest keyType width height in
  if responsiveSize svgRequest then attributes
  else attributes +:+ legendSize width height.

(** The last step of both legend renderers: the svg element, or the
    fallback image of the converter when one is set and asked for. *)
Definition finishLegend (request : RenderRequest) (attributes content : string)
    (width height : float) : string :=
  match pngConverter with
  | Some converter =>
      if IncludeFallbackPng request
      then g2s.IncludeFallbackImage converter attributes content width height
      else "<svg " +:+ attributes +:+ ">" +:+ content +:+ "</svg>"
  | None => "<svg " +:+ attributes +:+ ">" +:+ content +:+ "</svg>"
  end.

Definition keyColourRect (dimensions : string) (fill : string) : string :=
  "<rect " +:+ attr "class" "keyColour" +:+ " " +:+ dimensions +:+ " "
    +:+ attr "style" ("stroke-width: 0.5; stroke: black; fill: " +:+ fill +:+ ";")
    +:+ "></rect>".

(** [RenderHorizontalKey] creates an SVG containing a horizontally
    oriented key for the choropleth. *)
Definition RenderHorizontalKey (svgRequest : SVGRequest) : result string :=
  match geoJSON svgRequest with
  | None => Ok EmptyString
  | Some _ =>
      let request := request svgRequest in
      keyInfo ← getHorizontalKeyInfo (ViewBoxWidth svgRequest) svgRequest;
      let id := idPrefix request in
      let missingId := id +:+ "-horizontal" in
      let content := "<defs>" +:+ MissingDataPattern missingId +:+ "</defs>" in
      let vbHeight := 90.0%float in
      let svgAttributes :=
        legendAttributes svgRequest "horizontal" (ViewBoxWidth svgRequest)
                         vbHeight in
      let content :=
        content +:+ "<g "
          +:+ attr "id" (id +:+ "-legend-horizontal-container") +:+ ">" in
      title ← writeHorizontalKeyTitle request (ViewBoxWidth svgRequest);
      let content :=
        content +:+ title +:+ "<g "
          +:+ attr "id" (id +:+ "-legend-horizontal-key") +:+ " "
          +:+ translate (fmt_f (keyX keyInfo)) "20" +:+ ">" in
      let breaks := breaks svgRequest in
      let '(content, ticks, left_) :=
        fold_left
          (fun '(content, ticks, left_) b =>
             let width := (RelativeSize b * keyWidth keyInfo)%float in
             (content
                +:+ keyColourRect
                      (attr "height" "8" +:+ " " +:+ attr "width" (fmt_f width)
                         +:+ " " +:+ attr "x" (fmt_f left_))
                      (Colour b),
              ticks +:+ writeHorizontalKeyTick left_ (LowerBound b),
              (left_ + width)%float))
          breaks (content, EmptyString, 0.0%float) in
      bl ← index breaks (len breaks - 1);
      let ticks := ticks +:+ writeHorizontalKeyTick left_ (UpperBound bl) in
      choropleth ← deref (Choropleth_ request);
      let ticks :=
        if (0 <? String.length (models.ReferenceValueText choropleth))%nat
        then ticks +:+ writeHorizontalKeyRefTick keyInfo svgRequest
        else ticks in
      let content :=
        content +:+ ticks
          +:+ writeKeyMissingPattern missingId 0.0%float 55.0%float
                (FontSize request)
          +:+ "</g></g>" in
      Ok (finishLegend request svgAttributes content (ViewBoxWidth svgRequest)
                       vbHeight)
  end.

(** [RenderVerticalKey] creates an SVG containing a vertically oriented
    key for the choropleth. *)
Definition RenderVerticalKey (svgRequest : SVGRequest) : result string :=
  match geoJSON svgRequest with
  | None => Ok EmptyString
  | Some _ =>
      let request := request svgRequest in
      let svgHeight := ViewBoxHeight svgRequest in
      let breaks := breaks svgRequest in
      let keyHeight := (svgHeight * 0.8)%float in
      let keyWidth := VerticalLegendWidth svgRequest in
      let offset := verticalKeyOffset svgRequest in
      let id := idPrefix request in
      let missingId := id +:+ "-vertical" in
      let content := "<defs>" +:+ MissingDataPattern missingId +:+ "</defs>" in
      let attributes :=
        legendAttributes svgRequest "vertical" keyWidth svgHeight in
      let content :=
        content +:+ "<g "
          +:+ attr "id" (id +:+ "-legend-vertical-container") +:+ ">" in
      title ← writeVerticalLegendTitle keyWidth svgHeight request;
      let content :=
        content +:+ title +:+ "<g "
          +:+ attr "id" (id +:+ "-legend-vertical-key") +:+ " "
          +:+ translate (fmt_f ((keyWidth + offset) / 2)%float)
                        (fmt_f (svgHeight * 0.1)%float) +:+ ">" in
      let '(content, ticks, position) :=
        fold_left
          (fun '(content, ticks, position) b =>
             let height := (RelativeSize b * keyHeight)%float in
             let adjustedPosition := (keyHeight - position)%float in
             (content
                +:+ keyColourRect
                      (attr "height" (fmt_f height) +:+ " " +:+ attr "width" "8"
                         +:+ " "
                         +:+ attr "y" (fmt_f (adjustedPosition - height)%float))
                      (Colour b),
              ticks +:+ writeVerticalKeyTick adjustedPosition (LowerBound b),
              (position + height)%float))
          breaks (content, EmptyString, 0.0%float) in
      bl ← index breaks (len breaks - 1);
      let ticks :=
        ticks +:+ writeVerticalKeyTick (keyHeight - position)%float
                    (UpperBound bl) in
      choropleth ← deref (Choropleth_ request);
      ticks ←
        (if (0 <? String.length (models.ReferenceValueText choropleth))%nat
         then
           tick ← writeVerticalKeyRefTick
                    (keyHeight - (keyHeight * referencePos svgRequest))%float
                    request;
           Ok (ticks +:+ tick)
         else Ok ticks);
      let content := content +:+ ticks +:+ "</g>" in
      let xPos :=
        ((keyWidth
          - (GetApproximateTextWidth MissingDataText (FontSize request) + 12))
         / 2)%float in
      let content :=
        content
          +:+ writeKeyMissingPattern missingId xPos (svgHeight * 0.95)%float
                (FontSize request)
          +:+ "</g>" in
      Ok (finishLegend request attributes content keyWidth svgHeight)
  end.


(** ** Notions the properties are stated with *)

(** The width policy as the design document words it: the fixed width if
    it is positive, else the average of the minimum and maximum widths if
    both are positive, else 400. *)
Definition documentedViewBoxWidth (request : RenderRequest) : float :=
  if F64.gt (DefaultWidth request) 0%float then DefaultWidth request
  else if F64.gt (MinWidth request) 0%float
          && F64.gt (MaxWidth request) 0%float
       then ((MinWidth request + MaxWidth request) / 2)%float
       else 400%float.

(** A request with no usable geography: no geography, no topojson, no
    arcs or no objects. *)
Definition noGeometry (request : RenderRequest) : Prop :=
  match Geography_ request with
  | None => True
  | Some geography =>
      match Topojson geography with
      | None => True
      | Some topology =>
          topojson.Arcs topology = [] \/ topojson.Objects topology = ∅
      end
  end.

(** The left edge of the label of the lowest bound and the right edge of
    the label of the highest bound: the tick labels are centred on the
    two ends of the key, which starts at [keyX]. *)
Definition lowestLabelLeft (request : RenderRequest) (keyInfo : horizontalKeyInfo)
    (lowest : breakInfo) : float :=
  (keyX keyInfo - boundTextWidth request (LowerBound lowest) / 2)%float.

Definition highestLabelRight (request : RenderRequest)
    (keyInfo : horizontalKeyInfo) (highest : breakInfo) : float :=
  (keyX keyInfo + keyWidth keyInfo
   + boundTextWidth request (UpperBound highest) / 2)%float.

(** The style [appendProperty] leaves: the new style, followed by the
    style the feature had. *)
Definition styleBefore (feature : geojson.Feature) (style : string) : string :=
  match geojson.Properties feature !! "style" with
  | Some original => style +:+ " " +:+ fmt_v original
  | None => style
  end.

(** The data row a feature id matches: the last row whose prefixed id is
    the id of the feature. *)
Definition matchingRow (prefix : string) (data : list models.DataRow)
    (id : geojson.FeatureID) : option models.DataRow :=
  match id with
  | geojson.StringID s =>
      last (filter (fun row => prefix +:+ models.ID row = s) data)
  | _ => None
  end.

End Renderer.

(** ** A concrete set of collaborators and sample requests

    The examples of Part II run the renderer on concrete requests.  They
    use the collaborators below. *)

Module Example.

(** Modelled from the spec: htmlutil.GetApproximateTextWidth is not part
    of svg.go; the design document describes it as a per-character
    average-width heuristic scaled by font size.  The average width of a
    character is taken as half the font size. *)
Definition approxTextWidth (text : string) (fontSize : Z) : float :=
  (PrimFloat.of_uint63 (Uint63.of_Z (Z.of_nat (String.length text)))
   * PrimFloat.of_uint63 (Uint63.of_Z fontSize) * 0.5)%float.

(** The whole number a float holds, when it holds one. *)
Definition wholeOf (x : float) : option Z :=
  match Prim2SF x with
  | S754_zero _ => Some 0%Z
  | S754_finite s m e =>
      let sign := if s then (-1)%Z else 1%Z in
      if (0 <=? e)%Z then Some (sign * Z.pos m * 2 ^ e)%Z
      else if (Z.pos m mod 2 ^ (- e) =? 0)%Z
           then Some (sign * (Z.pos m / 2 ^ (- e)))%Z
           else None
  | _ => None
  end.

(** The verb %g on a whole number below one million in magnitude, which
    prints as its digits; the examples format no other value with it. *)
Definition formatWhole (x : float) : string :=
  match wholeOf x with
  | Some n => if (Z.abs n <? 1000000)%Z then pretty n else EmptyString
  | None => EmptyString
  end.

(** [num / den] rounded to the nearest integer, ties to even. *)
Definition roundHalfEven (num den : Z) : Z :=
  let q := (num / den)%Z in
  let r := (num mod den)%Z in
  if (2 * r <? den)%Z then q
  else if (den <? 2 * r)%Z then (q + 1)%Z
  else if Z.even q then q else (q + 1)%Z.

(** [s] with zeros in front, up to [width] characters. *)
Fixpoint padLeft (fuel width : nat) (s : string) : string :=
  match fuel with
  | O => s
  | S fuel' =>
      if (String.length s <? width)%nat then padLeft fuel' width ("0" +:+ s)
      else s
  end.

(** The verb %.[p]f: the decimal expansion rounded to [p] places. *)
Definition formatFixed (p : nat) (x : float) : string :=
  let digits (s : bool) (q : Z) : string :=
    let scale := (10 ^ Z.of_nat p)%Z in
    (if s then "-" else EmptyString)
      +:+ pretty (q / scale)%Z
      +:+ (if p is O then EmptyString
           else "." +:+ padLeft p p (pretty (q mod scale)%Z)) in
  match Prim2SF x with
  | S754_nan => "NaN"
  | S754_infinity s => if s then "-Inf" else "+Inf"
  | S754_zero s => digits s 0%Z
  | S754_finite s m e =>
      let scale := (10 ^ Z.of_nat p)%Z in
      if (0 <=? e)%Z then digits s (Z.pos m * 2 ^ e * scale)%Z
      else digits s (roundHalfEven (Z.pos m * scale) (2 ^ (- e)))
  end.

(** The verb %v on a value: a string prints as itself. *)
Definition formatValue (v : value) : string :=
  match v with
  | VString s => s
  | VNumber f => formatWhole f
  | VBool b => if b then "true" else "false"
  | VNil => "<nil>"
  | VList _ => "[]"
  | VMap _ => "map[]"
  end.

(** A decoder that yields one feature per object of the topology, named
    after it, and a drawing library that lists the ids it draws. *)
Definition decode (topology : topojson.Topology)
  : option geojson.FeatureCollection :=
  Some {| geojson.Features :=
            map (fun '(name, _) =>
                   {| geojson.ID := geojson.StringID name;
                      geojson.Properties := {[ "name" := VString name ]};
                      geojson.Coordinates := [] |})
                (map_to_list (topojson.Objects topology)) |}.

Definition draw (features : list geojson.Feature) (width height : float)
    (options : list g2s.Option) : string :=
  "<svg>" +:+ pretty (length features) +:+ "</svg>".

#[export] Instance collaborators : Collaborators := {|
  ToGeoJSON := decode;
  GetHeightForWidth := fun _ width => width;
  DrawWithProjection := draw;
  GetApproximateTextWidth := approxTextWidth;
  idPrefix := fun request => Filename request;
  mapID := fun request => Filename request +:+ "-map";
  fmt_g := formatWhole;
  fmt_f := formatFixed 6;
  fmt_0f := formatFixed 0;
  fmt_v := formatValue;
  pngConverter := None
|}.

Definition mkBreak (lower : float) (c : string) : models.ChoroplethBreak :=
  {| models.LowerBound := lower; models.Colour := c |}.

Definition mkRow (id : string) (v : float) : models.DataRow :=
  {| models.ID := id; models.Value := v |}.

(** Three classes, highest first, as [mapDataToColour] sorts them. *)
Definition breaksDescending : list models.ChoroplethBreak :=
  [ mkBreak 10%float "red"; mkBreak 5%float "green"; mkBreak 0%float "blue" ].

Definition mkChoropleth (breaks : list models.ChoroplethBreak)
    (upperBound referenceValue : float) (referenceValueText : string)
  : models.Choropleth :=
  {| models.ReferenceValue := referenceValue;
     models.ReferenceValueText := referenceValueText;
     models.ValuePrefix := "Rate";
     models.ValueSuffix := "%";
     models.Breaks := breaks;
     models.UpperBound := upperBound;
     models.HorizontalLegendPosition := models.LegendPositionBefore;
     models.VerticalLegendPosition := models.LegendPositionAfter |}.

(** A topology of one arc and one object. *)
Definition topology : topojson.Topology :=
  {| topojson.Arcs := [ [ [0%float; 0%float]; [1%float; 1%float] ] ];
     topojson.Objects :=
       {[ "E01" := {| topojson.Type_ := "Polygon";
                      topojson.ArcIndices := [0%Z] |} ]} |}.

Definition geography : Geography :=
  {| Topojson := Some topology; IDProperty := "code"; NameProperty := "name" |}.

Definition mkRequest (geography : option Geography)
    (data : option (list models.DataRow))
    (choropleth : option models.Choropleth) (width minWidth maxWidth : float)
  : RenderRequest :=
  {| Filename := "map";
     Geography_ := geography;
     Data := data;
     Choropleth_ := choropleth;
     DefaultWidth := width;
     MinWidth := minWidth;
     MaxWidth := maxWidth;
     IncludeFallbackPng := false;
     FontSize := 14 |}.

(** No fixed width, no minimum width, a maximum width of 300. *)
Definition maxWidthOnlyRequest : RenderRequest :=
  mkRequest (Some geography) None None 0%float 0%float 300%float.

(** No fixed width, a minimum of 300 and a maximum of 500. *)
Definition responsiveRequest : RenderRequest :=
  mkRequest (Some geography) None None 0%float 300%float 500%float.

(** Two breaks and an empty data slice. *)
Definition emptyDataRequest : RenderRequest :=
  mkRequest (Some geography) (Some [])
    (Some (mkChoropleth [mkBreak 0%float "blue"; mkBreak 5%float "green"]
                        10%float 5%float "Average"))
    400%float 0%float 0%float.

(** One break and one matching data row. *)
Definition singleBreakRequest : RenderRequest :=
  mkRequest (Some geography) (Some [mkRow "E01" 7%float])
    (Some (mkChoropleth [mkBreak 0%float "blue"] 10%float 5%float "Average"))
    400%float 0%float 0%float.

(** A choropleth with no breaks, and one data row. *)
Definition noBreaksRequest : RenderRequest :=
  mkRequest (Some geography) (Some [mkRow "E01" 7%float])
    (Some (mkChoropleth [] 10%float 5%float "Average"))
    400%float 0%float 0%float.

(** No geography at all. *)
Definition noGeographyRequest : RenderRequest :=
  mkRequest None (Some [mkRow "E01" 7%float]) None 400%float 0%float 0%float.

(** Two breaks whose lowest bound has a long label, -123456, and whose
    upper bound has a short one, 5; the reference value sits just right
    of the middle of the range. *)
Definition longLowerLabelChoropleth : models.Choropleth :=
  mkChoropleth [mkBreak (-123456)%float "blue"; mkBreak 0%float "green"]
               5%float (-60000)%float "Avg".

Definition longLowerLabelRequest : RenderRequest :=
  mkRequest (Some geography) (Some [mkRow "E01" 1%float])
    (Some longLowerLabelChoropleth) 400%float 0%float 0%float.

(** A choropleth with two breaks and no data member at all. *)
Definition noDataRequest : RenderRequest :=
  mkRequest (Some geography) None
    (Some (mkChoropleth [mkBreak 0%float "blue"; mkBreak 5%float "green"]
                        10%float 5%float "Average"))
    400%float 0%float 0%float.

(** Breaks at 0 and 5 with no configured upper bound, one data row of
    value 0 and the reference value 0: the range runs from 0 to 0. *)
Definition emptyRangeRequest : RenderRequest :=
  mkRequest (Some geography) (Some [mkRow "E01" 0%float])
    (Some (mkChoropleth [mkBreak 0%float "blue"; mkBreak 5%float "green"]
                        0%float 0%float "Average"))
    400%float 0%float 0%float.

(** Two regions as [setFeatureIDs] leaves them: E01 and E02. *)
Definition region (code name : string) : geojson.Feature :=
  {| geojson.ID := geojson.StringID ("map-" +:+ code);
     geojson.Properties := {[ "name" := VString name ]};
     geojson.Coordinates := [] |}.

(** The prepared form of a sample request ([Panic] does not occur on the
    samples it is used with). *)
Definition prepared (req : RenderRequest) : SVGRequest :=
  match PrepareSVGRequest req with
  | Ok s => s
  | Panic _ =>
      {| request := req; geoJSON := None;
         ViewBoxWidth := 0%float; ViewBoxHeight := 0%float;
         breaks := []; referencePos := 0%float;
         VerticalLegendWidth := 0%float; verticalKeyOffset := 0%float;
         responsiveSize := false |}
  end.

End Example.

(** ** Notions of the further properties *)

(** [UsePNGConverter] assigns the converter that generates fallback png
    images: it sets the package variable and changes nothing else. *)
Definition UsePNGConverter (collab : Collaborators)
    (p : option g2s.PNGConverter) : Collaborators :=
  {| ToGeoJSON := ToGeoJSON;
     GetHeightForWidth := GetHeightForWidth;
     DrawWithProjection := DrawWithProjection;
     GetApproximateTextWidth := GetApproximateTextWidth;
     idPrefix := idPrefix;
     mapID := mapID;
     fmt_g := fmt_g;
     fmt_f := fmt_f;
     fmt_0f := fmt_0f;
     fmt_v := fmt_v;
     pngConverter := p |}.

(** A break whose lower bound is a number. *)
Definition numericBound (b : models.ChoroplethBreak) : Prop :=
  PrimFloat.is_nan (models.LowerBound b) = false.

(** The lower bound of [a] is at most that of [b]. *)
Definition boundLe (a b : models.ChoroplethBreak) : Prop :=
  F64.le (models.LowerBound a) (models.LowerBound b) = true.

(** The lower bound of [a] is below that of [b]. *)
Definition boundLt (a b : models.ChoroplethBreak) : Prop :=
  F64.lt (models.LowerBound a) (models.LowerBound b) = true.

(** The data rows in ascending order of value, as [getSortedBreakInfo]
    sorts its copy of them. *)
Definition sortedData (data : list models.DataRow) : list models.DataRow :=
  sort_Slice (fun di dj => F64.lt (models.Value di) (models.Value dj)) data.

(** The range of the legend: it starts at the lower of the first sorted
    data value and the first sorted lower bound, and ends at the
    configured upper bound, or at the last sorted data value when the
    upper bound is below the last lower bound. *)
Definition breakRange (data : list models.DataRow)
    (choropleth : models.Choropleth) : option (float * float) :=
  let breaks := sortBreaks (models.Breaks choropleth) true in
  d0 ← head (sortedData data);
  dl ← last (sortedData data);
  b0 ← head breaks;
  bl ← last breaks;
  Some (F64.Min (models.Value d0) (models.LowerBound b0),
        if F64.lt (models.UpperBound choropleth) (models.LowerBound bl)
        then models.Value dl else models.UpperBound choropleth).

(** One class per break: it starts at the lower bound of the break and
    ends at the lower bound of the next break, or at [maxValue] when
    there is none. *)
Fixpoint classesOf (breaks : list models.ChoroplethBreak) (maxValue : float)
  : list breakInfo :=
  match breaks with
  | [] => []
  | b :: rest =>
      {| LowerBound := models.LowerBound b;
         UpperBound := match rest with
                       | next :: _ => models.LowerBound next
                       | [] => maxValue
                       end;
         RelativeSize := 0%float;
         Colour := models.Colour b |} :: classesOf rest maxValue
  end.

(** The classes with the first one starting at [minValue]. *)
Definition startAt (minValue : float) (classes : list breakInfo)
  : list breakInfo :=
  match classes with
  | [] => []
  | c :: rest => withLowerBound c minValue :: rest
  end.

(** The classes with their sizes relative to [totalRange]. *)
Definition sized (totalRange : float) (classes : list breakInfo)
  : list breakInfo :=
  map (fun c => withRelativeSize c
                  ((UpperBound c - LowerBound c) / totalRange)%float)
      classes.

(** ** Proof support *)

(** From [E : (r ≫= k) = Ok b]: the first step returned some [a], and
    [E] becomes the equation of the rest, [k a = Ok b]. *)
Ltac bind_inv E :=
  match type of E with
  | (?r ≫= _) = Ok _ =>
      let a := fresh "a" in
      let Ea := fresh "Ea" in
      destruct r as [a|] eqn:Ea;
      [cbn [mbind result_bind] in E | discriminate E]
  end.

(** * Part II: properties *)

(** ** The order of binary64 comparisons *)

Lemma SFcompare_key (a b : spec_float) (c : comparison) :
  SFcompare a b = Some c ->
  exists ka kb, F64.key a = Some ka /\ F64.key b = Some kb /\ F64.key_rel c ka kb.
Proof.
  destruct a as [sa|sa| |sa ma ea], b as [sb|sb| |sb mb eb];
    try destruct sa; try destruct sb; cbn [SFcompare F64.key];
    intros E; try discriminate E; injection E as <-;
    do 2 eexists; (split; [reflexivity|split; [reflexivity|]]);
    cbn [F64.key_rel F64.key_lt]; try reflexivity; try lia.
  - change (Pos.compare_cont Eq ma mb) with (Pos.compare ma mb).
    destruct (Z.compare_spec ea eb) as [->| |];
      cbn [F64.key_rel F64.key_lt]; try lia.
    destruct (Pos.compare_spec ma mb) as [->| |];
      cbn [CompOpp F64.key_rel F64.key_lt]; try reflexivity; lia.
  - change (Pos.compare_cont Eq ma mb) with (Pos.compare ma mb).
    destruct (Z.compare_spec ea eb) as [->| |];
      cbn [F64.key_rel F64.key_lt]; try lia.
    destruct (Pos.compare_spec ma mb) as [->| |];
      cbn [F64.key_rel F64.key_lt]; try reflexivity; lia.
Qed.

Lemma SFcompare_total (a b : spec_float) :
  a <> S754_nan -> b <> S754_nan -> exists c, SFcompare a b = Some c.
Proof.
  destruct a, b; cbn [SFcompare]; intros Ha Hb; try congruence; eauto.
Qed.

Lemma key_rel_inj (c c' : comparison) (ka kb : Z * Z * Z) :
  F64.key_rel c ka kb -> F64.key_rel c' ka kb -> c = c'.
Proof.
  destruct ka as [[a1 a2] a3], kb as [[b1 b2] b3].
  destruct c, c'; cbn [F64.key_rel F64.key_lt]; intros E E';
    try reflexivity; exfalso;
    repeat match goal with
           | E0 : (_, _) = (_, _) |- _ => injection E0 as ? ? ?
           end; lia.
Qed.

(** Two comparable floats and the relation of their keys. *)
Lemma cmp_keys (x y : float) (c : comparison) :
  F64.cmp x y = Some c ->
  exists kx ky,
    F64.key (Prim2SF x) = Some kx /\ F64.key (Prim2SF y) = Some ky
    /\ F64.key_rel c kx ky.
Proof. apply SFcompare_key. Qed.

(** Floats with keys compare as their keys do. *)
Lemma cmp_of_keys (x y : float) (c : comparison) (kx ky : Z * Z * Z) :
  F64.key (Prim2SF x) = Some kx -> F64.key (Prim2SF y) = Some ky ->
  F64.key_rel c kx ky -> F64.cmp x y = Some c.
Proof.
  intros Hx Hy Hr. unfold F64.cmp.
  destruct (SFcompare_total (Prim2SF x) (Prim2SF y)) as [c' Hc'].
  { intros E; rewrite E in Hx; discriminate. }
  { intros E; rewrite E in Hy; discriminate. }
  rewrite Hc'. f_equal.
  destruct (SFcompare_key _ _ _ Hc') as (kx' & ky' & Hx' & Hy' & Hr').
  rewrite Hx in Hx'; rewrite Hy in Hy'.
  injection Hx' as <-; injection Hy' as <-.
  exact (key_rel_inj _ _ kx ky Hr' Hr).
Qed.

Lemma cmp_antisym (x y : float) (c : comparison) :
  F64.cmp x y = Some c -> F64.cmp y x = Some (CompOpp c).
Proof.
  intros E. destruct (cmp_keys _ _ _ E) as (kx & ky & Hx & Hy & Hr).
  apply (cmp_of_keys y x _ ky kx Hy Hx).
  destruct c; cbn [CompOpp F64.key_rel] in *; auto.
Qed.

Lemma cmp_trans (x y z : float) (c : comparison) :
  F64.cmp x y = Some c -> F64.cmp y z = Some c -> F64.cmp x z = Some c.
Proof.
  intros Exy Eyz.
  destruct (cmp_keys _ _ _ Exy) as (kx & ky & Hx & Hy & Hr1).
  destruct (cmp_keys _ _ _ Eyz) as (ky' & kz & Hy' & Hz & Hr2).
  rewrite Hy in Hy'; injection Hy' as <-.
  apply (cmp_of_keys x z _ kx kz Hx Hz).
  destruct kx as [[x1 x2] x3], ky as [[y1 y2] y3], kz as [[z1 z2] z3].
  destruct c; cbn [F64.key_rel F64.key_lt] in *; try congruence; lia.
Qed.

Lemma cmp_eq_l (x y z : float) (c : comparison) :
  F64.cmp x y = Some Eq -> F64.cmp y z = Some c -> F64.cmp x z = Some c.
Proof.
  intros Exy Eyz.
  destruct (cmp_keys _ _ _ Exy) as (kx & ky & Hx & Hy & Hr1).
  destruct (cmp_keys _ _ _ Eyz) as (ky' & kz & Hy' & Hz & Hr2).
  rewrite Hy in Hy'; injection Hy' as <-.
  cbn [F64.key_rel] in Hr1; subst ky.
  exact (cmp_of_keys x z _ kx kz Hx Hz Hr2).
Qed.

Lemma lt_cmp (x y : float) : F64.lt x y = true <-> F64.cmp x y = Some Lt.
Proof.
  unfold F64.lt, F64.cmp. rewrite FloatAxioms.ltb_spec. unfold SFltb.
  destruct (SFcompare _ _) as [[]|]; split; congruence.
Qed.

Lemma le_cmp (x y : float) :
  F64.le x y = true <-> F64.cmp x y = Some Lt \/ F64.cmp x y = Some Eq.
Proof.
  unfold F64.le, F64.cmp. rewrite FloatAxioms.leb_spec. unfold SFleb.
  destruct (SFcompare _ _) as [[]|]; split; intros E; try tauto;
    try congruence; destruct E; congruence.
Qed.

Lemma eqb_cmp (x y : float) :
  PrimFloat.eqb x y = true <-> F64.cmp x y = Some Eq.
Proof.
  unfold F64.cmp. rewrite FloatAxioms.eqb_spec. unfold SFeqb.
  destruct (SFcompare _ _) as [[]|]; split; congruence.
Qed.

Lemma is_nan_cmp (x : float) :
  PrimFloat.is_nan x = false <-> F64.cmp x x = Some Eq.
Proof.
  unfold PrimFloat.is_nan. rewrite <- eqb_cmp.
  destruct (PrimFloat.eqb x x); cbn; split; congruence.
Qed.

(** A comparison that holds compares two numbers. *)
Lemma cmp_not_nan (x y : float) (c : comparison) :
  F64.cmp x y = Some c ->
  PrimFloat.is_nan x = false /\ PrimFloat.is_nan y = false.
Proof.
  intros E. destruct (cmp_keys _ _ _ E) as (kx & ky & Hx & Hy & _).
  split; apply is_nan_cmp.
  - exact (cmp_of_keys x x Eq kx kx Hx Hx eq_refl).
  - exact (cmp_of_keys y y Eq ky ky Hy Hy eq_refl).
Qed.

(** [x >= y] holds when [x == y]. *)
Lemma ge_of_eqb (x y : float) : PrimFloat.eqb x y = true -> F64.ge x y = true.
Proof.
  rewrite eqb_cmp. intros E. unfold F64.ge. apply le_cmp. right.
  apply cmp_antisym in E. exact E.
Qed.

(** [x >= y] fails when [x < y]. *)
Lemma ge_false_of_lt (x y : float) : F64.lt x y = true -> F64.ge x y = false.
Proof.
  rewrite lt_cmp. intros E. apply cmp_antisym in E. cbn in E.
  unfold F64.ge. destruct (PrimFloat.leb y x) eqn:E'; [|reflexivity].
  apply le_cmp in E'. destruct E'; congruence.
Qed.

(** [x < y] fails when [x >= y]. *)
Lemma lt_false_of_ge (x y : float) : F64.ge x y = true -> F64.lt x y = false.
Proof.
  intros E. destruct (F64.lt x y) eqn:E'; [|reflexivity].
  apply ge_false_of_lt in E'. congruence.
Qed.

(** [x <= y] fails when [x > y]. *)
Lemma le_false_of_gt (x y : float) : F64.gt x y = true -> F64.le x y = false.
Proof. apply (ge_false_of_lt y x). Qed.

(** Between two numbers, one of [x < y] and [x >= y] holds. *)
Lemma lt_or_ge (x y : float) :
  PrimFloat.is_nan x = false -> PrimFloat.is_nan y = false ->
  F64.lt x y = true \/ F64.ge x y = true.
Proof.
  rewrite !is_nan_cmp. intros Hx Hy.
  destruct (cmp_keys _ _ _ Hx) as (kx & _ & Kx & _ & _).
  destruct (cmp_keys _ _ _ Hy) as (ky & _ & Ky & _ & _).
  destruct (SFcompare_total (Prim2SF x) (Prim2SF y)) as [c Hc].
  { intros E; rewrite E in Kx; discriminate. }
  { intros E; rewrite E in Ky; discriminate. }
  destruct c.
  - right. unfold F64.ge. apply le_cmp. right. apply (cmp_antisym x y Eq Hc).
  - left. apply lt_cmp. exact Hc.
  - right. unfold F64.ge. apply le_cmp. left. apply (cmp_antisym x y Gt Hc).
Qed.

Lemma lt_trans (x y z : float) :
  F64.lt x y = true -> F64.lt y z = true -> F64.lt x z = true.
Proof. rewrite !lt_cmp. apply cmp_trans. Qed.

(** A value equal to [y] is below whatever [y] is below. *)
Lemma lt_of_eqb_lt (x y z : float) :
  PrimFloat.eqb x y = true -> F64.lt y z = true -> F64.lt x z = true.
Proof. rewrite eqb_cmp, !lt_cmp. apply cmp_eq_l. Qed.

(** ** Slices *)

Lemma index_last {A : Type} (s : list A) :
  index s (len s - 1) =
  match last s with Some a => Ok a | None => Panic IndexOutOfRange end.
Proof.
  unfold index, len. destruct s as [|a s].
  - reflexivity.
  - replace (Z.of_nat (length (a :: s)) - 1)%Z with (Z.of_nat (length s))
      by (cbn [length]; lia).
    destruct (Z.ltb_spec (Z.of_nat (length s)) 0); [lia|].
    rewrite Nat2Z.id, last_lookup. cbn [length Init.Nat.pred].
    destruct ((a :: s) !! length s); reflexivity.
Qed.

Lemma index_nil {A : Type} (i : Z) : index (@nil A) i = Panic IndexOutOfRange.
Proof. unfold index. destruct (i <? 0)%Z; reflexivity. Qed.

Lemma ins_length {A : Type} (less : A -> A -> bool) (x : A) (rp : list A) :
  length (ins less x rp) = S (length rp).
Proof.
  induction rp as [|y rp IH]; cbn [ins]; [reflexivity|].
  destruct (less x y); cbn [length]; congruence.
Qed.

Lemma sort_Slice_length {A : Type} (less : A -> A -> bool) (s : list A) :
  length (sort_Slice less s) = length s.
Proof.
  unfold sort_Slice. rewrite length_rev.
  assert (E : forall acc, length (fold_left (fun rp x => ins less x rp) s acc)
                          = (length s + length acc)%nat).
  { induction s as [|x s IH]; intros acc; cbn [fold_left length]; [lia|].
    rewrite IH, ins_length. lia. }
  rewrite E. cbn [length]. lia.
Qed.

Lemma sort_Slice_nil_iff {A : Type} (less : A -> A -> bool) (s : list A) :
  sort_Slice less s = [] <-> s = [].
Proof.
  split; [|intros ->; reflexivity].
  intros E. apply (f_equal length) in E.
  rewrite sort_Slice_length in E. destruct s; [reflexivity|discriminate].
Qed.

(** In a strongly sorted slice every element before [b] is related to it. *)
Lemma StronglySorted_before {A : Type} (R : A -> A -> Prop)
    (pre : list A) (b : A) (post : list A) :
  StronglySorted R (pre ++ b :: post) -> Forall (fun p => R p b) pre.
Proof.
  induction pre as [|p pre IH]; cbn [app]; intros S; [constructor|].
  inversion S as [|? ? S' F]; subst. constructor.
  - rewrite Forall_app in F. destruct F as [_ F].
    inversion F; subst; assumption.
  - apply IH; assumption.
Qed.

(** A slice in strictly descending order has every earlier lower bound
    above every later one. *)
Lemma descending_strongly (breaks : list models.ChoroplethBreak) :
  descending breaks ->
  StronglySorted
    (fun a b => F64.gt (models.LowerBound a) (models.LowerBound b) = true)
    breaks.
Proof.
  apply Sorted_StronglySorted. intros a b c Hab Hbc.
  unfold F64.gt in *. exact (lt_trans _ _ _ Hbc Hab).
Qed.

(** ** The colourizer *)

Lemma getColour_scan_first (v : float)
    (pre : list models.ChoroplethBreak) (b : models.ChoroplethBreak)
    (post : list models.ChoroplethBreak) :
  Forall (fun p => F64.ge v (models.LowerBound p) = false) pre ->
  F64.ge v (models.LowerBound b) = true ->
  getColour_scan v (pre ++ b :: post) = Some (models.Colour b).
Proof.
  intros Hpre Hb. induction Hpre as [|p pre Hp _ IH]; cbn [app getColour_scan].
  - rewrite Hb. reflexivity.
  - rewrite Hp. exact IH.
Qed.

Lemma getColour_scan_none (v : float) (breaks : list models.ChoroplethBreak) :
  Forall (fun p => F64.ge v (models.LowerBound p) = false) breaks ->
  getColour_scan v breaks = None.
Proof.
  induction 1 as [|p l Hp _ IH]; cbn [getColour_scan]; [reflexivity|].
  rewrite Hp. exact IH.
Qed.

(** What the scan returns is the colour of a break of the slice. *)
Lemma getColour_scan_elem (v : float) (breaks : list models.ChoroplethBreak)
    (c : string) :
  getColour_scan v breaks = Some c ->
  exists b, b ∈ breaks /\ models.Colour b = c.
Proof.
  induction breaks as [|b l IH]; cbn [getColour_scan]; [discriminate|].
  destruct (F64.ge v (models.LowerBound b)).
  - intros [= <-]. exists b. split; [left|reflexivity].
  - intros E. destruct (IH E) as (b' & Hin & Hc). exists b'.
    split; [right; exact Hin|exact Hc].
Qed.

(** With no breaks and a value to colour, [getColour] panics. *)
Lemma getColour_nil (v : float) : getColour v [] = Panic IndexOutOfRange.
Proof. reflexivity. Qed.

(** With a break, [getColour] returns. *)
Lemma getColour_total (v : float) (breaks : list models.ChoroplethBreak) :
  breaks <> [] -> exists c, getColour v breaks = Ok c.
Proof.
  intros Hne. unfold getColour.
  destruct (getColour_scan v breaks) as [c|]; [eauto|].
  rewrite index_last. destruct breaks as [|b l]; [congruence|].
  destruct (last (b :: l)) as [x|] eqn:E; [cbn; eauto|].
  apply last_None in E. discriminate.
Qed.

(** [x < y] and [y < x] do not both hold. *)
Lemma lt_asym (x y : float) : F64.lt x y = true -> F64.lt y x = false.
Proof.
  rewrite lt_cmp. intros E. apply cmp_antisym in E. cbn in E.
  destruct (F64.lt y x) eqn:E'; [|reflexivity].
  apply lt_cmp in E'. congruence.
Qed.

(** C1.  On a non-empty slice of breaks in descending order of lower
    bound, [getColour] returns the colour of the first break whose lower
    bound is at most the value; when no break qualifies it returns the
    colour of the last break, which has the lowest lower bound; and a
    value equal to the lower bound of a break gets the colour of that
    break.  In each case the result is the colour of a break of the
    slice. *)
Theorem getColour_first_break (v : float)
    (breaks : list models.ChoroplethBreak) :
  breaks <> [] ->
  descending breaks ->
  (forall pre b post,
      breaks = pre ++ b :: post ->
      Forall (fun p => F64.le (models.LowerBound p) v = false) pre ->
      F64.le (models.LowerBound b) v = true ->
      getColour v breaks = Ok (models.Colour b))
  /\ (Forall (fun p => F64.le (models.LowerBound p) v = false) breaks ->
      exists pre lowest,
        breaks = pre ++ [lowest]
        /\ Forall (fun p => F64.lt (models.LowerBound lowest)
                                   (models.LowerBound p) = true) pre
        /\ getColour v breaks = Ok (models.Colour lowest))
  /\ (forall pre b post,
      breaks = pre ++ b :: post ->
      PrimFloat.eqb v (models.LowerBound b) = true ->
      getColour v breaks = Ok (models.Colour b))
  /\ (exists b, b ∈ breaks /\ getColour v breaks = Ok (models.Colour b)).
Proof.
  intros Hne Hsorted.
  assert (Hfirst : forall pre b post,
             breaks = pre ++ b :: post ->
             Forall (fun p => F64.le (models.LowerBound p) v = false) pre ->
             F64.le (models.LowerBound b) v = true ->
             getColour v breaks = Ok (models.Colour b)).
  { intros pre b post -> Hpre Hb. unfold getColour.
    rewrite (getColour_scan_first v pre b post Hpre Hb). reflexivity. }
  split; [exact Hfirst|]. split; [|split].
  - intros Hnone. unfold getColour.
    rewrite (getColour_scan_none v breaks Hnone), index_last.
    destruct (last breaks) as [lowest|] eqn:El.
    + destruct (last_Some breaks lowest) as [[pre Epre] _]; [exact El|].
      exists pre, lowest. split; [exact Epre|]. split; [|reflexivity].
      subst breaks. apply descending_strongly in Hsorted.
      exact (StronglySorted_before _ pre lowest [] Hsorted).
    + apply last_None in El. congruence.
  - intros pre b post E Heq. apply (Hfirst pre b post E).
    + subst breaks. apply descending_strongly in Hsorted.
      apply StronglySorted_before in Hsorted.
      eapply Forall_impl; [exact Hsorted|]. cbn beta. intros p Hp.
      apply (ge_false_of_lt v (models.LowerBound p)).
      exact (lt_of_eqb_lt _ _ _ Heq Hp).
    + exact (ge_of_eqb _ _ Heq).
  - unfold getColour. destruct (getColour_scan v breaks) as [c|] eqn:Es.
    + destruct (getColour_scan_elem _ _ _ Es) as (b & Hin & <-). eauto.
    + rewrite index_last. destruct (last breaks) as [b|] eqn:El.
      * exists b. split; [|reflexivity].
        destruct (last_Some breaks b) as [[pre ->] _]; [exact El|].
        apply elem_of_app. right. left.
      * apply last_None in El. congruence.
Qed.

(** The value 5 on the breaks 10, 5, 0: the class that starts at 5. *)
Lemma getColour_first_break_witness :
  getColour 5%float Example.breaksDescending = Ok "green".
Proof.
  refine (proj1 (proj2 (proj2
            (getColour_first_break 5%float Example.breaksDescending _ _)))
            [Example.mkBreak 10%float "red"] (Example.mkBreak 5%float "green")
            [Example.mkBreak 0%float "blue"] eq_refl eq_refl).
  - discriminate.
  - unfold descending, Example.breaksDescending.
    repeat constructor.
Defined.

(** ** Request preparation *)

(** A [bind] that returns [Ok] ran both of its steps. *)
Lemma bind_Ok {A B : Type} (r : result A) (k : A -> result B) (b : B) :
  r ≫= k = Ok b -> exists a, r = Ok a /\ k a = Ok b.
Proof. destruct r as [a|p]; cbn; [eauto|discriminate]. Qed.

(** What [PrepareSVGRequest] stores when it returns. *)
Lemma PrepareSVGRequest_fields `{Collaborators} (req : RenderRequest)
    (s : SVGRequest) :
  PrepareSVGRequest req = Ok s ->
  request s = req
  /\ geoJSON s = getGeoJSON req
  /\ responsiveSize s
     = (F64.gt (MinWidth req) 0%float && F64.gt (MaxWidth req) 0%float)
  /\ (forall collection, getGeoJSON req = Some collection ->
        (ViewBoxWidth s, ViewBoxHeight s) = getViewBoxDimensions collection req).
Proof.
  unfold PrepareSVGRequest. intros E.
  destruct (getGeoJSON req) as [collection|] eqn:Eg.
  - destruct (getViewBoxDimensions collection req) as [width height] eqn:Ed.
    destruct (match Choropleth_ req with Some _ => _ | None => _ end).
    + bind_inv E. destruct a as [bs rp]. bind_inv E. destruct a as [lw ko].
      injection E as <-. cbn. repeat split; try reflexivity.
      intros c [= <-]. symmetry; exact Ed.
    + injection E as <-. cbn. repeat split; try reflexivity.
      intros c [= <-]. symmetry; exact Ed.
  - destruct (match Choropleth_ req with Some _ => _ | None => _ end).
    + bind_inv E. destruct a as [bs rp]. bind_inv E. destruct a as [lw ko].
      injection E as <-. cbn. repeat split; try reflexivity. discriminate.
    + injection E as <-. cbn. repeat split; try reflexivity. discriminate.
Qed.

(** ** C3: the width of the viewbox *)

(** C3, as stated, fails: with no fixed width, no minimum width and a
    maximum width of 300 the viewbox is 150 wide, the average, where the
    stated policy gives the default of 400 because the minimum is not
    positive. *)
Lemma viewBoxWidth_counterexample :
  (getViewBoxDimensions (collab := Example.collaborators)
     {| geojson.Features := [] |} Example.maxWidthOnlyRequest).1 = 150%float
  /\ documentedViewBoxWidth Example.maxWidthOnlyRequest = 400%float
  /\ (getViewBoxDimensions (collab := Example.collaborators)
        {| geojson.Features := [] |} Example.maxWidthOnlyRequest).1
     <> documentedViewBoxWidth Example.maxWidthOnlyRequest.
Proof.
  split; [reflexivity|]. split; [reflexivity|].
  intros E. apply (f_equal (fun x => PrimFloat.eqb x 150%float)) in E.
  vm_compute in E. discriminate E.
Qed.

(** C3, amended.  The width of the viewbox is the fixed width if it is
    positive; when the fixed width is zero or negative it is the average
    of the minimum and maximum widths if that average is positive, and
    the default of 400 if that average is zero or negative. *)
Theorem viewBoxWidth_policy `{Collaborators}
    (svg : geojson.FeatureCollection) (req : RenderRequest) :
  let width := (getViewBoxDimensions svg req).1 in
  let average := ((MinWidth req + MaxWidth req) / 2)%float in
  (F64.gt (DefaultWidth req) 0%float = true -> width = DefaultWidth req)
  /\ (F64.le (DefaultWidth req) 0%float = true ->
      F64.gt average 0%float = true -> width = average)
  /\ (F64.le (DefaultWidth req) 0%float = true ->
      F64.le average 0%float = true -> width = 400%float).
Proof.
  cbv zeta. unfold getViewBoxDimensions. cbn [fst]. repeat split.
  - intros Hd. rewrite (le_false_of_gt _ _ Hd), (le_false_of_gt _ _ Hd).
    reflexivity.
  - intros Hd Ha. rewrite Hd, (le_false_of_gt _ _ Ha). reflexivity.
  - intros Hd Ha. rewrite Hd, Ha. reflexivity.
Qed.

(** ** C10: preparation needs a data row *)

(** C10.  [getSortedBreakInfo] reads [data[0]] with no check that the
    slice has an element, and [PrepareSVGRequest] calls it whenever the
    choropleth has a break: on a request with a break and no data row
    both panic with an index out of range, so a preparation that returns
    had a data row. *)
Theorem PrepareSVGRequest_needs_data `{Collaborators} (req : RenderRequest)
    (choropleth : models.Choropleth) :
  Choropleth_ req = Some choropleth ->
  models.Breaks choropleth <> [] ->
  default [] (Data req) = [] ->
  getSortedBreakInfo req = Panic IndexOutOfRange
  /\ PrepareSVGRequest req = Panic IndexOutOfRange
  /\ (forall s, PrepareSVGRequest req <> Ok s).
Proof.
  intros Hc Hb Hd.
  assert (Eg : getSortedBreakInfo req = Panic IndexOutOfRange).
  { unfold getSortedBreakInfo. rewrite Hc, Hd. reflexivity. }
  assert (Ep : PrepareSVGRequest req = Panic IndexOutOfRange).
  { unfold PrepareSVGRequest. rewrite Hc, Eg. cbn beta iota.
    destruct (models.Breaks choropleth) as [|b l] eqn:Eb; [congruence|].
    replace (0 <? len (b :: l))%Z with true
      by (symmetry; apply Z.ltb_lt; unfold len; cbn [length]; lia).
    destruct (match getGeoJSON req with Some _ => _ | None => _ end).
    reflexivity. }
  split; [exact Eg|]. split; [exact Ep|].
  intros s E. rewrite Ep in E. discriminate E.
Qed.

(** Two breaks and an empty data slice. *)
Lemma PrepareSVGRequest_needs_data_witness :
  PrepareSVGRequest (collab := Example.collaborators)
    Example.emptyDataRequest = Panic IndexOutOfRange.
Proof.
  refine (proj1 (proj2
            (PrepareSVGRequest_needs_data Example.emptyDataRequest _
               eq_refl _ eq_refl))).
  discriminate.
Defined.

(** ** C2: the break information of a single break *)

Lemma index_sorted_first {A : Type} (less : A -> A -> bool) (a : A) (l : list A) :
  exists d0, index (sort_Slice less (a :: l)) 0 = Ok d0.
Proof.
  destruct (sort_Slice less (a :: l)) as [|d0 l'] eqn:E.
  - apply sort_Slice_nil_iff in E. discriminate E.
  - exists d0. reflexivity.
Qed.

Lemma index_sorted_last {A : Type} (less : A -> A -> bool) (a : A) (l : list A) :
  exists dl,
    index (sort_Slice less (a :: l)) (len (sort_Slice less (a :: l)) - 1)
    = Ok dl.
Proof.
  rewrite index_last.
  destruct (last (sort_Slice less (a :: l))) as [dl|] eqn:E; [eauto|].
  apply last_None, sort_Slice_nil_iff in E. discriminate E.
Qed.

(** C2 fails on a single break.  The slice of break information has one
    entry, still nil when [info[0].LowerBound] is assigned: on a request
    with one break and a data row [getSortedBreakInfo] panics with a nil
    dereference, and so does [PrepareSVGRequest]; no relative size is
    produced. *)
Theorem getSortedBreakInfo_single_break `{Collaborators} (req : RenderRequest)
    (choropleth : models.Choropleth) (b : models.ChoroplethBreak)
    (row : models.DataRow) (rows : list models.DataRow) :
  Choropleth_ req = Some choropleth ->
  models.Breaks choropleth = [b] ->
  Data req = Some (row :: rows) ->
  getSortedBreakInfo req = Panic NilDereference
  /\ PrepareSVGRequest req = Panic NilDereference.
Proof.
  intros Hc Hb Hd.
  assert (Eg : getSortedBreakInfo req = Panic NilDereference).
  { unfold getSortedBreakInfo. rewrite Hc, Hd.
    cbn [default deref mbind result_bind]. rewrite Hb.
    change (id (row :: rows)) with (row :: rows).
    destruct (index_sorted_first
                (fun di dj => F64.lt (models.Value di) (models.Value dj))
                row rows) as [d0 ->].
    destruct (index_sorted_last
                (fun di dj => F64.lt (models.Value di) (models.Value dj))
                row rows) as [dl ->].
    change (sortBreaks [b] true) with [b].
    change (index [b] 0) with (Ok b).
    change (index [b] (len [b] - 1)) with (Ok b).
    cbn [mbind result_bind].
    destruct (F64.lt _ _); reflexivity. }
  split; [exact Eg|].
  unfold PrepareSVGRequest. rewrite Hc, Eg. cbn beta iota. rewrite Hb.
  destruct (match getGeoJSON req with Some _ => _ | None => _ end).
  reflexivity.
Qed.

(** One break at 0 and the data row E01 = 7. *)
Lemma getSortedBreakInfo_single_break_witness :
  getSortedBreakInfo Example.singleBreakRequest = Panic NilDereference
  /\ PrepareSVGRequest (collab := Example.collaborators)
       Example.singleBreakRequest = Panic NilDereference.
Proof.
  exact (getSortedBreakInfo_single_break Example.singleBreakRequest _ _ _ _
           eq_refl eq_refl eq_refl).
Defined.

(** ** C5: a choropleth with no breaks *)

(** C5 fails.  On a request that has a geometry, a choropleth with no
    breaks and a data row, [mapDataToColour] calls [getColour] on the
    empty slice of breaks, which reads [breaks[-1]]: [RenderSVG] panics
    with an index out of range instead of completing. *)
Theorem RenderSVG_no_breaks_panics `{Collaborators} (s : SVGRequest)
    (collection : geojson.FeatureCollection) (geography : Geography)
    (choropleth : models.Choropleth) (row : models.DataRow)
    (rows : list models.DataRow) :
  geoJSON s = Some collection ->
  Geography_ (request s) = Some geography ->
  Choropleth_ (request s) = Some choropleth ->
  models.Breaks choropleth = [] ->
  Data (request s) = Some (row :: rows) ->
  mapDataToColour (row :: rows) choropleth (idPrefix (request s) +:+ "-")
    = Panic IndexOutOfRange
  /\ RenderSVG s = Panic IndexOutOfRange.
Proof.
  intros Hg Hgeo Hc Hb Hd.
  assert (Em : forall prefix,
             mapDataToColour (row :: rows) choropleth prefix
             = Panic IndexOutOfRange).
  { intros prefix. unfold mapDataToColour. rewrite Hb. reflexivity. }
  split; [apply Em|].
  unfold RenderSVG. rewrite Hg, Hgeo. cbn [deref mbind result_bind].
  unfold setChoroplethColoursAndTitles. rewrite Hc, Hd, Em. reflexivity.
Qed.

(** The prepared request of a choropleth with no breaks and one row. *)
Lemma RenderSVG_no_breaks_panics_witness :
  exists s,
    PrepareSVGRequest (collab := Example.collaborators) Example.noBreaksRequest
      = Ok s
    /\ RenderSVG (collab := Example.collaborators) s = Panic IndexOutOfRange.
Proof.
  eexists. split; [vm_compute; reflexivity|].
  refine (proj2 (RenderSVG_no_breaks_panics (H := Example.collaborators) _ _ _ _
                   _ _ _ _ _ _ _)); reflexivity.
Defined.

(** ** C6: no geometry *)

Lemma getGeoJSON_noGeometry `{Collaborators} (req : RenderRequest) :
  noGeometry req -> getGeoJSON req = None.
Proof.
  unfold noGeometry, getGeoJSON.
  destruct (Geography_ req) as [geography|]; [|reflexivity].
  destruct (Topojson geography) as [topology|]; [|reflexivity].
  intros [-> | ->]; [reflexivity|].
  rewrite map_size_empty. cbn. rewrite orb_true_r. reflexivity.
Qed.

(** C6.  When the request has no geography, no topojson, no arcs or no
    objects, [getGeoJSON] yields no feature collection, and on an
    [SVGRequest] that wraps the request, as [PrepareSVGRequest] builds it,
    [RenderSVG], [RenderHorizontalKey] and [RenderVerticalKey] each
    return the empty string and do not panic. *)
Theorem no_geometry_renders_nothing `{Collaborators} (req : RenderRequest) :
  noGeometry req ->
  getGeoJSON req = None
  /\ (forall s, PrepareSVGRequest req = Ok s ->
        request s = req /\ geoJSON s = getGeoJSON req)
  /\ (forall s, request s = req -> geoJSON s = getGeoJSON req ->
        RenderSVG s = Ok EmptyString
        /\ RenderHorizontalKey s = Ok EmptyString
        /\ RenderVerticalKey s = Ok EmptyString).
Proof.
  intros Hn. pose proof (getGeoJSON_noGeometry req Hn) as Eg.
  split; [exact Eg|]. split.
  - intros s E. destruct (PrepareSVGRequest_fields req s E) as (Er & Ej & _).
    split; assumption.
  - intros s _ Ej. rewrite Eg in Ej.
    unfold RenderSVG, RenderHorizontalKey, RenderVerticalKey. rewrite Ej.
    repeat split.
Qed.

(** A request with no geography is prepared and renders as nothing. *)
Lemma no_geometry_renders_nothing_witness :
  exists s,
    PrepareSVGRequest (collab := Example.collaborators)
      Example.noGeographyRequest = Ok s
    /\ RenderSVG (collab := Example.collaborators) s = Ok EmptyString
    /\ RenderHorizontalKey (collab := Example.collaborators) s = Ok EmptyString
    /\ RenderVerticalKey (collab := Example.collaborators) s = Ok EmptyString.
Proof.
  eexists. split; [vm_compute; reflexivity|].
  refine (proj2 (proj2 (no_geometry_renders_nothing
                          (H := Example.collaborators)
                          Example.noGeographyRequest I))
            _ _ _); reflexivity.
Defined.

(** ** C9: responsive and fixed-size legends *)









(** ** C8: the sides of the reference tick *)

(** C8, as stated, fails: on a request whose range is empty (breaks at 0
    and 5, no configured upper bound, one data row of value 0) the
    reference position is 0/0, which is not a number.  The position is
    then not at least 0.5, yet the longer text, the label, is placed on
    the left of the tick. *)
Lemma reference_side_counterexample :
  exists s info refInfo,
    PrepareSVGRequest (collab := Example.collaborators)
      Example.emptyRangeRequest = Ok s
    /\ getHorizontalKeyInfo (collab := Example.collaborators) 400%float s
       = Ok info
    /\ getHorizontalRefTextInfo (collab := Example.collaborators)
         Example.emptyRangeRequest = Ok refInfo
    /\ PrimFloat.is_nan (referencePos s) = true
    /\ F64.ge (referencePos s) 0.5%float = false
    /\ referenceTextLeft info = referenceTextLong refInfo
    /\ referenceTextLong refInfo = "Average".
Proof.
  eexists _, _, _.
  split; [vm_compute; reflexivity|].
  split; [vm_compute; reflexivity|].
  split; [vm_compute; reflexivity|].
  repeat split.
Qed.

(** C8, amended.  Of the reference value and the reference label text,
    the one with the larger approximate width is the long text and the
    other the short one (the value is the long one when the widths are
    equal or do not compare).  The long text is placed right of the tick
    and the short one left of it exactly when the relative position of
    the reference tick is below 0.5; in every other case, which is a
    position of at least 0.5 or a position that is not a number, the
    long text is placed left and the short one right. *)
Theorem reference_text_sides `{Collaborators} (svgWidth : float)
    (s : SVGRequest) (info : horizontalKeyInfo) :
  getHorizontalKeyInfo svgWidth s = Ok info ->
  exists choropleth refInfo,
    Choropleth_ (request s) = Some choropleth
    /\ getHorizontalRefTextInfo (request s) = Ok refInfo
    /\ let text := models.ReferenceValueText choropleth in
       let number := fmt_g (models.ReferenceValue choropleth) in
       let textLen := GetApproximateTextWidth text (FontSize (request s)) in
       let numberLen :=
         GetApproximateTextWidth number (FontSize (request s)) in
       (F64.gt textLen numberLen = true ->
          (referenceTextLong refInfo, referenceTextLongLen refInfo)
          = (text, textLen)
          /\ (referenceTextShort refInfo, referenceTextShortLen refInfo)
             = (number, numberLen))
       /\ (F64.gt textLen numberLen = false ->
           (referenceTextLong refInfo, referenceTextLongLen refInfo)
           = (number, numberLen)
           /\ (referenceTextShort refInfo, referenceTextShortLen refInfo)
              = (text, textLen))
       /\ (F64.lt (referencePos s) 0.5%float = true ->
           (referenceTextRight info, referenceTextRightLen info)
           = (referenceTextLong refInfo, referenceTextLongLen refInfo)
           /\ (referenceTextLeft info, referenceTextLeftLen info)
              = (referenceTextShort refInfo, referenceTextShortLen refInfo))
       /\ (F64.lt (referencePos s) 0.5%float = false ->
           (referenceTextLeft info, referenceTextLeftLen info)
           = (referenceTextLong refInfo, referenceTextLongLen refInfo)
           /\ (referenceTextRight info, referenceTextRightLen info)
              = (referenceTextShort refInfo, referenceTextShortLen refInfo))
       /\ (F64.lt (referencePos s) 0.5%float = false
           <-> F64.ge (referencePos s) 0.5%float = true
               \/ PrimFloat.is_nan (referencePos s) = true).
Proof.
  unfold getHorizontalKeyInfo. intros E. cbv zeta in E.
  apply bind_Ok in E. destruct E as (refInfo & Eref & E).
  bind_inv E. bind_inv E. injection E as <-.
  pose proof Eref as Eref'. unfold getHorizontalRefTextInfo in Eref'.
  destruct (Choropleth_ (request s)) as [choropleth|]; [|discriminate Eref'].
  exists choropleth, refInfo. split; [reflexivity|]. split; [exact Eref|].
  cbv zeta. cbn [deref mbind result_bind] in Eref'.
  cbn [referenceTextLeft referenceTextLeftLen referenceTextRight
       referenceTextRightLen].
  split; [|split; [|split; [|split]]].
  - intros Hgt. rewrite Hgt in Eref'. injection Eref' as <-. split; reflexivity.
  - intros Hgt. rewrite Hgt in Eref'. injection Eref' as <-. split; reflexivity.
  - intros Hlt. rewrite Hlt. split; reflexivity.
  - intros Hlt. rewrite Hlt. split; reflexivity.
  - split.
    + intros Hlt.
      destruct (PrimFloat.is_nan (referencePos s)) eqn:Hnan;
        [right; reflexivity|left].
      destruct (lt_or_ge (referencePos s) 0.5%float Hnan eq_refl) as [Hl|Hg];
        [rewrite Hl in Hlt; discriminate Hlt|exact Hg].
    + intros [Hge|Hnan]; [exact (lt_false_of_ge _ _ Hge)|].
      destruct (F64.lt (referencePos s) 0.5%float) eqn:Hlt; [|reflexivity].
      apply lt_cmp, cmp_not_nan in Hlt. destruct Hlt as [Hn _].
      rewrite Hn in Hnan. discriminate Hnan.
Qed.

(** The sample request: the reference value -60000 is wider than the
    label Avg and the tick is right of the middle, so the value is on
    the left. *)
Lemma reference_text_sides_witness :
  exists info,
    getHorizontalKeyInfo (collab := Example.collaborators) 400%float
      (Example.prepared Example.longLowerLabelRequest) = Ok info
    /\ referenceTextLeft info = "-60000"
    /\ referenceTextRight info = "Avg".
Proof.
  destruct (getHorizontalKeyInfo (collab := Example.collaborators) 400%float
              (Example.prepared Example.longLowerLabelRequest))
    as [info|p] eqn:E; [|vm_compute in E; discriminate E].
  exists info. split; [reflexivity|].
  destruct (reference_text_sides (H := Example.collaborators) _ _ _ E)
    as (choropleth & refInfo & Ec & _ & T).
  vm_compute in Ec. injection Ec as <-. cbv zeta in T.
  destruct T as (_ & Tlong & _ & Tleft & _).
  destruct (Tlong eq_refl) as [El Es]. destruct (Tleft eq_refl) as [Ell Err].
  split.
  - apply (f_equal fst) in Ell, El. cbn [fst] in Ell, El.
    rewrite Ell, El. reflexivity.
  - apply (f_equal fst) in Err, Es. cbn [fst] in Err, Es.
    rewrite Err, Es. reflexivity.
Defined.

(** ** C4: labels of the horizontal key and the bounds of the svg *)

(** C4 fails.  The key is narrowed only when the key at its default
    width together with the overhang on both sides is wider than the
    svg.  When that sum fits and the reference texts stay inside the
    overhang of the tick labels, the key keeps its default width of 90%
    and its centred position, however the overhang is divided between
    the two sides: the label of the lowest bound then starts at the
    centred position less half its width, which is left of the svg as
    soon as that half is the larger of the two. *)
Theorem horizontal_key_not_narrowed `{Collaborators} (svgWidth : float)
    (s : SVGRequest) (info : horizontalKeyInfo) (lowest highest : breakInfo) :
  getHorizontalKeyInfo svgWidth s = Ok info ->
  index (breaks s) 0 = Ok lowest ->
  index (breaks s) (len (breaks s) - 1) = Ok highest ->
  let defaultWidth := (svgWidth * 0.9)%float in
  let left0 := (boundTextWidth (request s) (LowerBound lowest) / 2)%float in
  let right0 := (boundTextWidth (request s) (UpperBound highest) / 2)%float in
  let refPos := (defaultWidth * referencePos s)%float in
  F64.lt (refPos - referenceTextLeftLen info)%float (0.0 - left0)%float = false ->
  F64.gt ((refPos + referenceTextRightLen info) - defaultWidth)%float right0
    = false ->
  F64.gt (defaultWidth + left0 + right0)%float svgWidth = false ->
  keyWidth info = defaultWidth
  /\ keyX info = ((svgWidth - defaultWidth) / 2)%float
  /\ lowestLabelLeft (request s) info lowest
     = ((svgWidth - defaultWidth) / 2 - left0)%float.
Proof.
  unfold getHorizontalKeyInfo. intros E E0 El. cbv zeta in E |- *.
  bind_inv E. rewrite E0, El in E. cbn [mbind result_bind] in E.
  injection E as <-.
  cbn [referenceTextLeftLen referenceTextRightLen keyWidth keyX].
  unfold lowestLabelLeft. cbn [keyX].
  intros Hl Hr Hs. rewrite Hl, Hr, Hs. repeat split.
Qed.

(** On the sample request the svg is 400 wide and the label of the lowest
    bound, -123456, is 49 wide.  Half of it, 24.5, and half of the label
    of the highest bound, 3.5, fit in the 40 left beside the key of 360,
    so the key stays at x = 20 and the label of the lowest bound starts
    at -4.5, left of the svg. *)
Lemma horizontal_key_not_narrowed_witness :
  exists info lowest,
    getHorizontalKeyInfo (collab := Example.collaborators) 400%float
      (Example.prepared Example.longLowerLabelRequest) = Ok info
    /\ index (breaks (Example.prepared Example.longLowerLabelRequest)) 0
       = Ok lowest
    /\ keyWidth info = 360%float
    /\ keyX info = 20%float
    /\ lowestLabelLeft (collab := Example.collaborators)
         Example.longLowerLabelRequest info lowest = (-4.5)%float
    /\ F64.lt (lowestLabelLeft (collab := Example.collaborators)
                 Example.longLowerLabelRequest info lowest) 0%float = true.
Proof.
  destruct (getHorizontalKeyInfo (collab := Example.collaborators) 400%float
              (Example.prepared Example.longLowerLabelRequest))
    as [info|p] eqn:E; [|vm_compute in E; discriminate E].
  destruct (index (breaks (Example.prepared Example.longLowerLabelRequest)) 0)
    as [lowest|p] eqn:E0; [|vm_compute in E0; discriminate E0].
  destruct (index (breaks (Example.prepared Example.longLowerLabelRequest))
              (len (breaks (Example.prepared Example.longLowerLabelRequest)) - 1))
    as [highest|p] eqn:El; [|vm_compute in El; discriminate El].
  exists info, lowest. split; [reflexivity|]. split; [reflexivity|].
  pose proof (horizontal_key_not_narrowed (H := Example.collaborators)
                400%float _ info lowest highest E E0 El) as T.
  cbv zeta in T.
  vm_compute in E, E0, El.
  injection E as <-. injection E0 as <-. injection El as <-.
  destruct (T eq_refl eq_refl eq_refl) as (Tw & Tx & Tl).
  split; [exact Tw|]. split; [exact Tx|].
  split; [etransitivity; [exact Tl|reflexivity]|].
  vm_compute. reflexivity.
Defined.

(** ** C7: fills and titles *)

Lemma mapDataToColour_row_Ok (breaks : list models.ChoroplethBreak)
    (prefix : string) (dataMap : gmap string valueAndColour)
    (row : models.DataRow) (c : string) :
  getColour (models.Value row) breaks = Ok c ->
  mapDataToColour_row breaks prefix dataMap row
  = Ok (<[prefix +:+ models.ID row :=
            {| value_ := models.Value row; colour := c |}]> dataMap).
Proof. intros E. unfold mapDataToColour_row. rewrite E. reflexivity. Qed.

Lemma foldM_mapDataToColour (breaks : list models.ChoroplethBreak)
    (prefix : string) (data : list models.DataRow) :
  (data = [] \/ breaks <> []) ->
  forall dataMap0 : gmap string valueAndColour,
  exists dataMap : gmap string valueAndColour,
    foldM (mapDataToColour_row breaks prefix) dataMap0 data = Ok dataMap
    /\ forall key : string,
         match last (filter (fun row => prefix +:+ models.ID row = key) data) with
         | Some row =>
             exists c, getColour (models.Value row) breaks = Ok c
                       /\ dataMap !! key
                          = Some {| value_ := models.Value row; colour := c |}
         | None => dataMap !! key = dataMap0 !! key
         end.
Proof.
  intros Hok. induction data as [|row rest IH]; intros dataMap0.
  - exists dataMap0. split; [reflexivity|]. intros key. reflexivity.
  - destruct Hok as [Hnil|Hne]; [discriminate Hnil|].
    destruct (getColour_total (models.Value row) breaks Hne) as [c Ec].
    cbn [foldM]. rewrite (mapDataToColour_row_Ok _ _ _ _ c Ec).
    cbn [mbind result_bind].
    destruct (IH (or_intror Hne)
                 (<[prefix +:+ models.ID row :=
                      {| value_ := models.Value row; colour := c |}]> dataMap0))
      as (dataMap & Ef & Hlook).
    exists dataMap. split; [exact Ef|]. intros key.
    specialize (Hlook key). rewrite filter_cons.
    destruct (decide (prefix +:+ models.ID row = key)) as [Ek|Ek].
    + rewrite last_cons.
      destruct (last (filter _ rest)) as [row'|]; [exact Hlook|].
      exists c. split; [exact Ec|]. rewrite Hlook, Ek.
      apply lookup_insert_eq.
    + destruct (last (filter _ rest)) as [row'|]; [exact Hlook|].
      rewrite Hlook. apply lookup_insert_ne. exact Ek.
Qed.

(** The map [mapDataToColour] builds, read at the id of a feature. *)
Lemma mapDataToColour_lookupID (data : list models.DataRow)
    (choropleth : models.Choropleth) (prefix : string) :
  (data = [] \/ models.Breaks choropleth <> []) ->
  exists dataMap : gmap string valueAndColour,
    mapDataToColour data choropleth prefix = Ok dataMap
    /\ forall id : geojson.FeatureID,
         match matchingRow prefix data id with
         | Some row =>
             exists c,
               getColour (models.Value row)
                         (sortBreaks (models.Breaks choropleth) false) = Ok c
               /\ lookupID dataMap id
                  = Some {| value_ := models.Value row; colour := c |}
         | None => lookupID dataMap id = None
         end.
Proof.
  intros Hok. unfold mapDataToColour.
  destruct (foldM_mapDataToColour
              (sortBreaks (models.Breaks choropleth) false) prefix data)
    with (dataMap0 := (∅ : gmap string valueAndColour))
    as (dataMap & Ef & Hlook).
  { destruct Hok as [Hnil|Hne]; [left; exact Hnil|right].
    intros E. apply sort_Slice_nil_iff in E. exact (Hne E). }
  exists dataMap. split; [exact Ef|]. intros [|key|f]; cbn [matchingRow lookupID];
    try reflexivity.
  specialize (Hlook key).
  destruct (last (filter _ data)) as [row|]; [exact Hlook|].
  rewrite Hlook. apply lookup_empty.
Qed.

Lemma mapM_Forall2 {A B : Type} (f : A -> result B) (P : A -> B -> Prop)
    (l : list A) :
  (forall a, exists b, f a = Ok b /\ P a b) ->
  exists l', mapM f l = Ok l' /\ Forall2 P l l'.
Proof.
  intros Hf. induction l as [|a l IH].
  - exists []. split; [reflexivity|constructor].
  - destruct (Hf a) as (b & Eb & Pb). destruct IH as (l' & El & Fl).
    exists (b :: l'). cbn [mapM]. rewrite Eb. cbn [mbind result_bind].
    rewrite El. split; [reflexivity|]. constructor; assumption.
Qed.

(** C7, as stated, fails: when the request has no data member the
    function returns at once, and the features, which then match no
    data row, keep their properties; they get no missing-data fill. *)
Lemma missing_data_fill_counterexample :
  matchingRow "map-" (default [] (Data Example.noDataRequest))
              (geojson.ID (Example.region "E01" "Leeds")) = None
  /\ matchingRow "map-" (default [] (Data Example.noDataRequest))
                 (geojson.ID (Example.region "E02" "York")) = None
  /\ setChoroplethColoursAndTitles (collab := Example.collaborators)
       [Example.region "E01" "Leeds"; Example.region "E02" "York"]
       Example.noDataRequest
     = Ok [Example.region "E01" "Leeds"; Example.region "E02" "York"]
  /\ geojson.Properties (Example.region "E01" "Leeds") !! "style" = None
  /\ geojson.Properties (Example.region "E02" "York") !! "style" = None.
Proof. repeat split. Qed.

(** C7, amended.  When the choropleth or the data slice of the request
    is nil, [setChoroplethColoursAndTitles] leaves every feature as it
    is.  When the request has a choropleth, a data slice that is not nil
    and a geography, and the choropleth has a break unless there is no
    data row, it returns, and for every feature: if its id matches no
    data row, its style is the missing-data fill of the request's prefix
    and its title ends in the data-unavailable text; if it matches a
    row, its style is the fill of the colour [getColour] chooses for the
    value of the row among the breaks sorted descending, and its title
    holds the value between the configured prefix and suffix.  Either
    fill is followed by the style the feature has once its title is
    set: the style it already had, with the title kept under the name
    property, unless the name property is itself the style property,
    when the title is what follows the fill. *)
Theorem choropleth_colours_and_titles `{Collaborators}
    (features : list geojson.Feature) (req : RenderRequest) :
  (Choropleth_ req = None \/ Data req = None ->
   setChoroplethColoursAndTitles features req = Ok features)
  /\ forall (choropleth : models.Choropleth) (data : list models.DataRow)
            (geography : Geography),
       Choropleth_ req = Some choropleth ->
       Data req = Some data ->
       Geography_ req = Some geography ->
       (data = [] \/ models.Breaks choropleth <> []) ->
       exists features',
         setChoroplethColoursAndTitles features req = Ok features'
         /\ Forall2
              (fun feature feature' =>
                 let name :=
                   fmt_v (default (VString EmptyString)
                            (geojson.Properties feature
                               !! NameProperty geography)) in
                 let style := geojson.Properties feature' !! "style" in
                 let title :=
                   geojson.Properties feature' !! NameProperty geography in
                 let styled fill text :=
                   style
                   = Some (VString
                       (styleBefore
                          (withProperty feature (NameProperty geography)
                                        (VString text))
                          fill))
                   /\ (NameProperty geography <> "style" ->
                       style = Some (VString (styleBefore feature fill))
                       /\ title = Some (VString text)) in
                 geojson.ID feature' = geojson.ID feature
                 /\ match matchingRow (idPrefix req +:+ "-") data
                            (geojson.ID feature) with
                    | None =>
                        styled ("fill: url(#" +:+ idPrefix req +:+ "-nodata);")
                               (name +:+ " " +:+ MissingDataText)
                    | Some row =>
                        exists c,
                          getColour (models.Value row)
                            (sortBreaks (models.Breaks choropleth) false)
                          = Ok c
                          /\ styled ("fill: " +:+ c +:+ ";")
                               (name +:+ " " +:+ models.ValuePrefix choropleth
                                  +:+ fmt_g (models.Value row)
                                  +:+ models.ValueSuffix choropleth)
                    end)
              features features'.
Proof.
  split.
  { unfold setChoroplethColoursAndTitles. intros [-> | ->]; [reflexivity|].
    destruct (Choropleth_ req); reflexivity. }
  intros choropleth data geography Hc Hd Hg Hok.
  unfold setChoroplethColoursAndTitles. rewrite Hc, Hd.
  destruct (mapDataToColour_lookupID data choropleth (idPrefix req +:+ "-") Hok)
    as (dataMap & -> & Hlook).
  cbn [mbind result_bind]. apply mapM_Forall2. intros feature.
  unfold setColourAndTitle. rewrite Hg. cbn [deref mbind result_bind].
  specialize (Hlook (geojson.ID feature)).
  assert (Estyle : forall text fill,
             geojson.Properties
               (appendProperty
                  (withProperty feature (NameProperty geography) (VString text))
                  "style" fill) !! "style"
             = Some (VString
                       (styleBefore
                          (withProperty feature (NameProperty geography)
                                        (VString text))
                          fill))).
  { intros text fill. unfold appendProperty, styleBefore.
    unfold withProperty at 1. cbn [geojson.Properties].
    rewrite lookup_insert_eq. reflexivity. }
  assert (Ekept : forall text fill,
             NameProperty geography <> "style" ->
             styleBefore
               (withProperty feature (NameProperty geography) (VString text))
               fill
             = styleBefore feature fill).
  { intros text fill Hname. unfold styleBefore, withProperty.
    cbn [geojson.Properties].
    rewrite lookup_insert_ne by exact Hname. reflexivity. }
  assert (Etitle : forall text fill,
             NameProperty geography <> "style" ->
             geojson.Properties
               (appendProperty
                  (withProperty feature (NameProperty geography) (VString text))
                  "style" fill) !! NameProperty geography
             = Some (VString text)).
  { intros text fill Hname. unfold appendProperty, withProperty.
    cbn [geojson.Properties].
    rewrite lookup_insert_ne by (intros E; apply Hname; symmetry; exact E).
    apply lookup_insert_eq. }
  assert (Ename :
            match geojson.Properties feature !! NameProperty geography with
            | Some title => title
            | None => VString EmptyString
            end
            = default (VString EmptyString)
                (geojson.Properties feature !! NameProperty geography)).
  { destruct (geojson.Properties feature !! NameProperty geography);
      reflexivity. }
  rewrite Ename.
  destruct (matchingRow (idPrefix req +:+ "-") data (geojson.ID feature))
    as [row|].
  - destruct Hlook as (c & Ec & ->). eexists. split; [reflexivity|].
    cbv zeta. split; [reflexivity|]. exists c. split; [exact Ec|].
    split; [apply Estyle|]. intros Hname.
    rewrite Estyle, (Ekept _ _ Hname), (Etitle _ _ Hname). split; reflexivity.
  - rewrite Hlook. eexists. split; [reflexivity|].
    cbv zeta. split; [reflexivity|].
    split; [apply Estyle|]. intros Hname.
    rewrite Estyle, (Ekept _ _ Hname), (Etitle _ _ Hname). split; reflexivity.
Qed.

(** The sample choropleth on the regions E01, which has the value 1, and
    E02, which has no data row. *)
Lemma choropleth_colours_and_titles_witness :
  exists leeds york,
    setChoroplethColoursAndTitles (collab := Example.collaborators)
      [Example.region "E01" "Leeds"; Example.region "E02" "York"]
      Example.longLowerLabelRequest
    = Ok [leeds; york]
    /\ geojson.Properties leeds !! "style" = Some (VString "fill: green;")
    /\ geojson.Properties leeds !! "name" = Some (VString "Leeds Rate1%")
    /\ geojson.Properties york !! "style"
       = Some (VString "fill: url(#map-nodata);")
    /\ geojson.Properties york !! "name"
       = Some (VString "York data unavailable").
Proof.
  assert (Hn : NameProperty Example.geography <> "style") by discriminate.
  assert (Hb : [Example.mkRow "E01" 1%float] = []
               \/ models.Breaks Example.longLowerLabelChoropleth <> [])
    by (right; discriminate).
  destruct (proj2 (choropleth_colours_and_titles (H := Example.collaborators)
                     [Example.region "E01" "Leeds"; Example.region "E02" "York"]
                     Example.longLowerLabelRequest)
              Example.longLowerLabelChoropleth
              [Example.mkRow "E01" 1%float] Example.geography
              eq_refl eq_refl eq_refl Hb)
    as (features' & E & F).
  inversion F as [|f1 leeds l1 l1' P1 F1]; subst.
  inversion F1 as [|f2 york l2 l2' P2 F2]; subst.
  inversion F2; subst.
  exists leeds, york. split; [exact E|].
  cbv zeta in P1, P2. destruct P1 as [_ P1]. destruct P2 as [_ P2].
  cbn [matchingRow geojson.ID Example.region] in P1, P2.
  destruct (last _) as [row|] eqn:Erow in P1;
    [|vm_compute in Erow; discriminate Erow].
  vm_compute in Erow. injection Erow as <-.
  destruct P1 as (c & Ec & _ & S1). destruct (S1 Hn) as [Es1 Et1].
  vm_compute in Ec. injection Ec as <-.
  destruct (last _) as [row|] eqn:Erow in P2;
    [vm_compute in Erow; discriminate Erow|].
  destruct P2 as [_ S2]. destruct (S2 Hn) as [Es2 Et2].
  repeat split; vm_compute.
  - vm_compute in Es1. exact Es1.
  - vm_compute in Et1. exact Et1.
  - vm_compute in Es2. exact Es2.
  - vm_compute in Et2. exact Et2.
Defined.

(** ** More on the order of binary64 comparisons *)

Lemma cmp_eq_r (x y z : float) (c : comparison) :
  F64.cmp x y = Some c -> F64.cmp y z = Some Eq -> F64.cmp x z = Some c.
Proof.
  intros Exy Eyz.
  destruct (cmp_keys _ _ _ Exy) as (kx & ky & Hx & Hy & Hr1).
  destruct (cmp_keys _ _ _ Eyz) as (ky' & kz & Hy' & Hz & Hr2).
  rewrite Hy in Hy'; injection Hy' as <-.
  cbn [F64.key_rel] in Hr2; subst kz.
  exact (cmp_of_keys x z _ kx ky Hx Hz Hr1).
Qed.

Lemma le_trans (x y z : float) :
  F64.le x y = true -> F64.le y z = true -> F64.le x z = true.
Proof.
  rewrite !le_cmp. intros [Exy|Exy] [Eyz|Eyz].
  - left. exact (cmp_trans _ _ _ _ Exy Eyz).
  - left. exact (cmp_eq_r _ _ _ _ Exy Eyz).
  - left. exact (cmp_eq_l _ _ _ _ Exy Eyz).
  - right. exact (cmp_eq_l _ _ _ _ Exy Eyz).
Qed.

Lemma le_refl (x : float) : PrimFloat.is_nan x = false -> F64.le x x = true.
Proof. rewrite is_nan_cmp, le_cmp. auto. Qed.

Lemma le_not_nan (x y : float) :
  F64.le x y = true ->
  PrimFloat.is_nan x = false /\ PrimFloat.is_nan y = false.
Proof. rewrite le_cmp. intros [E|E]; exact (cmp_not_nan _ _ _ E). Qed.

Lemma le_of_lt (x y : float) : F64.lt x y = true -> F64.le x y = true.
Proof. rewrite lt_cmp, le_cmp. auto. Qed.

(** Between two numbers, [x < y] fails only when [y <= x]. *)
Lemma le_of_not_lt (x y : float) :
  PrimFloat.is_nan x = false -> PrimFloat.is_nan y = false ->
  F64.lt x y = false -> F64.le y x = true.
Proof.
  intros Hx Hy E. destruct (lt_or_ge x y Hx Hy) as [E'|E']; [congruence|].
  exact E'.
Qed.

(** Between two numbers, [x <= y] fails only when [y < x]. *)
Lemma lt_of_not_le (x y : float) :
  PrimFloat.is_nan x = false -> PrimFloat.is_nan y = false ->
  F64.le x y = false -> F64.lt y x = true.
Proof.
  intros Hx Hy E. destruct (lt_or_ge y x Hy Hx) as [E'|E']; [exact E'|].
  unfold F64.ge, F64.le in *. congruence.
Qed.

(** ** sort.Slice sorts *)

Lemma ins_Permutation {A : Type} (less : A -> A -> bool) (x : A) (rp : list A) :
  ins less x rp ≡ₚ x :: rp.
Proof.
  induction rp as [|y rp IH]; cbn [ins]; [reflexivity|].
  destruct (less x y); [|reflexivity].
  rewrite IH. apply Permutation_swap.
Qed.

Lemma fold_ins_Permutation {A : Type} (less : A -> A -> bool) (s acc : list A) :
  fold_left (fun rp x => ins less x rp) s acc ≡ₚ s ++ acc.
Proof.
  revert acc. induction s as [|x s IH]; intros acc; cbn [fold_left app];
    [reflexivity|].
  rewrite IH, ins_Permutation. symmetry. apply Permutation_middle.
Qed.

(** The sorted slice holds the elements of the slice, each as often. *)
Lemma sort_Slice_Permutation {A : Type} (less : A -> A -> bool) (s : list A) :
  sort_Slice less s ≡ₚ s.
Proof.
  unfold sort_Slice. rewrite <- Permutation_rev, fold_ins_Permutation.
  rewrite app_nil_r. reflexivity.
Qed.

Section SortSorted.
Context {A : Type} (less : A -> A -> bool) (leq : A -> A -> Prop) (P : A -> Prop).
Hypothesis leq_trans : forall x y z, leq x y -> leq y z -> leq x z.
Hypothesis less_leq : forall x y, P x -> P y -> less x y = true -> leq x y.
Hypothesis not_less_leq : forall x y, P x -> P y -> less x y = false -> leq y x.

Lemma ins_sorted (x : A) (rp : list A) :
  P x -> Forall P rp ->
  StronglySorted (flip leq) rp -> StronglySorted (flip leq) (ins less x rp).
Proof.
  intros Px. induction rp as [|y rp IH]; intros HP HS; cbn [ins].
  - repeat constructor.
  - apply Forall_cons in HP as [Py HP].
    apply StronglySorted_cons in HS as [Hy HS].
    destruct (less x y) eqn:E.
    + apply StronglySorted_cons. split; [|exact (IH HP HS)].
      rewrite ins_Permutation. constructor; [|exact Hy].
      exact (less_leq x y Px Py E).
    + pose proof (not_less_leq x y Px Py E) as Hyx.
      apply StronglySorted_cons. split.
      * constructor; [exact Hyx|].
        eapply Forall_impl; [exact Hy|]. intros z Hz. unfold flip in *.
        exact (leq_trans z y x Hz Hyx).
      * apply StronglySorted_cons. split; assumption.
Qed.

Lemma fold_ins_sorted (s acc : list A) :
  Forall P s -> Forall P acc -> StronglySorted (flip leq) acc ->
  StronglySorted (flip leq) (fold_left (fun rp x => ins less x rp) s acc).
Proof.
  revert acc. induction s as [|x s IH]; intros acc Hs Hacc HS;
    cbn [fold_left]; [exact HS|].
  apply Forall_cons in Hs as [Px Hs]. apply IH; [exact Hs| |].
  - rewrite ins_Permutation. constructor; assumption.
  - apply ins_sorted; assumption.
Qed.

Lemma StronglySorted_rev (l : list A) :
  StronglySorted (flip leq) l -> StronglySorted leq (rev l).
Proof.
  induction l as [|x l IH]; intros HS; cbn [rev]; [constructor|].
  apply StronglySorted_cons in HS as [Hx HS].
  apply StronglySorted_app_2.
  - intros x1 x2 H1 H2. apply list_elem_of_singleton in H2 as ->.
    rewrite Forall_forall in Hx. apply Hx.
    apply list_elem_of_In. apply in_rev. apply list_elem_of_In. exact H1.
  - exact (IH HS).
  - repeat constructor.
Qed.

(** When [less] is the strict part of a total preorder on the elements
    of the slice, the sorted slice is in order. *)
Lemma sort_Slice_sorted (s : list A) :
  Forall P s -> StronglySorted leq (sort_Slice less s).
Proof.
  intros Hs. unfold sort_Slice. apply StronglySorted_rev.
  apply fold_ins_sorted; [exact Hs|constructor|constructor].
Qed.

End SortSorted.

Lemma numericBound_lt_or_le (a b : models.ChoroplethBreak) :
  numericBound a -> numericBound b ->
  F64.lt (models.LowerBound a) (models.LowerBound b) = false -> boundLe b a.
Proof. intros Ha Hb. apply le_of_not_lt; assumption. Qed.

(** Breaks with numeric lower bounds, sorted either way. *)
Lemma sortBreaks_ascending (breaks : list models.ChoroplethBreak) :
  Forall numericBound breaks ->
  StronglySorted boundLe (sortBreaks breaks true).
Proof.
  intros Hn. unfold sortBreaks.
  apply (sort_Slice_sorted _ boundLe numericBound); [| | |exact Hn].
  - intros x y z. apply le_trans.
  - intros x y _ _. apply le_of_lt.
  - intros x y Hx Hy. apply numericBound_lt_or_le; assumption.
Qed.

Lemma sortBreaks_descending (breaks : list models.ChoroplethBreak) :
  Forall numericBound breaks ->
  StronglySorted (flip boundLe) (sortBreaks breaks false).
Proof.
  intros Hn. unfold sortBreaks.
  apply (sort_Slice_sorted _ (flip boundLe) numericBound); [| | |exact Hn].
  - intros x y z Hxy Hyz. unfold flip in *. exact (le_trans _ _ _ Hyz Hxy).
  - intros x y _ _ E. unfold flip. apply le_of_lt. exact E.
  - intros x y Hx Hy E. unfold flip.
    apply (le_of_not_lt (models.LowerBound y) (models.LowerBound x));
      assumption.
Qed.

(** X1.  [sortBreaks] keeps every break, each as often as the request
    lists it; when the lower bounds are numbers, the ascending copy has
    every break at or below all that follow it, and the descending copy
    has every break at or above all that follow it. *)
Theorem sortBreaks_sorted (breaks : list models.ChoroplethBreak) :
  Forall numericBound breaks ->
  (forall asc, sortBreaks breaks asc ≡ₚ breaks)
  /\ StronglySorted boundLe (sortBreaks breaks true)
  /\ StronglySorted (flip boundLe) (sortBreaks breaks false).
Proof.
  intros Hn. split; [|split].
  - intros asc. apply sort_Slice_Permutation.
  - exact (sortBreaks_ascending breaks Hn).
  - exact (sortBreaks_descending breaks Hn).
Qed.

(** The breaks 5, 10, 0 are sorted to 0, 5, 10 and to 10, 5, 0. *)
Lemma sortBreaks_sorted_witness :
  StronglySorted boundLe
    (sortBreaks [Example.mkBreak 5%float "green"; Example.mkBreak 10%float "red";
                 Example.mkBreak 0%float "blue"] true)
  /\ sortBreaks [Example.mkBreak 5%float "green"; Example.mkBreak 10%float "red";
                 Example.mkBreak 0%float "blue"] false
     = Example.breaksDescending.
Proof.
  split; [|reflexivity].
  refine (proj1 (proj2 (sortBreaks_sorted _ _))).
  repeat constructor.
Defined.

(** ** Classification whatever the order of the breaks *)

Lemma getColour_scan_split (v : float) (breaks : list models.ChoroplethBreak)
    (c : string) :
  getColour_scan v breaks = Some c ->
  exists pre b post,
    breaks = pre ++ b :: post /\ models.Colour b = c
    /\ Forall (fun p => F64.le (models.LowerBound p) v = false) pre
    /\ F64.le (models.LowerBound b) v = true.
Proof.
  induction breaks as [|b l IH]; cbn [getColour_scan]; [discriminate|].
  destruct (F64.ge v (models.LowerBound b)) eqn:E.
  - intros [= <-]. exists [], b, l. repeat split. constructor. exact E.
  - intros Es. destruct (IH Es) as (pre & b' & post & -> & Hc & Hpre & Hb).
    exists (b :: pre), b', post. repeat split; try assumption.
    constructor; assumption.
Qed.

Lemma getColour_scan_none_inv (v : float)
    (breaks : list models.ChoroplethBreak) :
  getColour_scan v breaks = None ->
  Forall (fun p => F64.le (models.LowerBound p) v = false) breaks.
Proof.
  induction breaks as [|b l IH]; cbn [getColour_scan]; [constructor|].
  destruct (F64.ge v (models.LowerBound b)) eqn:E; [discriminate|].
  intros Es. constructor; [exact E|exact (IH Es)].
Qed.

(** The scan of [getColour] over the breaks sorted descending stops at a
    break with the greatest lower bound not above the value. *)
Lemma sorted_scan_found (v : float) (breaks : list models.ChoroplethBreak)
    (c : string) :
  Forall numericBound breaks ->
  getColour_scan v (sortBreaks breaks false) = Some c ->
  exists b,
    b ∈ breaks /\ models.Colour b = c
    /\ F64.le (models.LowerBound b) v = true
    /\ forall b', b' ∈ breaks ->
         F64.le (models.LowerBound b') v = true -> boundLe b' b.
Proof.
  intros Hn Es.
  pose proof (sort_Slice_Permutation
                (fun ci cj => F64.gt (models.LowerBound ci)
                                     (models.LowerBound cj)) breaks) as Hperm.
  pose proof (sortBreaks_descending breaks Hn) as HS.
  unfold sortBreaks in *. cbn beta iota in *.
  set (l := sort_Slice _ breaks) in *.
  assert (Hnl : Forall numericBound l) by (rewrite Hperm; exact Hn).
  destruct (getColour_scan_split _ _ _ Es)
    as (pre & b & post & El & Ec & Hpre & Hb).
  exists b. rewrite El in *. split.
  { rewrite <- Hperm. apply elem_of_app. right. left. }
  split; [exact Ec|]. split; [exact Hb|].
  intros b' Hin Hq. rewrite <- Hperm in Hin.
  apply elem_of_app in Hin as [Hin|Hin].
  - rewrite Forall_forall in Hpre. rewrite (Hpre b' Hin) in Hq.
    discriminate Hq.
  - apply elem_of_cons in Hin as [->|Hin].
    + apply le_refl. rewrite Forall_forall in Hnl. apply Hnl.
      apply elem_of_app. right. left.
    + apply StronglySorted_app_1_r, StronglySorted_cons in HS as [HS _].
      rewrite Forall_forall in HS. exact (HS b' Hin).
Qed.

(** When the scan finds no break, the last of the breaks sorted
    descending, which [getColour] then reads, has the least lower
    bound. *)
Lemma sorted_scan_none (v : float) (breaks : list models.ChoroplethBreak) :
  breaks <> [] ->
  Forall numericBound breaks ->
  getColour_scan v (sortBreaks breaks false) = None ->
  exists b,
    b ∈ breaks
    /\ index (sortBreaks breaks false) (len (sortBreaks breaks false) - 1)
       = Ok b
    /\ Forall (fun b' => F64.le (models.LowerBound b') v = false) breaks
    /\ forall b', b' ∈ breaks -> boundLe b b'.
Proof.
  intros Hne Hn Es.
  pose proof (sort_Slice_Permutation
                (fun ci cj => F64.gt (models.LowerBound ci)
                                     (models.LowerBound cj)) breaks) as Hperm.
  pose proof (sortBreaks_descending breaks Hn) as HS.
  unfold sortBreaks in *. cbn beta iota in *.
  set (l := sort_Slice _ breaks) in *.
  assert (Hnl : Forall numericBound l) by (rewrite Hperm; exact Hn).
  pose proof (getColour_scan_none_inv _ _ Es) as Hnone.
  rewrite index_last. destruct (last l) as [b|] eqn:El.
  - destruct (last_Some l b) as [[pre Epre] _]; [exact El|].
    exists b. rewrite Epre in *. split.
    { rewrite <- Hperm. apply elem_of_app. right. left. }
    split; [reflexivity|]. split.
    { rewrite <- Hperm. exact Hnone. }
    intros b' Hin. rewrite <- Hperm in Hin.
    apply elem_of_app in Hin as [Hin|Hin].
    + exact (StronglySorted_app_1_elem_of _ _ _ _ _ HS Hin
               ltac:(left)).
    + apply list_elem_of_singleton in Hin as ->.
      apply le_refl. rewrite Forall_forall in Hnl. apply Hnl.
      apply elem_of_app. right. left.
  - apply last_None in El. exfalso. apply Hne.
    apply Permutation_nil_r. rewrite <- Hperm, El. reflexivity.
Qed.

(** X2.  In whatever order the request lists its breaks, when their
    lower bounds are numbers the colour [mapDataToColour] gives a value
    is that of a break with the greatest lower bound not above the
    value; when every lower bound is above the value (or the value is
    not a number) it is that of a break with the least lower bound. *)
Theorem getColour_sorted_class (v : float)
    (breaks : list models.ChoroplethBreak) :
  breaks <> [] ->
  Forall numericBound breaks ->
  exists b,
    b ∈ breaks
    /\ getColour v (sortBreaks breaks false) = Ok (models.Colour b)
    /\ ((F64.le (models.LowerBound b) v = true
         /\ forall b', b' ∈ breaks ->
              F64.le (models.LowerBound b') v = true -> boundLe b' b)
        \/ (Forall (fun b' => F64.le (models.LowerBound b') v = false) breaks
            /\ forall b', b' ∈ breaks -> boundLe b b')).
Proof.
  intros Hne Hn. unfold getColour.
  destruct (getColour_scan v (sortBreaks breaks false)) as [c|] eqn:Es.
  - destruct (sorted_scan_found v breaks c Hn Es)
      as (b & Hin & <- & Hq & Hmax).
    exists b. split; [exact Hin|]. split; [reflexivity|].
    left. split; [exact Hq|exact Hmax].
  - destruct (sorted_scan_none v breaks Hne Hn Es)
      as (b & Hin & -> & Hnone & Hmin).
    exists b. split; [exact Hin|]. split; [reflexivity|].
    right. split; [exact Hnone|exact Hmin].
Qed.

(** The value 7 among the breaks 5, 10, 0: the class that starts at 5. *)
Lemma getColour_sorted_class_witness :
  exists b,
    getColour 7%float
      (sortBreaks [Example.mkBreak 5%float "green";
                   Example.mkBreak 10%float "red";
                   Example.mkBreak 0%float "blue"] false)
    = Ok (models.Colour b)
    /\ b ∈ [Example.mkBreak 5%float "green"; Example.mkBreak 10%float "red";
            Example.mkBreak 0%float "blue"].
Proof.
  assert (Hne : [Example.mkBreak 5%float "green"; Example.mkBreak 10%float "red";
                 Example.mkBreak 0%float "blue"] <> []) by discriminate.
  assert (Hn : Forall numericBound
                 [Example.mkBreak 5%float "green";
                  Example.mkBreak 10%float "red";
                  Example.mkBreak 0%float "blue"]) by (repeat constructor).
  destruct (getColour_sorted_class 7%float _ Hne Hn) as (b & Hin & Ec & _).
  exists b. split; [exact Ec|exact Hin].
Defined.

(** ** The break information of two or more breaks *)

Lemma index_of_nat {A : Type} (s : list A) (i : nat) :
  index s (Z.of_nat i)
  = match s !! i with Some a => Ok a | None => Panic IndexOutOfRange end.
Proof.
  unfold index. destruct (Z.ltb_spec (Z.of_nat i) 0); [lia|].
  rewrite Nat2Z.id. reflexivity.
Qed.

Lemma classesOf_length (breaks : list models.ChoroplethBreak) (mx : float) :
  length (classesOf breaks mx) = length breaks.
Proof. induction breaks as [|b l IH]; cbn; congruence. Qed.

Lemma classesOf_lookup (breaks : list models.ChoroplethBreak) (mx : float)
    (j : nat) (b : models.ChoroplethBreak) :
  breaks !! j = Some b ->
  classesOf breaks mx !! j
  = Some {| LowerBound := models.LowerBound b;
            UpperBound := match breaks !! S j with
                          | Some next => models.LowerBound next
                          | None => mx
                          end;
            RelativeSize := 0%float;
            Colour := models.Colour b |}.
Proof.
  revert j. induction breaks as [|b0 l IH]; intros j E; [discriminate E|].
  destruct j as [|j].
  - injection E as ->. cbn. destruct l; reflexivity.
  - cbn [classesOf]. rewrite !lookup_cons_ne_0 by lia. cbn [Init.Nat.pred].
    exact (IH j E).
Qed.

(** The loop of [getSortedBreakInfo] that fills all entries but the
    last: run over the indices [i .. i+k-1], it assigns the classes with
    these indices and leaves the other entries as they are. *)
Lemma fill_loop (breaks : list models.ChoroplethBreak) (mx : float) (k : nat) :
  forall (i : nat) (st : list (option breakInfo)),
    (i + k < length breaks)%nat ->
    length st = length breaks ->
    exists st',
      foldM (fun info i =>
               bi ← index breaks i;
               bj ← index breaks (i + 1);
               Ok (<[Z.to_nat i :=
                       Some {| LowerBound := models.LowerBound bi;
                               UpperBound := models.LowerBound bj;
                               RelativeSize := 0%float;
                               Colour := models.Colour bi |}]> info))
            st (seqZ (Z.of_nat i) (Z.of_nat k)) = Ok st'
      /\ length st' = length breaks
      /\ forall j, st' !! j
                   = if decide (i <= j < i + k)%nat
                     then Some (classesOf breaks mx !! j) else st !! j.
Proof.
  induction k as [|k IH]; intros i st Hlt Hst.
  - exists st. split; [reflexivity|]. split; [exact Hst|].
    intros j. destruct (decide _); [lia|reflexivity].
  - rewrite seqZ_cons by lia.
    replace (Z.succ (Z.of_nat i)) with (Z.of_nat (S i)) by lia.
    replace (Z.pred (Z.of_nat (S k))) with (Z.of_nat k) by lia.
    cbn [foldM].
    replace (Z.of_nat i + 1)%Z with (Z.of_nat (S i)) by lia.
    rewrite !index_of_nat, Nat2Z.id.
    destruct (breaks !! i) as [bi|] eqn:Ei;
      [|apply lookup_ge_None in Ei; lia].
    destruct (breaks !! S i) as [bj|] eqn:Ej;
      [|apply lookup_ge_None in Ej; lia].
    cbn [mbind result_bind].
    destruct (IH (S i)
                 (<[i := Some {| LowerBound := models.LowerBound bi;
                                 UpperBound := models.LowerBound bj;
                                 RelativeSize := 0%float;
                                 Colour := models.Colour bi |}]> st))
      as (st' & Ef & Hlen & Hlook); [lia|rewrite length_insert; exact Hst|].
    exists st'. split; [exact Ef|]. split; [exact Hlen|].
    intros j. rewrite Hlook.
    destruct (decide (S i <= j < S i + k)%nat) as [|Hn].
    + destruct (decide _); [reflexivity|lia].
    + destruct (decide (j = i)) as [->|Hne].
      * destruct (decide _); [|lia].
        rewrite list_lookup_insert_eq by lia.
        rewrite (classesOf_lookup breaks mx i bi Ei), Ej. reflexivity.
      * destruct (decide _); [lia|].
        apply list_lookup_insert_ne. congruence.
Qed.

Lemma mapM_sized (totalRange : float) (classes : list breakInfo) :
  mapM (fun b : option breakInfo =>
          b ← deref b;
          Ok (withRelativeSize b
                ((UpperBound b - LowerBound b) / totalRange)%float))
       (Some <$> classes)
  = Ok (sized totalRange classes).
Proof.
  induction classes as [|c l IH]; [reflexivity|].
  cbn [fmap list_fmap mapM deref mbind result_bind] in *. rewrite IH.
  reflexivity.
Qed.

Lemma breakRange_Some (data : list models.DataRow)
    (choropleth : models.Choropleth) :
  data <> [] -> models.Breaks choropleth <> [] ->
  exists minValue maxValue, breakRange data choropleth = Some (minValue, maxValue).
Proof.
  intros Hd Hb. unfold breakRange, sortedData, sortBreaks.
  destruct (sort_Slice _ data) as [|d0 ds] eqn:Ed;
    [apply sort_Slice_nil_iff in Ed; contradiction|].
  destruct (sort_Slice _ (models.Breaks choropleth)) as [|b0 bs] eqn:Eb;
    [apply sort_Slice_nil_iff in Eb; contradiction|].
  destruct (last (d0 :: ds)) as [dl|] eqn:El;
    [|apply last_None in El; discriminate El].
  destruct (last (b0 :: bs)) as [bl|] eqn:Elb;
    [|apply last_None in Elb; discriminate Elb].
  cbn. eauto.
Qed.

(** With two or more breaks and a data row, [getSortedBreakInfo] returns
    the classes of the breaks in ascending order, the first one
    stretched down to the start of the range, each with its size
    relative to the range. *)
Lemma getSortedBreakInfo_eq (req : RenderRequest)
    (choropleth : models.Choropleth) (data : list models.DataRow)
    (minValue maxValue : float) :
  Choropleth_ req = Some choropleth ->
  Data req = Some data ->
  breakRange data choropleth = Some (minValue, maxValue) ->
  (2 <= length (models.Breaks choropleth))%nat ->
  getSortedBreakInfo req
  = Ok (sized (maxValue - minValue)%float
          (startAt minValue
             (classesOf (sortBreaks (models.Breaks choropleth) true) maxValue)),
        ((models.ReferenceValue choropleth - minValue)
         / (maxValue - minValue))%float).
Proof.
  intros Hc Hd Hr Hn. unfold getSortedBreakInfo. rewrite Hc, Hd.
  cbn [default deref mbind result_bind].
  change (id data) with data.
  unfold breakRange, sortedData in Hr.
  set (sorted := sort_Slice _ data) in *.
  set (breaks := sortBreaks (models.Breaks choropleth) true) in *.
  assert (Hlen : length breaks = length (models.Breaks choropleth))
    by apply sort_Slice_length.
  rewrite !index_last. change 0%Z with (Z.of_nat 0). rewrite !index_of_nat.
  rewrite <- !head_lookup.
  destruct (head sorted) as [d0|]; [|discriminate Hr].
  destruct (last sorted) as [dl|]; [|discriminate Hr].
  destruct (head breaks) as [b0|] eqn:Eb0; [|discriminate Hr].
  destruct (last breaks) as [bl|] eqn:Ebl; [|discriminate Hr].
  cbn [mbind option_bind] in Hr. injection Hr as <- <-.
  cbn [mbind result_bind].
  set (maxValue :=
         if F64.lt (models.UpperBound choropleth) (models.LowerBound bl)
         then models.Value dl else models.UpperBound choropleth).
  set (minValue := F64.Min (models.Value d0) (models.LowerBound b0)).
  assert (Emax : (if F64.lt (models.UpperBound choropleth)
                            (models.LowerBound bl)
                  then Ok (models.Value dl)
                  else Ok (models.UpperBound choropleth))
                 = (Ok maxValue : result float)).
  { unfold maxValue. destruct (F64.lt _ _); reflexivity. }
  rewrite Emax. cbn [mbind result_bind].
  replace (len breaks - 1)%Z with (Z.of_nat (length breaks - 1))
    by (unfold len; lia).
  destruct (fill_loop breaks maxValue (length breaks - 1) 0
              (replicate (length breaks) None))
    as (st & -> & Hst & Hlook); [lia|apply length_replicate|].
  cbn [mbind result_bind]. rewrite index_of_nat, Nat2Z.id.
  pose proof (classesOf_length breaks maxValue) as Hcl.
  destruct (classesOf breaks maxValue) as [|c0 cs] eqn:Ecs;
    [cbn in Hcl; lia|].
  rewrite (Hlook 0%nat). destruct (decide _); [|lia].
  cbn [lookup list_lookup mbind result_bind deref].
  assert (Elast : breaks !! (length breaks - 1)%nat = Some bl).
  { rewrite last_lookup in Ebl. rewrite <- Ebl. f_equal. lia. }
  assert (Est :
            <[(length breaks - 1)%nat :=
                Some {| LowerBound := models.LowerBound bl;
                        UpperBound := maxValue;
                        RelativeSize := 0%float;
                        Colour := models.Colour bl |}]>
              (<[0%nat := Some (withLowerBound c0 minValue)]> st)
            = Some <$> startAt minValue (c0 :: cs)).
  { apply list_eq. intros j. rewrite list_lookup_fmap.
    destruct (decide (j = length breaks - 1)%nat) as [->|Hj].
    - rewrite list_lookup_insert_eq by (rewrite length_insert; lia).
      cbn [startAt]. rewrite lookup_cons_ne_0 by lia.
      pose proof (classesOf_lookup breaks maxValue _ bl Elast) as Ecl.
      rewrite Ecs in Ecl. rewrite lookup_cons_ne_0 in Ecl by lia.
      rewrite Ecl.
      replace (breaks !! S (length breaks - 1)) with (@None models.ChoroplethBreak)
        by (symmetry; apply lookup_ge_None; lia).
      reflexivity.
    - rewrite list_lookup_insert_ne by congruence.
      destruct j as [|j].
      + rewrite list_lookup_insert_eq by lia. reflexivity.
      + rewrite list_lookup_insert_ne by lia. rewrite Hlook.
        cbn [startAt]. rewrite !lookup_cons_ne_0 by lia.
        destruct (decide _) as [|Hge].
        { destruct (cs !! Init.Nat.pred (S j)) eqn:Ej; [reflexivity|].
          apply lookup_ge_None in Ej. cbn [Init.Nat.pred length] in *. lia. }
        replace (replicate (length breaks) None !! S j)
          with (@None (option breakInfo))
          by (symmetry; apply lookup_replicate_None; lia).
        symmetry. apply fmap_None. apply lookup_ge_None.
        cbn [Init.Nat.pred]. cbn [length] in Hcl. lia. }
  rewrite Est, mapM_sized. reflexivity.
Qed.

Lemma classes_lookup (breaks : list models.ChoroplethBreak)
    (minValue maxValue totalRange : float) (i : nat)
    (b : models.ChoroplethBreak) :
  breaks !! i = Some b ->
  sized totalRange (startAt minValue (classesOf breaks maxValue)) !! i
  = Some
      (let lower := match i with
                    | O => minValue
                    | S _ => models.LowerBound b
                    end in
       let upper := match breaks !! S i with
                    | Some next => models.LowerBound next
                    | None => maxValue
                    end in
       {| LowerBound := lower; UpperBound := upper;
          RelativeSize := ((upper - lower) / totalRange)%float;
          Colour := models.Colour b |}).
Proof.
  intros E. unfold sized. rewrite list_lookup_fmap.
  pose proof (classesOf_lookup breaks maxValue i b E) as Ec.
  destruct (classesOf breaks maxValue) as [|c0 cs]; [discriminate Ec|].
  destruct i as [|i].
  - cbn [startAt lookup list_lookup] in *. injection Ec as ->. reflexivity.
  - cbn [startAt]. rewrite lookup_cons_ne_0 in * by lia. rewrite Ec.
    reflexivity.
Qed.

Lemma classes_length (breaks : list models.ChoroplethBreak)
    (minValue maxValue totalRange : float) :
  length (sized totalRange (startAt minValue (classesOf breaks maxValue)))
  = length breaks.
Proof.
  unfold sized. rewrite length_map, <- (classesOf_length breaks maxValue).
  destruct (classesOf breaks maxValue); reflexivity.
Qed.

(** X3.  With two or more breaks and a data row, [getSortedBreakInfo]
    does not panic: it returns one class per break, in ascending order
    of lower bound and with the colour of its break; the first class
    starts at the start of the range and every other class at the lower
    bound of its break; the size of a class is its width divided by the
    width of the range, and the reference position is the distance of
    the reference value from the start of the range divided by the same
    width. *)
Theorem getSortedBreakInfo_classes (req : RenderRequest)
    (choropleth : models.Choropleth) (data : list models.DataRow) :
  Choropleth_ req = Some choropleth ->
  Data req = Some data ->
  data <> [] ->
  (2 <= length (models.Breaks choropleth))%nat ->
  exists minValue maxValue info,
    breakRange data choropleth = Some (minValue, maxValue)
    /\ getSortedBreakInfo req
       = Ok (info,
             ((models.ReferenceValue choropleth - minValue)
              / (maxValue - minValue))%float)
    /\ Forall2
         (fun b c =>
            Colour c = models.Colour b
            /\ RelativeSize c
               = ((UpperBound c - LowerBound c) / (maxValue - minValue))%float)
         (sortBreaks (models.Breaks choropleth) true) info
    /\ (forall c, head info = Some c -> LowerBound c = minValue)
    /\ (forall i b c,
          sortBreaks (models.Breaks choropleth) true !! S i = Some b ->
          info !! S i = Some c -> LowerBound c = models.LowerBound b).
Proof.
  intros Hc Hd Hne Hn.
  destruct (breakRange_Some data choropleth Hne) as (minValue & maxValue & Hr).
  { intros E. rewrite E in Hn. cbn in Hn. lia. }
  exists minValue, maxValue. eexists. split; [exact Hr|].
  split; [exact (getSortedBreakInfo_eq req choropleth data _ _ Hc Hd Hr Hn)|].
  set (breaks := sortBreaks (models.Breaks choropleth) true).
  split; [|split].
  - apply Forall2_same_length_lookup_2; [symmetry; apply classes_length|].
    intros i b c Eb Ec. rewrite (classes_lookup _ _ _ _ _ _ Eb) in Ec.
    injection Ec as <-. split; reflexivity.
  - intros c Ec. rewrite head_lookup in Ec.
    destruct (breaks !! 0%nat) as [b|] eqn:Eb.
    + rewrite (classes_lookup _ _ _ _ _ _ Eb) in Ec. injection Ec as <-.
      reflexivity.
    + apply lookup_ge_None in Eb. apply lookup_lt_Some in Ec.
      rewrite classes_length in Ec. lia.
  - intros i b c Eb Ec. rewrite (classes_lookup _ _ _ _ _ _ Eb) in Ec.
    injection Ec as <-. reflexivity.
Qed.

(** The sample request with the breaks -123456 and 0: two classes. *)
Lemma getSortedBreakInfo_classes_witness :
  exists info referencePos,
    getSortedBreakInfo Example.longLowerLabelRequest = Ok (info, referencePos)
    /\ length info = 2%nat.
Proof.
  assert (Hne : [Example.mkRow "E01" 1%float] <> []) by discriminate.
  assert (Hn : (2 <= length (models.Breaks Example.longLowerLabelChoropleth))%nat)
    by (cbn; lia).
  destruct (getSortedBreakInfo_classes
              Example.longLowerLabelRequest Example.longLowerLabelChoropleth
              [Example.mkRow "E01" 1%float] eq_refl eq_refl Hne Hn)
    as (minValue & maxValue & info & _ & E & F & _).
  exists info. eexists. split; [exact E|].
  apply Forall2_length in F. rewrite <- F. reflexivity.
Defined.

(** ** The start of the range *)

Lemma key_of_number (z : float) :
  PrimFloat.is_nan z = false -> exists k, F64.key (Prim2SF z) = Some k.
Proof.
  rewrite is_nan_cmp. intros E.
  destruct (cmp_keys _ _ _ E) as (k & _ & Hk & _). eauto.
Qed.

Lemma neg_infinity_le (z : float) :
  PrimFloat.is_nan z = false -> F64.le PrimFloat.neg_infinity z = true.
Proof.
  intros Hz. destruct (key_of_number z Hz) as [k Hk]. apply le_cmp.
  assert (Hi : F64.key (Prim2SF PrimFloat.neg_infinity) = Some (-2, 0, 0)%Z)
    by reflexivity.
  destruct (Prim2SF z) as [s|s| |s m e] eqn:Ez; cbn [F64.key] in Hk;
    try discriminate Hk; destruct s; injection Hk as <-;
    try (left; eapply (cmp_of_keys _ _ Lt);
         [exact Hi|rewrite Ez; reflexivity|cbn; lia]).
  right. eapply (cmp_of_keys _ _ Eq); [exact Hi|rewrite Ez; reflexivity|].
  reflexivity.
Qed.

Lemma le_of_eqb (x y : float) : PrimFloat.eqb x y = true -> F64.le x y = true.
Proof. rewrite eqb_cmp, le_cmp. auto. Qed.

(** [math.Min] of two numbers is at most each of them. *)
Lemma Min_le (x y : float) :
  PrimFloat.is_nan x = false -> PrimFloat.is_nan y = false ->
  F64.le (F64.Min x y) x = true /\ F64.le (F64.Min x y) y = true.
Proof.
  intros Hx Hy. unfold F64.Min, F64.IsNaN. rewrite Hx, Hy. cbn [orb].
  destruct (F64.IsInf x false || F64.IsInf y false).
  { split; apply neg_infinity_le; assumption. }
  destruct (PrimFloat.eqb x PrimFloat.zero && PrimFloat.eqb x y) eqn:Ez.
  { apply andb_true_iff in Ez as [_ Exy].
    destruct (F64.Signbit x).
    - split; [apply le_refl; exact Hx|apply le_of_eqb; exact Exy].
    - split; [|apply le_refl; exact Hy].
      exact (ge_of_eqb _ _ Exy). }
  destruct (F64.lt x y) eqn:El.
  - split; [apply le_refl; exact Hx|apply le_of_lt; exact El].
  - split; [apply le_of_not_lt; assumption|apply le_refl; exact Hy].
Qed.

(** The first element of a sorted slice is at most every element. *)
Lemma head_least {A : Type} (leq : A -> A -> Prop) (l : list A) (x0 : A) :
  StronglySorted leq l -> head l = Some x0 -> leq x0 x0 ->
  Forall (leq x0) l.
Proof.
  destruct l as [|x l]; [discriminate|]. intros HS [= ->] Hrefl.
  apply StronglySorted_cons in HS as [Hx _]. constructor; assumption.
Qed.

Lemma sortedData_sorted (data : list models.DataRow) :
  Forall (fun row => PrimFloat.is_nan (models.Value row) = false) data ->
  StronglySorted
    (fun a b => F64.le (models.Value a) (models.Value b) = true)
    (sortedData data).
Proof.
  intros Hn. unfold sortedData.
  apply (sort_Slice_sorted _ _
           (fun row => PrimFloat.is_nan (models.Value row) = false));
    [| | |exact Hn].
  - intros x y z. apply le_trans.
  - intros x y _ _. apply le_of_lt.
  - intros x y Hx Hy. apply le_of_not_lt; assumption.
Qed.

(** The start of the range is at or below every data value and every
    lower bound. *)
Lemma breakRange_below (data : list models.DataRow)
    (choropleth : models.Choropleth) (minValue maxValue : float) :
  breakRange data choropleth = Some (minValue, maxValue) ->
  Forall (fun row => PrimFloat.is_nan (models.Value row) = false) data ->
  Forall numericBound (models.Breaks choropleth) ->
  Forall (fun row => F64.le minValue (models.Value row) = true) data
  /\ Forall (fun b => F64.le minValue (models.LowerBound b) = true)
            (models.Breaks choropleth).
Proof.
  intros Hr Hd Hb. unfold breakRange in Hr.
  pose proof (sortedData_sorted data Hd) as Sd.
  pose proof (sortBreaks_ascending _ Hb) as Sb.
  assert (Pd : sortedData data ≡ₚ data) by apply sort_Slice_Permutation.
  assert (Pb : sortBreaks (models.Breaks choropleth) true
               ≡ₚ models.Breaks choropleth) by apply sort_Slice_Permutation.
  destruct (head (sortedData data)) as [d0|] eqn:Ed0; [|discriminate Hr].
  destruct (last (sortedData data)) as [dl|]; [|discriminate Hr].
  destruct (head (sortBreaks (models.Breaks choropleth) true)) as [b0|] eqn:Eb0;
    [|discriminate Hr].
  destruct (last (sortBreaks (models.Breaks choropleth) true)) as [bl|];
    [|discriminate Hr].
  cbn in Hr. injection Hr as <- _.
  assert (Hd0 : PrimFloat.is_nan (models.Value d0) = false).
  { rewrite <- Pd in Hd. rewrite Forall_forall in Hd. apply Hd.
    apply head_Some_elem_of. exact Ed0. }
  assert (Hb0 : numericBound b0).
  { rewrite <- Pb in Hb. rewrite Forall_forall in Hb. apply Hb.
    apply head_Some_elem_of. exact Eb0. }
  destruct (Min_le _ _ Hd0 Hb0) as [Hmd Hmb].
  split.
  - rewrite <- Pd.
    eapply Forall_impl;
      [exact (head_least _ _ d0 Sd Ed0 (le_refl _ Hd0))|].
    cbn beta. intros row Hrow. exact (le_trans _ _ _ Hmd Hrow).
  - rewrite <- Pb.
    eapply Forall_impl;
      [exact (head_least _ _ b0 Sb Eb0 (le_refl _ Hb0))|].
    intros b Hbb. exact (le_trans _ _ _ Hmb Hbb).
Qed.

(** X5.  With two or more breaks and a data row, when the data values
    and the lower bounds are numbers, the first class
    [getSortedBreakInfo] returns starts at or below every data value and
    every lower bound: no row lies below the legend. *)
Theorem range_starts_below_data (req : RenderRequest)
    (choropleth : models.Choropleth) (data : list models.DataRow) :
  Choropleth_ req = Some choropleth ->
  Data req = Some data ->
  data <> [] ->
  (2 <= length (models.Breaks choropleth))%nat ->
  Forall (fun row => PrimFloat.is_nan (models.Value row) = false) data ->
  Forall numericBound (models.Breaks choropleth) ->
  exists info referencePos first,
    getSortedBreakInfo req = Ok (info, referencePos)
    /\ head info = Some first
    /\ Forall (fun row => F64.le (LowerBound first) (models.Value row) = true)
              data
    /\ Forall (fun b => F64.le (LowerBound first) (models.LowerBound b) = true)
              (models.Breaks choropleth).
Proof.
  intros Hc Hd Hne Hn Hnum Hb.
  destruct (breakRange_Some data choropleth Hne) as (minValue & maxValue & Hr).
  { intros E. rewrite E in Hn. cbn in Hn. lia. }
  destruct (breakRange_below data choropleth minValue maxValue Hr Hnum Hb)
    as [Fd Fb].
  set (breaks := sortBreaks (models.Breaks choropleth) true).
  assert (Hlen : length breaks = length (models.Breaks choropleth))
    by apply sort_Slice_length.
  destruct (breaks !! 0%nat) as [b0|] eqn:Eb0;
    [|apply lookup_ge_None in Eb0; lia].
  eexists _, _, _.
  split; [exact (getSortedBreakInfo_eq req choropleth data _ _ Hc Hd Hr Hn)|].
  split.
  { rewrite head_lookup. fold breaks.
    exact (classes_lookup _ _ _ _ _ _ Eb0). }
  cbv zeta. cbn [LowerBound]. split; [exact Fd|exact Fb].
Qed.

(** Rows with the values 7 and -3 and breaks at 0 and 5: the first class
    starts at -3, at or below both values. *)
Lemma range_starts_below_data_witness :
  exists info referencePos first,
    getSortedBreakInfo
      (Example.mkRequest (Some Example.geography)
         (Some [Example.mkRow "E01" 7%float; Example.mkRow "E02" (-3)%float])
         (Some (Example.mkChoropleth
                  [Example.mkBreak 0%float "blue";
                   Example.mkBreak 5%float "green"]
                  10%float 5%float "Average"))
         400%float 0%float 0%float)
    = Ok (info, referencePos)
    /\ head info = Some first
    /\ Forall (fun row => F64.le (LowerBound first) (models.Value row) = true)
              [Example.mkRow "E01" 7%float; Example.mkRow "E02" (-3)%float].
Proof.
  assert (Hne : [Example.mkRow "E01" 7%float; Example.mkRow "E02" (-3)%float]
                <> []) by discriminate.
  assert (Hn : (2 <= length [Example.mkBreak 0%float "blue";
                             Example.mkBreak 5%float "green"])%nat)
    by (cbn; lia).
  assert (Hd : Forall (fun row => PrimFloat.is_nan (models.Value row) = false)
                 [Example.mkRow "E01" 7%float; Example.mkRow "E02" (-3)%float])
    by (repeat constructor).
  assert (Hb : Forall numericBound
                 [Example.mkBreak 0%float "blue";
                  Example.mkBreak 5%float "green"])
    by (repeat constructor).
  destruct (range_starts_below_data
              (Example.mkRequest (Some Example.geography)
                 (Some [Example.mkRow "E01" 7%float;
                        Example.mkRow "E02" (-3)%float])
                 (Some (Example.mkChoropleth
                          [Example.mkBreak 0%float "blue";
                           Example.mkBreak 5%float "green"]
                          10%float 5%float "Average"))
                 400%float 0%float 0%float)
              (Example.mkChoropleth
                 [Example.mkBreak 0%float "blue";
                  Example.mkBreak 5%float "green"]
                 10%float 5%float "Average")
              [Example.mkRow "E01" 7%float; Example.mkRow "E02" (-3)%float]
              eq_refl eq_refl Hne Hn Hd Hb)
    as (info & referencePos & first & E & Eh & Fd & _).
  exists info, referencePos, first. split; [exact E|]. split; [exact Eh|].
  exact Fd.
Defined.

(** ** The classes over the range *)

Lemma StronglySorted_lookup_lt {A : Type} (R : A -> A -> Prop) (l : list A)
    (j k : nat) (a b : A) :
  StronglySorted R l ->
  l !! j = Some a -> l !! k = Some b -> (j < k)%nat -> R a b.
Proof.
  intros HS. revert j k. induction HS as [|x l HS IH Hx]; intros j k Ea Eb Hjk.
  - discriminate Ea.
  - destruct k as [|k]; [lia|]. cbn in Eb. destruct j as [|j].
    + cbn in Ea. injection Ea as <-. rewrite Forall_forall in Hx.
      apply Hx. apply list_elem_of_lookup. eauto.
    + cbn in Ea. apply (IH j k Ea Eb). lia.
Qed.

(** X4.  The classes [getSortedBreakInfo] returns form a chain over the
    range: the first starts at the start of the range, each class ends
    where the next one starts, and the last ends at the end of the
    range and starts at the greatest lower bound.  When the data values
    and the lower bounds are numbers and the end of the range is at or
    above every lower bound, every class has its lower bound at or
    below its upper bound, so that the classes tile the range.  (The
    end of the range is below the last lower bound when the configured
    upper bound and the greatest data value both are: the last class
    then ends before it starts.) *)
Theorem break_classes_contiguous (req : RenderRequest)
    (choropleth : models.Choropleth) (data : list models.DataRow)
    (minValue maxValue : float) (info : list breakInfo) (referencePos : float) :
  Choropleth_ req = Some choropleth ->
  Data req = Some data ->
  breakRange data choropleth = Some (minValue, maxValue) ->
  (2 <= length (models.Breaks choropleth))%nat ->
  getSortedBreakInfo req = Ok (info, referencePos) ->
  (exists first, head info = Some first /\ LowerBound first = minValue)
  /\ (forall i c next,
        info !! i = Some c -> info !! S i = Some next ->
        UpperBound c = LowerBound next)
  /\ (exists final greatest,
        last info = Some final /\ UpperBound final = maxValue
        /\ last (sortBreaks (models.Breaks choropleth) true) = Some greatest
        /\ LowerBound final = models.LowerBound greatest)
  /\ (Forall (fun row => PrimFloat.is_nan (models.Value row) = false) data ->
      Forall numericBound (models.Breaks choropleth) ->
      Forall (fun b => F64.le (models.LowerBound b) maxValue = true)
             (models.Breaks choropleth) ->
      Forall (fun c => F64.le (LowerBound c) (UpperBound c) = true) info).
Proof.
  intros Hc Hd Hr Hn E.
  rewrite (getSortedBreakInfo_eq req choropleth data _ _ Hc Hd Hr Hn) in E.
  injection E as <- _.
  pose proof (sort_Slice_Permutation
                (fun ci cj => F64.lt (models.LowerBound ci)
                                     (models.LowerBound cj))
                (models.Breaks choropleth)) as Hperm.
  fold (sortBreaks (models.Breaks choropleth) true) in Hperm.
  set (breaks := sortBreaks (models.Breaks choropleth) true) in *.
  assert (Hlen : length breaks = length (models.Breaks choropleth))
    by apply sort_Slice_length.
  assert (Hlook : forall i, (i < length breaks)%nat ->
                    exists b, breaks !! i = Some b).
  { intros i Hi. destruct (breaks !! i) eqn:Eb; [eauto|].
    apply lookup_ge_None in Eb. lia. }
  split; [|split; [|split]].
  - destruct (Hlook 0%nat) as [b Eb]; [lia|].
    rewrite head_lookup, (classes_lookup _ _ _ _ _ _ Eb).
    eexists. split; reflexivity.
  - intros i c next Ec En.
    pose proof (lookup_lt_Some _ _ _ En) as Hi. rewrite classes_length in Hi.
    destruct (Hlook i) as [b Eb]; [lia|].
    destruct (Hlook (S i)) as [b' Eb']; [lia|].
    rewrite (classes_lookup _ _ _ _ _ _ Eb) in Ec.
    rewrite (classes_lookup _ _ _ _ _ _ Eb') in En.
    injection Ec as <-. injection En as <-. cbn. rewrite Eb'. reflexivity.
  - rewrite !last_lookup, classes_length.
    destruct (Hlook (Init.Nat.pred (length breaks))) as [b Eb]; [lia|].
    rewrite (classes_lookup _ _ _ _ _ _ Eb), Eb.
    eexists _, b. split; [reflexivity|]. cbn.
    replace (breaks !! S (Init.Nat.pred (length breaks)))
      with (@None models.ChoroplethBreak)
      by (symmetry; apply lookup_ge_None; lia).
    split; [reflexivity|]. split; [reflexivity|].
    destruct (length breaks) as [|[|n]] eqn:El; [lia|lia|reflexivity].
  - intros Hnum Hb Hmax.
    destruct (breakRange_below data choropleth minValue maxValue Hr Hnum Hb)
      as [_ Fb].
    pose proof (sortBreaks_ascending _ Hb) as HS. fold breaks in HS.
    assert (Hin : forall i b, breaks !! i = Some b ->
                    b ∈ models.Breaks choropleth).
    { intros i b Eb. rewrite <- Hperm. apply list_elem_of_lookup. eauto. }
    rewrite Forall_forall in Fb, Hmax.
    apply Forall_lookup_2. intros i c Ec.
    pose proof (lookup_lt_Some _ _ _ Ec) as Hi. rewrite classes_length in Hi.
    destruct (Hlook i Hi) as [b Eb].
    rewrite (classes_lookup _ _ _ _ _ _ Eb) in Ec.
    cbv zeta in Ec. injection Ec as <-. cbn [LowerBound UpperBound].
    destruct (breaks !! S i) as [next|] eqn:En.
    + destruct i as [|i].
      * apply Fb. exact (Hin _ _ En).
      * apply (StronglySorted_lookup_lt boundLe breaks (S i) (S (S i)) b next
                 HS Eb En). lia.
    + destruct i as [|i].
      * exact (le_trans _ _ _ (Fb b (Hin _ _ Eb)) (Hmax b (Hin _ _ Eb))).
      * exact (Hmax b (Hin _ _ Eb)).
Qed.

(** On the sample request the range is -123456 to 5: the two classes
    meet at 0 and each starts at or below its end. *)
Lemma break_classes_contiguous_witness :
  exists c next,
    breaks (Example.prepared Example.longLowerLabelRequest) = [c; next]
    /\ LowerBound c = (-123456)%float
    /\ UpperBound c = LowerBound next
    /\ UpperBound next = 5%float
    /\ F64.le (LowerBound c) (UpperBound c) = true
    /\ F64.le (LowerBound next) (UpperBound next) = true.
Proof.
  destruct (getSortedBreakInfo Example.longLowerLabelRequest)
    as [[info referencePos]|p] eqn:E; [|vm_compute in E; discriminate E].
  assert (Hn : (2 <= length (models.Breaks Example.longLowerLabelChoropleth))%nat)
    by (cbn; lia).
  destruct (break_classes_contiguous
              Example.longLowerLabelRequest Example.longLowerLabelChoropleth
              [Example.mkRow "E01" 1%float] (-123456)%float 5%float
              info referencePos eq_refl eq_refl eq_refl Hn E)
    as ((first & Ef & Efl) & Hnext & (final & greatest & El & Elu & _) & Hord).
  assert (Ford : Forall (fun c => F64.le (LowerBound c) (UpperBound c) = true)
                   info).
  { apply Hord; repeat constructor. }
  vm_compute in E. injection E as <- <-.
  eexists _, _. split; [vm_compute; reflexivity|].
  cbn in Ef. injection Ef as <-. cbn in El. injection El as <-.
  split; [exact Efl|]. split; [exact (Hnext 0%nat _ _ eq_refl eq_refl)|].
  split; [exact Elu|].
  apply Forall_cons in Ford as [O1 Ford]. apply Forall_cons in Ford as [O2 _].
  split; [exact O1|exact O2].
Defined.

(** ** When preparation returns *)

Lemma getSortedBreakInfo_without_data (req : RenderRequest)
    (choropleth : models.Choropleth) :
  Choropleth_ req = Some choropleth ->
  default [] (Data req) = [] ->
  getSortedBreakInfo req = Panic IndexOutOfRange.
Proof.
  intros Hc Hd. unfold getSortedBreakInfo. rewrite Hc, Hd. reflexivity.
Qed.

Lemma getSortedBreakInfo_one_break (req : RenderRequest)
    (choropleth : models.Choropleth) (b : models.ChoroplethBreak)
    (row : models.DataRow) (rows : list models.DataRow) :
  Choropleth_ req = Some choropleth ->
  models.Breaks choropleth = [b] ->
  default [] (Data req) = row :: rows ->
  getSortedBreakInfo req = Panic NilDereference.
Proof.
  intros Hc Hb Hd. unfold getSortedBreakInfo. rewrite Hc, Hd.
  cbn [deref mbind result_bind]. rewrite Hb.
  destruct (index_sorted_first
              (fun di dj => F64.lt (models.Value di) (models.Value dj))
              row rows) as [d0 ->].
  destruct (index_sorted_last
              (fun di dj => F64.lt (models.Value di) (models.Value dj))
              row rows) as [dl ->].
  change (sortBreaks [b] true) with [b].
  change (index [b] 0) with (Ok b).
  change (index [b] (len [b] - 1)) with (Ok b).
  cbn [mbind result_bind].
  destruct (F64.lt _ _); reflexivity.
Qed.

Lemma getVerticalLegendWidth_Ok `{Collaborators} (req : RenderRequest)
    (choropleth : models.Choropleth) (classes : list breakInfo) :
  Choropleth_ req = Some choropleth ->
  exists width offset, getVerticalLegendWidth req classes = Ok (width, offset).
Proof.
  intros Hc. unfold getVerticalLegendWidth, getVerticalTickTextWidth.
  rewrite Hc. cbn [deref mbind result_bind]. eauto.
Qed.

(** The branch [PrepareSVGRequest] takes. *)
Lemma PrepareSVGRequest_without_breaks `{Collaborators} (req : RenderRequest) :
  match Choropleth_ req with
  | Some choropleth => models.Breaks choropleth = []
  | None => True
  end ->
  exists s, PrepareSVGRequest req = Ok s /\ breaks s = [].
Proof.
  intros Hb. unfold PrepareSVGRequest.
  destruct (match getGeoJSON req with Some _ => _ | None => _ end)
    as [width height].
  destruct (Choropleth_ req) as [choropleth|].
  - rewrite Hb. cbn. eexists. split; reflexivity.
  - eexists. split; reflexivity.
Qed.

Lemma PrepareSVGRequest_with_breaks `{Collaborators} (req : RenderRequest)
    (choropleth : models.Choropleth) :
  Choropleth_ req = Some choropleth ->
  models.Breaks choropleth <> [] ->
  PrepareSVGRequest req
  = let '(width, height) :=
      match getGeoJSON req with
      | Some collection => getViewBoxDimensions collection req
      | None => (0.0%float, 0.0%float)
      end in
    '(classes, position) ← getSortedBreakInfo req;
    '(legendWidth, keyOffset) ← getVerticalLegendWidth req classes;
    Ok {| request := req; geoJSON := getGeoJSON req;
          ViewBoxWidth := width; ViewBoxHeight := height;
          breaks := classes; referencePos := position;
          VerticalLegendWidth := legendWidth; verticalKeyOffset := keyOffset;
          responsiveSize :=
            F64.gt (MinWidth req) 0%float && F64.gt (MaxWidth req) 0%float |}.
Proof.
  intros Hc Hb. unfold PrepareSVGRequest. rewrite Hc.
  destruct (models.Breaks choropleth) as [|b l]; [congruence|].
  reflexivity.
Qed.

(** A preparation that returned on a choropleth with a break had two or
    more breaks and a data row. *)
Lemma PrepareSVGRequest_returned `{Collaborators} (req : RenderRequest)
    (s : SVGRequest) (choropleth : models.Choropleth) :
  PrepareSVGRequest req = Ok s ->
  Choropleth_ req = Some choropleth ->
  models.Breaks choropleth <> [] ->
  (2 <= length (models.Breaks choropleth))%nat
  /\ default [] (Data req) <> [].
Proof.
  intros E Hc Hne.
  rewrite (PrepareSVGRequest_with_breaks req choropleth Hc Hne) in E.
  destruct (match getGeoJSON req with Some _ => _ | None => _ end)
    as [width height].
  destruct (default [] (Data req)) as [|row rows] eqn:Hd.
  { rewrite (getSortedBreakInfo_without_data req choropleth Hc Hd) in E.
    discriminate E. }
  destruct (models.Breaks choropleth) as [|b [|b' l]] eqn:Hb.
  - congruence.
  - rewrite (getSortedBreakInfo_one_break req choropleth b row rows Hc Hb Hd)
      in E. discriminate E.
  - split; [cbn; lia|discriminate].
Qed.

(** X6.  [PrepareSVGRequest] returns exactly when the request has no
    choropleth, or a choropleth with no break, or a choropleth with two
    or more breaks and a data row; in every other case it panics. *)
Theorem PrepareSVGRequest_returns_iff `{Collaborators} (req : RenderRequest) :
  (exists s, PrepareSVGRequest req = Ok s)
  <-> match Choropleth_ req with
      | None => True
      | Some choropleth =>
          models.Breaks choropleth = []
          \/ ((2 <= length (models.Breaks choropleth))%nat
              /\ default [] (Data req) <> [])
      end.
Proof.
  split.
  - intros [s E]. destruct (Choropleth_ req) as [choropleth|] eqn:Hc; [|exact I].
    destruct (models.Breaks choropleth) as [|b l] eqn:Hb; [left; reflexivity|].
    right. rewrite <- Hb.
    apply (PrepareSVGRequest_returned req s choropleth E Hc).
    rewrite Hb. discriminate.
  - destruct (Choropleth_ req) as [choropleth|] eqn:Hc.
    + intros [Hb|[Hn Hd]].
      * destruct (PrepareSVGRequest_without_breaks req) as (s & E & _);
          [rewrite Hc; exact Hb|]. eauto.
      * rewrite (PrepareSVGRequest_with_breaks req choropleth Hc)
          by (intros E; rewrite E in Hn; cbn in Hn; lia).
        destruct (match getGeoJSON req with Some _ => _ | None => _ end)
          as [width height].
        destruct (Data req) as [data|] eqn:Ed; [|contradiction Hd; reflexivity].
        cbn [default] in Hd. change (id data) with data in Hd.
        destruct (breakRange_Some data choropleth Hd) as (mn & mx & Hr).
        { intros E; rewrite E in Hn; cbn in Hn; lia. }
        rewrite (getSortedBreakInfo_eq req choropleth data mn mx Hc Ed Hr Hn).
        cbn [mbind result_bind].
        destruct (getVerticalLegendWidth_Ok req choropleth
                    (sized (mx - mn)%float
                       (startAt mn
                          (classesOf
                             (sortBreaks (models.Breaks choropleth) true) mx)))
                    Hc)
          as (w & o & ->).
        cbn [mbind result_bind]. eauto.
    + intros _. destruct (PrepareSVGRequest_without_breaks req) as (s & E & _);
        [rewrite Hc; exact I|]. eauto.
Qed.

(** ** The features the map is drawn from *)

Lemma Forall2_map_self {A B : Type} (f : A -> B) (l : list A) :
  Forall2 (fun x y => f x = y) l (map f l).
Proof. induction l; cbn [map]; constructor; auto. Qed.

Lemma Forall2_compose {A B C : Type} (P : A -> B -> Prop) (Q : B -> C -> Prop)
    (R : A -> C -> Prop) (l : list A) (m : list B) (k : list C) :
  (forall x y z, P x y -> Q y z -> R x z) ->
  Forall2 P l m -> Forall2 Q m k -> Forall2 R l k.
Proof.
  intros HR HP. revert k. induction HP; intros k HQ; inversion HQ; subst;
    constructor; eauto.
Qed.

(** The colouring step touches the name and the style of a feature and
    nothing else. *)
Lemma setChoroplethColoursAndTitles_keeps `{Collaborators}
    (features : list geojson.Feature) (req : RenderRequest)
    (geography : Geography) :
  Geography_ req = Some geography ->
  (Choropleth_ req = None \/ Data req = None \/ Data req = Some []
   \/ exists choropleth,
        Choropleth_ req = Some choropleth /\ models.Breaks choropleth <> []) ->
  exists features',
    setChoroplethColoursAndTitles features req = Ok features'
    /\ Forall2
         (fun f f' =>
            geojson.ID f' = geojson.ID f
            /\ geojson.Coordinates f' = geojson.Coordinates f
            /\ forall name, name <> NameProperty geography -> name <> "style" ->
                 geojson.Properties f' !! name = geojson.Properties f !! name)
         features features'.
Proof.
  intros Hg Hok. unfold setChoroplethColoursAndTitles.
  assert (Hsame : Forall2
                    (fun f f' : geojson.Feature =>
                       geojson.ID f' = geojson.ID f
                       /\ geojson.Coordinates f' = geojson.Coordinates f
                       /\ forall name, name <> NameProperty geography ->
                            name <> "style" ->
                            geojson.Properties f' !! name
                            = geojson.Properties f !! name)
                    features features).
  { apply Forall_Forall2_diag. apply Forall_forall. intros f _.
    repeat split. }
  destruct (Choropleth_ req) as [choropleth|] eqn:Hc; [|eauto].
  destruct (Data req) as [data|] eqn:Hd; [|eauto].
  assert (Hok' : data = [] \/ models.Breaks choropleth <> []).
  { destruct Hok as [E|[E|[E|(ch & E & Hb)]]]; try discriminate E.
    - injection E as ->. left; reflexivity.
    - injection E as <-. right; exact Hb. }
  destruct (mapDataToColour_lookupID data choropleth (idPrefix req +:+ "-") Hok')
    as (dataMap & -> & _).
  cbn [mbind result_bind]. apply mapM_Forall2. intros f.
  unfold setColourAndTitle. rewrite Hg. cbn [deref mbind result_bind].
  destruct (lookupID dataMap (geojson.ID f)) as [vc|];
    (eexists; split; [reflexivity|]);
    (split; [reflexivity|split; [reflexivity|]]);
    intros name Hn Hs; unfold appendProperty, withProperty;
    cbn [geojson.Properties];
    rewrite lookup_insert_ne by congruence;
    rewrite lookup_insert_ne by congruence; reflexivity.
Qed.

(** X7.  On a request with a geography, and with a break whenever there
    is a data row to colour, [RenderSVG] returns what the drawing
    library draws from one feature per decoded feature, in the same
    order: each keeps its geometry, has the id [setFeatureIDs] gives it,
    and has the region class in front of any class it had (if the name
    property is not the class property). *)
Theorem RenderSVG_features `{Collaborators} (s : SVGRequest)
    (collection : geojson.FeatureCollection) (geography : Geography) :
  geoJSON s = Some collection ->
  Geography_ (request s) = Some geography ->
  NameProperty geography <> "class" ->
  (Choropleth_ (request s) = None \/ Data (request s) = None
   \/ Data (request s) = Some []
   \/ exists choropleth,
        Choropleth_ (request s) = Some choropleth
        /\ models.Breaks choropleth <> []) ->
  exists features,
    RenderSVG s
    = Ok (DrawWithProjection features (ViewBoxWidth s) (ViewBoxHeight s)
            (mapOptions s (NameProperty geography)))
    /\ Forall2
         (fun f f' =>
            geojson.ID f'
            = geojson.ID (setFeatureID (IDProperty geography)
                            (idPrefix (request s) +:+ "-") f)
            /\ geojson.Coordinates f' = geojson.Coordinates f
            /\ geojson.Properties f' !! "class"
               = Some (VString
                         match geojson.Properties f !! "class" with
                         | Some original =>
                             RegionClassName +:+ " " +:+ fmt_v original
                         | None => RegionClassName
                         end))
         (geojson.Features collection) features.
Proof.
  intros Hj Hg Hname Hok. unfold RenderSVG. rewrite Hj, Hg.
  cbn [deref mbind result_bind].
  destruct (setChoroplethColoursAndTitles_keeps
              (setClassProperty
                 (setFeatureIDs (geojson.Features collection)
                    (IDProperty geography) (idPrefix (request s) +:+ "-"))
                 RegionClassName)
              (request s) geography Hg Hok)
    as (features & -> & F).
  exists features. split; [reflexivity|].
  unfold setClassProperty, setFeatureIDs in F.
  rewrite map_map in F.
  eapply Forall2_compose; [|apply Forall2_map_self|exact F].
  cbn beta. intros f f1 f' <- (Eid & Ec & Ep).
  rewrite Eid, Ec, (Ep "class") by congruence.
  assert (Eprops : forall f0 : geojson.Feature,
             geojson.Properties
               (setFeatureID (IDProperty geography)
                  (idPrefix (request s) +:+ "-") f0)
             = geojson.Properties f0
             /\ geojson.Coordinates
                  (setFeatureID (IDProperty geography)
                     (idPrefix (request s) +:+ "-") f0)
                = geojson.Coordinates f0).
  { intros f0. unfold setFeatureID.
    destruct (assertString _) as [id isString].
    destruct (isString && _); [split; reflexivity|].
    destruct (geojson.ID f0) as [|id0|x]; try (split; reflexivity).
    destruct (0 <? String.length id0)%nat; split; reflexivity. }
  destruct (Eprops f) as [Hp Hc].
  unfold appendProperty, withProperty. cbn [geojson.ID geojson.Coordinates
                                            geojson.Properties].
  rewrite lookup_insert_eq, Hp, Hc. repeat split.
Qed.

(** The sample request: one feature is drawn for its one decoded
    feature. *)
Lemma RenderSVG_features_witness :
  exists features,
    RenderSVG (collab := Example.collaborators)
      (Example.prepared Example.longLowerLabelRequest)
    = Ok (DrawWithProjection (Collaborators := Example.collaborators)
            features
            (ViewBoxWidth (Example.prepared Example.longLowerLabelRequest))
            (ViewBoxHeight (Example.prepared Example.longLowerLabelRequest))
            (mapOptions (collab := Example.collaborators)
               (Example.prepared Example.longLowerLabelRequest)
               (NameProperty Example.geography)))
    /\ length features = 1%nat.
Proof.
  assert (Hname : NameProperty Example.geography <> "class") by discriminate.
  assert (Hok : Choropleth_ Example.longLowerLabelRequest = None
                \/ Data Example.longLowerLabelRequest = None
                \/ Data Example.longLowerLabelRequest = Some []
                \/ exists choropleth,
                     Choropleth_ Example.longLowerLabelRequest
                     = Some choropleth
                     /\ models.Breaks choropleth <> []).
  { right. right. right. exists Example.longLowerLabelChoropleth.
    split; [reflexivity|discriminate]. }
  destruct (geoJSON (Example.prepared Example.longLowerLabelRequest))
    as [collection|] eqn:Ej; [|vm_compute in Ej; discriminate Ej].
  destruct (RenderSVG_features (H := Example.collaborators)
              (Example.prepared Example.longLowerLabelRequest)
              collection Example.geography Ej eq_refl Hname Hok)
    as (features & E & F).
  exists features. split; [exact E|].
  apply Forall2_length in F. rewrite <- F.
  vm_compute in Ej. injection Ej as <-. reflexivity.
Defined.

(** ** When the legend renderers return *)

Lemma index_last_cons {A : Type} (a : A) (l : list A) :
  exists z, index (a :: l) (len (a :: l) - 1) = Ok z.
Proof.
  rewrite index_last. destruct (last (a :: l)) as [z|] eqn:E; [eauto|].
  apply last_None in E. discriminate E.
Qed.

Lemma getHorizontalRefTextInfo_Ok `{Collaborators} (req : RenderRequest)
    (choropleth : models.Choropleth) :
  Choropleth_ req = Some choropleth ->
  exists refInfo, getHorizontalRefTextInfo req = Ok refInfo.
Proof.
  intros Hc. unfold getHorizontalRefTextInfo. rewrite Hc.
  cbn [deref mbind result_bind]. destruct (F64.gt _ _); eauto.
Qed.

Lemma getHorizontalKeyInfo_Ok `{Collaborators} (svgWidth : float)
    (s : SVGRequest) (choropleth : models.Choropleth) :
  Choropleth_ (request s) = Some choropleth ->
  breaks s <> [] ->
  exists info, getHorizontalKeyInfo svgWidth s = Ok info.
Proof.
  intros Hc Hb. unfold getHorizontalKeyInfo.
  destruct (getHorizontalRefTextInfo_Ok (request s) choropleth Hc) as [r ->].
  cbn [mbind result_bind].
  destruct (breaks s) as [|b l]; [congruence|].
  destruct (index_last_cons b l) as [z ->].
  change (index (b :: l) 0) with (Ok b). cbn [mbind result_bind]. eauto.
Qed.

Lemma legends_without_choropleth `{Collaborators} (s : SVGRequest) :
  geoJSON s <> None ->
  Choropleth_ (request s) = None ->
  RenderHorizontalKey s = Panic NilDereference
  /\ RenderVerticalKey s = Panic NilDereference.
Proof.
  intros Hj Hc. unfold RenderHorizontalKey, RenderVerticalKey.
  destruct (geoJSON s) as [collection|]; [clear Hj|congruence].
  unfold getHorizontalKeyInfo, getHorizontalRefTextInfo,
    writeVerticalLegendTitle. rewrite Hc. split; reflexivity.
Qed.

Lemma legends_without_breaks `{Collaborators} (s : SVGRequest) :
  geoJSON s <> None ->
  Choropleth_ (request s) <> None ->
  breaks s = [] ->
  RenderHorizontalKey s = Panic IndexOutOfRange
  /\ RenderVerticalKey s = Panic IndexOutOfRange.
Proof.
  intros Hj Hc Hb. unfold RenderHorizontalKey, RenderVerticalKey.
  destruct (geoJSON s) as [collection|]; [clear Hj|congruence].
  destruct (Choropleth_ (request s)) as [choropleth|] eqn:Ec;
    [clear Hc|congruence].
  split.
  - unfold getHorizontalKeyInfo.
    destruct (getHorizontalRefTextInfo_Ok (request s) choropleth Ec)
      as [r ->].
    rewrite Hb. reflexivity.
  - unfold writeVerticalLegendTitle. rewrite Ec, Hb. reflexivity.
Qed.

Lemma legends_with_breaks `{Collaborators} (s : SVGRequest) :
  Choropleth_ (request s) <> None ->
  breaks s <> [] ->
  exists horizontal vertical,
    RenderHorizontalKey s = Ok horizontal
    /\ RenderVerticalKey s = Ok vertical.
Proof.
  intros Hc Hb. unfold RenderHorizontalKey, RenderVerticalKey.
  destruct (geoJSON s) as [collection|]; [|eauto].
  destruct (Choropleth_ (request s)) as [choropleth|] eqn:Ec;
    [clear Hc|congruence].
  destruct (getHorizontalKeyInfo_Ok (ViewBoxWidth s) s choropleth Ec Hb)
    as [info ->].
  unfold writeHorizontalKeyTitle, writeVerticalLegendTitle,
    writeVerticalKeyRefTick.
  rewrite Ec. cbn [deref mbind result_bind].
  destruct (breaks s) as [|b l]; [congruence|].
  destruct (index_last_cons b l) as [z ->].
  destruct (fold_left _ (b :: l) _) as [[content ticks] left_].
  destruct (fold_left _ (b :: l) _) as [[content' ticks'] position].
  cbn [mbind result_bind].
  destruct (0 <? String.length (models.ReferenceValueText choropleth))%nat;
    cbn [mbind result_bind]; eauto.
Qed.

(** X8.  On a request with a geometry the two legend renderers return
    when the request has a choropleth and the prepared request has break
    information; with no choropleth they panic on a nil dereference, and
    with a choropleth and no break information on an index out of range. *)
Theorem legend_renderers_return `{Collaborators} (s : SVGRequest) :
  geoJSON s <> None ->
  (Choropleth_ (request s) = None ->
     RenderHorizontalKey s = Panic NilDereference
     /\ RenderVerticalKey s = Panic NilDereference)
  /\ (Choropleth_ (request s) <> None -> breaks s = [] ->
      RenderHorizontalKey s = Panic IndexOutOfRange
      /\ RenderVerticalKey s = Panic IndexOutOfRange)
  /\ (Choropleth_ (request s) <> None -> breaks s <> [] ->
      exists horizontal vertical,
        RenderHorizontalKey s = Ok horizontal
        /\ RenderVerticalKey s = Ok vertical).
Proof.
  intros Hj. split; [|split].
  - exact (legends_without_choropleth s Hj).
  - exact (legends_without_breaks s Hj).
  - exact (legends_with_breaks s).
Qed.

(** A request with a geometry and no choropleth: the horizontal legend
    cannot be rendered. *)
Lemma legend_renderers_return_witness :
  RenderHorizontalKey (collab := Example.collaborators)
    (Example.prepared Example.responsiveRequest) = Panic NilDereference.
Proof.
  refine (proj1 (proj1 (legend_renderers_return (H := Example.collaborators)
                          (Example.prepared Example.responsiveRequest) _)
                   eq_refl)).
  vm_compute. discriminate.
Defined.

(** ** The viewbox of a prepared request *)

Lemma le_400_0 : F64.le 400%float 0%float = false.
Proof. reflexivity. Qed.

Lemma getViewBoxDimensions_width `{Collaborators}
    (svg : geojson.FeatureCollection) (req : RenderRequest) :
  F64.le (getViewBoxDimensions svg req).1 0%float = false
  /\ (getViewBoxDimensions svg req).2
     = GetHeightForWidth svg (getViewBoxDimensions svg req).1.
Proof.
  unfold getViewBoxDimensions. cbn [fst snd]. split; [|reflexivity].
  destruct (F64.le (DefaultWidth req) 0%float) eqn:Ed.
  - destruct (F64.le ((MinWidth req + MaxWidth req) / 2)%float 0%float) eqn:Ea.
    + exact le_400_0.
    + exact Ea.
  - rewrite Ed. exact Ed.
Qed.

(** X9.  Whatever the three widths of the request are, a request
    prepared on a geometry has a viewbox whose width is not zero or
    negative (it is positive whenever it is a number) and whose height
    is the height the geometry has for that width; one prepared without
    a geometry has a viewbox of 0 by 0. *)
Theorem prepared_viewbox `{Collaborators} (req : RenderRequest)
    (s : SVGRequest) :
  PrepareSVGRequest req = Ok s ->
  match geoJSON s with
  | Some collection =>
      F64.le (ViewBoxWidth s) 0%float = false
      /\ (PrimFloat.is_nan (ViewBoxWidth s) = false ->
          F64.gt (ViewBoxWidth s) 0%float = true)
      /\ ViewBoxHeight s = GetHeightForWidth collection (ViewBoxWidth s)
  | None =>
      ViewBoxWidth s = 0%float /\ ViewBoxHeight s = 0%float
  end.
Proof.
  intros E.
  destruct (PrepareSVGRequest_fields req s E) as (_ & Eg & _ & Hd).
  rewrite Eg. destruct (getGeoJSON req) as [collection|] eqn:Ej.
  - specialize (Hd collection eq_refl).
    destruct (getViewBoxDimensions_width collection req) as [Hw Hh].
    rewrite <- Hd in Hw, Hh. cbn [fst snd] in Hw, Hh.
    split; [exact Hw|]. split; [|exact Hh].
    intros Hn. unfold F64.gt. apply lt_of_not_le; [exact Hn|reflexivity|exact Hw].
  - clear Hd. unfold PrepareSVGRequest in E. rewrite Ej in E.
    destruct (match Choropleth_ req with Some _ => _ | None => _ end).
    + bind_inv E. destruct a as [bs rp]. bind_inv E. destruct a as [lw ko].
      injection E as <-. split; reflexivity.
    + injection E as <-. split; reflexivity.
Qed.

(** The request with a maximum width alone, on the sample geometry: the
    viewbox is 150 wide. *)
Lemma prepared_viewbox_witness :
  exists s,
    PrepareSVGRequest (collab := Example.collaborators)
      Example.maxWidthOnlyRequest = Ok s
    /\ F64.gt (ViewBoxWidth s) 0%float = true.
Proof.
  destruct (PrepareSVGRequest (collab := Example.collaborators)
              Example.maxWidthOnlyRequest) as [s|p] eqn:E;
    [|vm_compute in E; discriminate E].
  exists s. split; [reflexivity|].
  pose proof (prepared_viewbox (H := Example.collaborators)
                Example.maxWidthOnlyRequest s E) as P.
  vm_compute in E. injection E as <-.
  cbn [geoJSON] in P. destruct P as (_ & P & _). apply P. reflexivity.
Defined.

(** ** The fallback converter *)

Lemma finishLegend_without_fallback (collab : Collaborators)
    (p : option g2s.PNGConverter) (req : RenderRequest)
    (attributes content : string) (width height : float) :
  IncludeFallbackPng req = false ->
  finishLegend (collab := UsePNGConverter collab p) req attributes content
               width height
  = "<svg " +:+ attributes +:+ ">" +:+ content +:+ "</svg>".
Proof.
  intros Hf. unfold finishLegend. rewrite Hf.
  destruct (pngConverter (Collaborators := UsePNGConverter collab p));
    reflexivity.
Qed.

Lemma finishLegend_same (collab : Collaborators)
    (p : option g2s.PNGConverter) (req : RenderRequest)
    (attributes content : string) (width height : float) :
  IncludeFallbackPng req = false ->
  finishLegend (collab := UsePNGConverter collab p) req attributes content
               width height
  = finishLegend (collab := collab) req attributes content width height.
Proof.
  intros Hf. rewrite finishLegend_without_fallback by exact Hf.
  unfold finishLegend. rewrite Hf. destruct pngConverter; reflexivity.
Qed.

(** X10.  The converter [UsePNGConverter] assigns plays no role in
    preparing a request, and none in rendering a request that asks for
    no fallback image: the map and both legends come out as they do
    under any other converter, or none. *)
Theorem converter_unused_without_fallback (collab : Collaborators)
    (p : option g2s.PNGConverter) (s : SVGRequest) :
  IncludeFallbackPng (request s) = false ->
  (forall req,
     PrepareSVGRequest (collab := UsePNGConverter collab p) req
     = PrepareSVGRequest (collab := collab) req)
  /\ RenderSVG (collab := UsePNGConverter collab p) s
     = RenderSVG (collab := collab) s
  /\ RenderHorizontalKey (collab := UsePNGConverter collab p) s
     = RenderHorizontalKey (collab := collab) s
  /\ RenderVerticalKey (collab := UsePNGConverter collab p) s
     = RenderVerticalKey (collab := collab) s.
Proof.
  intros Hf. split; [intros req; reflexivity|].
  split; [|split].
  - unfold RenderSVG, mapOptions. cbv zeta. rewrite Hf. reflexivity.
  - unfold RenderHorizontalKey. cbv zeta.
    destruct (geoJSON s) as [collection|]; [|reflexivity].
    change (getHorizontalKeyInfo (collab := UsePNGConverter collab p))
      with (getHorizontalKeyInfo (collab := collab)).
    destruct (getHorizontalKeyInfo _ s) as [keyInfo|e]; [|reflexivity].
    cbn [mbind result_bind].
    change (writeHorizontalKeyTitle (collab := UsePNGConverter collab p))
      with (writeHorizontalKeyTitle (collab := collab)).
    destruct (writeHorizontalKeyTitle _ _) as [title|e]; [|reflexivity].
    cbn [mbind result_bind].
    set (x := fold_left _ _ _). clearbody x.
    destruct x as [[content ticks] left_].
    destruct (index _ _) as [bl|e]; [|reflexivity].
    cbn [mbind result_bind].
    destruct (deref _) as [choropleth|e]; [|reflexivity].
    cbn [mbind result_bind]. f_equal.
    rewrite finishLegend_same by exact Hf. reflexivity.
  - unfold RenderVerticalKey. cbv zeta.
    destruct (geoJSON s) as [collection|]; [|reflexivity].
    change (writeVerticalLegendTitle (collab := UsePNGConverter collab p))
      with (writeVerticalLegendTitle (collab := collab)).
    destruct (writeVerticalLegendTitle _ _ _) as [title|e]; [|reflexivity].
    cbn [mbind result_bind].
    set (x := fold_left _ _ _). clearbody x.
    destruct x as [[content ticks] position].
    destruct (index _ _) as [bl|e]; [|reflexivity].
    cbn [mbind result_bind].
    destruct (deref _) as [choropleth|e]; [|reflexivity].
    cbn [mbind result_bind].
    change (writeVerticalKeyRefTick (collab := UsePNGConverter collab p))
      with (writeVerticalKeyRefTick (collab := collab)).
    destruct (0 <? String.length (models.ReferenceValueText choropleth))%nat.
    + destruct (writeVerticalKeyRefTick _ _) as [tick|e]; [|reflexivity].
      cbn [mbind result_bind]. f_equal.
      rewrite finishLegend_same by exact Hf. reflexivity.
    + cbn [mbind result_bind]. f_equal.
      rewrite finishLegend_same by exact Hf. reflexivity.
Qed.

(** The sample request asks for no fallback image: its map is the same
    with no converter as with the one of the sample collaborators. *)
Lemma converter_unused_without_fallback_witness :
  RenderSVG (collab := UsePNGConverter Example.collaborators None)
    (Example.prepared Example.longLowerLabelRequest)
  = RenderSVG (collab := Example.collaborators)
      (Example.prepared Example.longLowerLabelRequest).
Proof.
  refine (proj1 (proj2 (converter_unused_without_fallback
                          Example.collaborators None
                          (Example.prepared Example.longLowerLabelRequest) _))).
  reflexivity.
Defined.

(** ** Joining the regions to the data rows *)

Lemma append_inj (prefix a b : string) :
  prefix +:+ a = prefix +:+ b -> a = b.
Proof.
  induction prefix as [|c prefix IH]; intros E; [exact E|].
  injection E as E. exact (IH E).
Qed.

Lemma filter_prefixed (prefix code : string) (data : list models.DataRow) :
  filter (fun row => prefix +:+ models.ID row = prefix +:+ code) data
  = filter (fun row => models.ID row = code) data.
Proof.
  induction data as [|row rest IH]; [reflexivity|].
  rewrite !filter_cons, IH.
  destruct (decide (prefix +:+ models.ID row = prefix +:+ code)) as [E|E],
           (decide (models.ID row = code)) as [E'|E']; try reflexivity.
  - exfalso. exact (E' (append_inj _ _ _ E)).
  - exfalso. apply E. rewrite E'. reflexivity.
Qed.

Lemma setFeatureID_usable (idProperty prefix code : string)
    (feature : geojson.Feature) :
  code <> EmptyString ->
  (geojson.Properties feature !! idProperty = Some (VString code)
   \/ (geojson.Properties feature !! idProperty <> Some (VString code)
       /\ (forall c, geojson.Properties feature !! idProperty
                     = Some (VString c) -> c = EmptyString)
       /\ geojson.ID feature = geojson.StringID code)) ->
  geojson.ID (setFeatureID idProperty prefix feature)
  = geojson.StringID (prefix +:+ code).
Proof.
  intros Hc Hid.
  assert (Hlen : (0 <? String.length code)%nat = true).
  { destruct code; [congruence|reflexivity]. }
  unfold setFeatureID. destruct Hid as [Ep|(_ & Hp & Ei)].
  - rewrite Ep. cbn [assertString andb]. rewrite Hlen. reflexivity.
  - assert (Ea : (let '(id, isString) :=
                    assertString (geojson.Properties feature !! idProperty) in
                  isString && (0 <? String.length id)%nat) = false).
    { destruct (geojson.Properties feature !! idProperty)
        as [[|b|f|c|l|m]|]; try reflexivity.
      rewrite (Hp c eq_refl). reflexivity. }
    destruct (assertString (geojson.Properties feature !! idProperty))
      as [id isString].
    rewrite Ea, Ei, Hlen. reflexivity.
Qed.

(** X11.  The join of the regions to the data. A feature whose id
    property is a non-empty string, or else whose own id is one, is
    given the prefixed form of that string as its id, and the map of
    [mapDataToColour], built with the same prefix, holds at that id the
    value and colour of the last data row whose id is the string itself;
    it holds nothing there when no data row has that id. The prefix
    plays no part in the match. *)
Theorem regions_join_rows_by_id (idProperty prefix code : string)
    (data : list models.DataRow) (choropleth : models.Choropleth)
    (feature : geojson.Feature) :
  code <> EmptyString ->
  (geojson.Properties feature !! idProperty = Some (VString code)
   \/ (geojson.Properties feature !! idProperty <> Some (VString code)
       /\ (forall c, geojson.Properties feature !! idProperty
                     = Some (VString c) -> c = EmptyString)
       /\ geojson.ID feature = geojson.StringID code)) ->
  (data = [] \/ models.Breaks choropleth <> []) ->
  let id := geojson.ID (setFeatureID idProperty prefix feature) in
  id = geojson.StringID (prefix +:+ code)
  /\ exists dataMap,
       mapDataToColour data choropleth prefix = Ok dataMap
       /\ match last (filter (fun row => models.ID row = code) data) with
          | Some row =>
              exists c,
                getColour (models.Value row)
                          (sortBreaks (models.Breaks choropleth) false) = Ok c
                /\ lookupID dataMap id
                   = Some {| value_ := models.Value row; colour := c |}
          | None => lookupID dataMap id = None
          end.
Proof.
  intros Hc Hid Hok. cbv zeta.
  rewrite (setFeatureID_usable idProperty prefix code feature Hc Hid).
  split; [reflexivity|].
  destruct (mapDataToColour_lookupID data choropleth prefix Hok)
    as (dataMap & Em & Hlook).
  exists dataMap. split; [exact Em|].
  specialize (Hlook (geojson.StringID (prefix +:+ code))).
  cbn [matchingRow] in Hlook. rewrite filter_prefixed in Hlook. exact Hlook.
Qed.

(** A region with the code E01 and two data rows of that id: the later
    row, of value 7, gives the colour. *)
Lemma regions_join_rows_by_id_witness :
  exists dataMap,
    mapDataToColour
      [Example.mkRow "E01" 1%float; Example.mkRow "E02" 3%float;
       Example.mkRow "E01" 7%float]
      Example.longLowerLabelChoropleth "map-" = Ok dataMap
    /\ exists c,
         lookupID dataMap
           (geojson.ID
              (setFeatureID "code" "map-"
                 {| geojson.ID := geojson.NoID;
                    geojson.Properties := {[ "code" := VString "E01" ]};
                    geojson.Coordinates := [] |}))
         = Some {| value_ := 7%float; colour := c |}.
Proof.
  assert (Hc : "E01" <> EmptyString) by discriminate.
  assert (Hb : [Example.mkRow "E01" 1%float; Example.mkRow "E02" 3%float;
                Example.mkRow "E01" 7%float] = []
               \/ models.Breaks Example.longLowerLabelChoropleth <> [])
    by (right; discriminate).
  pose (feature := {| geojson.ID := geojson.NoID;
                      geojson.Properties := {[ "code" := VString "E01" ]};
                      geojson.Coordinates := [] |}).
  assert (Hid : geojson.Properties feature !! "code" = Some (VString "E01")
                \/ (geojson.Properties feature !! "code"
                      <> Some (VString "E01")
                    /\ (forall c, geojson.Properties feature !! "code"
                                  = Some (VString c) -> c = EmptyString)
                    /\ geojson.ID feature = geojson.StringID "E01"))
    by (left; vm_compute; reflexivity).
  destruct (regions_join_rows_by_id "code" "map-" "E01"
              [Example.mkRow "E01" 1%float; Example.mkRow "E02" 3%float;
               Example.mkRow "E01" 7%float]
              Example.longLowerLabelChoropleth feature Hc Hid Hb)
    as (_ & dataMap & Em & Hrow).
  exists dataMap. split; [exact Em|].
  vm_compute in Hrow.
  destruct Hrow as (c & _ & El). exists c. exact El.
Defined.

(** ** The width of the vertical key *)

(** One step of the running maximum of [getVerticalTickTextWidth]. *)
Lemma wider_tick (w m : float) :
  PrimFloat.is_nan w = false -> PrimFloat.is_nan m = false ->
  let m' := if F64.gt w m then w else m in
  PrimFloat.is_nan m' = false
  /\ F64.le m m' = true /\ F64.le w m' = true /\ (m' = w \/ m' = m).
Proof.
  intros Hw Hm. cbv zeta. destruct (F64.gt w m) eqn:E.
  - split; [exact Hw|]. split; [apply le_of_lt; exact E|].
    split; [apply le_refl; exact Hw|]. left. reflexivity.
  - split; [exact Hm|]. split; [apply le_refl; exact Hm|].
    split; [apply le_of_not_lt; assumption|]. right. reflexivity.
Qed.

Lemma widest_tick `{Collaborators} (req : RenderRequest)
    (breaks : list breakInfo) :
  Forall (fun b =>
            PrimFloat.is_nan (boundTextWidth req (LowerBound b)) = false
            /\ PrimFloat.is_nan (boundTextWidth req (UpperBound b)) = false)
         breaks ->
  forall m0 : float,
    PrimFloat.is_nan m0 = false ->
    let maxTick :=
      fold_left
        (fun maxTick b =>
           let lbound := boundTextWidth req (LowerBound b) in
           let maxTick := if F64.gt lbound maxTick then lbound else maxTick in
           let ubound := boundTextWidth req (UpperBound b) in
           if F64.gt ubound maxTick then ubound else maxTick)
        breaks m0 in
    PrimFloat.is_nan maxTick = false
    /\ F64.le m0 maxTick = true
    /\ Forall (fun b =>
                 F64.le (boundTextWidth req (LowerBound b)) maxTick = true
                 /\ F64.le (boundTextWidth req (UpperBound b)) maxTick = true)
              breaks
    /\ (maxTick = m0
        \/ Exists (fun b => maxTick = boundTextWidth req (LowerBound b)
                            \/ maxTick = boundTextWidth req (UpperBound b))
                  breaks).
Proof.
  induction 1 as [|b rest [Hl Hu] Hrest IH]; intros m0 Hm0; cbv zeta.
  - cbn [fold_left]. split; [exact Hm0|]. split; [apply le_refl; exact Hm0|].
    split; [constructor|]. left. reflexivity.
  - cbn [fold_left].
    destruct (wider_tick _ m0 Hl Hm0) as (N1 & L1 & W1 & C1). cbv zeta in *.
    set (m1 := if F64.gt (boundTextWidth req (LowerBound b)) m0
               then boundTextWidth req (LowerBound b) else m0) in *.
    destruct (wider_tick _ m1 Hu N1) as (N2 & L2 & W2 & C2). cbv zeta in *.
    set (m2 := if F64.gt (boundTextWidth req (UpperBound b)) m1
               then boundTextWidth req (UpperBound b) else m1) in *.
    destruct (IH m2 N2) as (N & L & F & C). cbv zeta in *.
    set (m := fold_left _ rest m2) in *.
    split; [exact N|].
    split; [exact (le_trans _ _ _ (le_trans _ _ _ L1 L2) L)|].
    split.
    + constructor; [|exact F]. split.
      * exact (le_trans _ _ _ (le_trans _ _ _ W1 L2) L).
      * exact (le_trans _ _ _ W2 L).
    + destruct C as [C|C]; [|right; apply Exists_cons_tl; exact C].
      destruct C2 as [C2|C2].
      * right. apply Exists_cons_hd. right. congruence.
      * destruct C1 as [C1|C1].
        -- right. apply Exists_cons_hd. left. congruence.
        -- left. congruence.
Qed.

(** X12.  The vertical key leaves room for its widest tick. When the
    widths of the texts of all bounds are numbers, the width
    [getVerticalTickTextWidth] returns is [maxTick + refWidth + 38] and
    the offset [maxTick - refWidth], where [refWidth] is the larger of
    the widths of the reference text and the reference value, and
    [maxTick] is at least 0 and at least the width of the text of every
    lower and upper bound, and is 0 or one of those widths. Without a
    choropleth the function panics on the nil dereference. *)
Theorem vertical_key_fits_widest_tick `{Collaborators} (req : RenderRequest)
    (breaks : list breakInfo) :
  Forall (fun b =>
            PrimFloat.is_nan (boundTextWidth req (LowerBound b)) = false
            /\ PrimFloat.is_nan (boundTextWidth req (UpperBound b)) = false)
         breaks ->
  match Choropleth_ req with
  | None => getVerticalTickTextWidth req breaks = Panic NilDereference
  | Some choropleth =>
      let refWidth :=
        F64.Max (GetApproximateTextWidth (models.ReferenceValueText choropleth)
                                         (FontSize req))
                (boundTextWidth req (models.ReferenceValue choropleth)) in
      exists maxTick,
        getVerticalTickTextWidth req breaks
        = Ok ((maxTick + refWidth + 38.0)%float, (maxTick - refWidth)%float)
        /\ F64.le 0%float maxTick = true
        /\ Forall (fun b =>
                     F64.le (boundTextWidth req (LowerBound b)) maxTick = true
                     /\ F64.le (boundTextWidth req (UpperBound b)) maxTick
                        = true)
                  breaks
        /\ (maxTick = 0%float
            \/ Exists (fun b =>
                         maxTick = boundTextWidth req (LowerBound b)
                         \/ maxTick = boundTextWidth req (UpperBound b))
                      breaks)
  end.
Proof.
  intros Hn. unfold getVerticalTickTextWidth.
  destruct (Choropleth_ req) as [choropleth|]; [|reflexivity].
  cbn [deref mbind result_bind]. cbv zeta.
  destruct (widest_tick req breaks Hn 0.0%float eq_refl) as (_ & L & F & C).
  cbv zeta in L, F, C.
  eexists. split; [reflexivity|]. split; [exact L|]. split; [exact F|exact C].
Qed.

(** One class from 0 to 5 on the sample request, whose tick texts all
    have a width that is a number. *)
Lemma vertical_key_fits_widest_tick_witness :
  exists maxTick refWidth,
    getVerticalTickTextWidth (collab := Example.collaborators)
      Example.longLowerLabelRequest
      [{| LowerBound := 0%float; UpperBound := 5%float;
          RelativeSize := 1%float; Colour := "red" |}]
    = Ok ((maxTick + refWidth + 38.0)%float, (maxTick - refWidth)%float)
    /\ F64.le 0%float maxTick = true.
Proof.
  assert (Hn : Forall (fun b =>
                 PrimFloat.is_nan
                   (boundTextWidth (collab := Example.collaborators)
                      Example.longLowerLabelRequest (LowerBound b)) = false
                 /\ PrimFloat.is_nan
                      (boundTextWidth (collab := Example.collaborators)
                         Example.longLowerLabelRequest (UpperBound b)) = false)
              [{| LowerBound := 0%float; UpperBound := 5%float;
                  RelativeSize := 1%float; Colour := "red" |}]).
  { constructor; [|constructor]. split; vm_compute; reflexivity. }
  pose proof (vertical_key_fits_widest_tick (H := Example.collaborators)
                Example.longLowerLabelRequest _ Hn) as P.
  change (Choropleth_ Example.longLowerLabelRequest)
    with (Some Example.longLowerLabelChoropleth) in P.
  cbv zeta in P. destruct P as (maxTick & E & L & _).
  eexists maxTick, _. split; [exact E|exact L].
Defined.

(** ** Rendering a prepared request *)

(** The break information of a prepared request: none without breaks,
    one class per break otherwise. *)
Lemma prepared_breaks `{Collaborators} (req : RenderRequest) (s : SVGRequest) :
  PrepareSVGRequest req = Ok s ->
  request s = req
  /\ geoJSON s = getGeoJSON req
  /\ length (breaks s)
     = match Choropleth_ req with
       | Some choropleth => length (models.Breaks choropleth)
       | None => 0%nat
       end.
Proof.
  intros E. destruct (PrepareSVGRequest_fields req s E) as (Er & Eg & _).
  split; [exact Er|]. split; [exact Eg|].
  destruct (Choropleth_ req) as [choropleth|] eqn:Hc.
  - destruct (models.Breaks choropleth) as [|b l] eqn:Hb.
    + destruct (PrepareSVGRequest_without_breaks req) as (s' & E' & Eb).
      { rewrite Hc. exact Hb. }
      rewrite E in E'. injection E' as <-. rewrite Eb. reflexivity.
    + destruct (PrepareSVGRequest_returned req s choropleth E Hc)
        as [Hn Hd]; [rewrite Hb; discriminate|].
      rewrite Hb in Hn.
      rewrite (PrepareSVGRequest_with_breaks req choropleth Hc) in E
        by (rewrite Hb; discriminate).
      destruct (match getGeoJSON req with Some _ => _ | None => _ end)
        as [width height].
      destruct (Data req) as [data|] eqn:Ed; [|contradiction Hd; reflexivity].
      cbn [default] in Hd. change (id data) with data in Hd.
      destruct (breakRange_Some data choropleth Hd) as (mn & mx & Hr).
      { rewrite Hb. discriminate. }
      rewrite <- Hb in Hn.
      rewrite (getSortedBreakInfo_eq req choropleth data mn mx Hc Ed Hr Hn)
        in E.
      cbn [mbind result_bind] in E. bind_inv E. destruct a as [w o].
      injection E as <-. cbn [breaks].
      rewrite classes_length, <- Hb.
      unfold sortBreaks. apply sort_Slice_length.
  - destruct (PrepareSVGRequest_without_breaks req) as (s' & E' & Eb).
    { rewrite Hc. exact I. }
    rewrite E in E'. injection E' as <-. rewrite Eb. reflexivity.
Qed.

Lemma getGeoJSON_geography `{Collaborators} (req : RenderRequest)
    (collection : geojson.FeatureCollection) :
  getGeoJSON req = Some collection ->
  exists geography, Geography_ req = Some geography.
Proof.
  unfold getGeoJSON. destruct (Geography_ req) as [geography|]; [eauto|].
  discriminate.
Qed.

(** X13.  Rendering what [PrepareSVGRequest] returned. On a prepared
    request with a geometry: both legends are rendered if the request
    has a choropleth with a break, and otherwise both panic; the map is
    rendered unless the request has a choropleth with no break and some
    data row, in which case it panics. *)
Theorem prepared_request_renders `{Collaborators} (req : RenderRequest)
    (s : SVGRequest) :
  PrepareSVGRequest req = Ok s ->
  getGeoJSON req <> None ->
  ((exists horizontal vertical,
      RenderHorizontalKey s = Ok horizontal
      /\ RenderVerticalKey s = Ok vertical)
   <-> exists choropleth,
         Choropleth_ req = Some choropleth /\ models.Breaks choropleth <> [])
  /\ ((exists horizontal, RenderHorizontalKey s = Ok horizontal)
      <-> exists vertical, RenderVerticalKey s = Ok vertical)
  /\ ((exists map, RenderSVG s = Ok map)
      <-> match Choropleth_ req with
          | Some choropleth =>
              models.Breaks choropleth <> [] \/ default [] (Data req) = []
          | None => True
          end).
Proof.
  intros E Hj. destruct (prepared_breaks req s E) as (Er & Eg & Hlen).
  assert (Hjs : geoJSON s <> None) by (rewrite Eg; exact Hj).
  assert (Hkeys :
            (exists choropleth,
               Choropleth_ req = Some choropleth
               /\ models.Breaks choropleth <> [])
            \/ ((forall out, RenderHorizontalKey s <> Ok out)
                /\ (forall out, RenderVerticalKey s <> Ok out)
                /\ ~ exists choropleth,
                       Choropleth_ req = Some choropleth
                       /\ models.Breaks choropleth <> [])).
  { destruct (Choropleth_ req) as [choropleth|] eqn:Hc.
    - destruct (models.Breaks choropleth) as [|b l] eqn:Hb.
      + right.
        destruct (legends_without_breaks s Hjs) as [Eh Ev].
        { rewrite Er, Hc. discriminate. }
        { destruct (breaks s); [reflexivity|discriminate Hlen]. }
        rewrite Eh, Ev. repeat split; try discriminate.
        intros (ch & [= <-] & Hne). exact (Hne Hb).
      + left. exists choropleth. split; [reflexivity|].
        rewrite Hb. discriminate.
    - right. destruct (legends_without_choropleth s Hjs) as [Eh Ev].
      { rewrite Er. exact Hc. }
      rewrite Eh, Ev. repeat split; try discriminate.
      intros (ch & Ech & _). discriminate Ech. }
  assert (Hboth :
            (exists choropleth,
               Choropleth_ req = Some choropleth
               /\ models.Breaks choropleth <> []) ->
            exists horizontal vertical,
              RenderHorizontalKey s = Ok horizontal
              /\ RenderVerticalKey s = Ok vertical).
  { intros (choropleth & Hc & Hb). apply legends_with_breaks.
    - rewrite Er, Hc. discriminate.
    - rewrite Hc in Hlen. intros Eb. rewrite Eb in Hlen.
      destruct (models.Breaks choropleth); [congruence|discriminate Hlen]. }
  split; [|split].
  - split; [|exact Hboth].
    intros (h & v & Eh & _). destruct Hkeys as [Hk|(Nh & _ & _)]; [exact Hk|].
    exfalso. exact (Nh h Eh).
  - destruct Hkeys as [Hk|(Nh & Nv & _)].
    + destruct (Hboth Hk) as (h & v & Eh & Ev). split; intros _; eauto.
    + split; intros [out Eo]; exfalso; [exact (Nh out Eo)|exact (Nv out Eo)].
  - destruct (getGeoJSON req) as [collection|] eqn:Ej; [clear Hj|congruence].
    destruct (getGeoJSON_geography req collection Ej) as [geography Hg].
    unfold RenderSVG. rewrite Eg, Er, Hg. cbn [deref mbind result_bind].
    destruct (Choropleth_ req) as [choropleth|] eqn:Hc.
    + split.
      * intros [out Eo].
        destruct (models.Breaks choropleth) as [|b l] eqn:Hb;
          [|left; discriminate].
        right. destruct (Data req) as [[|row rows]|] eqn:Ed;
          try reflexivity.
        exfalso. unfold setChoroplethColoursAndTitles in Eo.
        rewrite Hc, Ed in Eo. unfold mapDataToColour in Eo.
        rewrite Hb in Eo. discriminate Eo.
      * intros Hok.
        destruct (setChoroplethColoursAndTitles_keeps
                    (setClassProperty
                       (setFeatureIDs (geojson.Features collection)
                          (IDProperty geography) (idPrefix req +:+ "-"))
                       RegionClassName)
                    req geography Hg) as (features & -> & _).
        { destruct (Data req) as [[|row rows]|] eqn:Ed.
          - right. right. left. reflexivity.
          - destruct Hok as [Hb|Hd]; [|discriminate Hd].
            right. right. right. exists choropleth. split; [exact Hc|].
            exact Hb.
          - right. left. reflexivity. }
        cbn [mbind result_bind]. eauto.
    + split; [intros _; exact I|]. intros _.
      unfold setChoroplethColoursAndTitles. rewrite Hc.
      cbn [mbind result_bind]. eauto.
Qed.

(** The prepared sample request has a geometry and a choropleth with two
    breaks: its map is rendered. *)
Lemma prepared_request_renders_witness :
  exists s map,
    PrepareSVGRequest (collab := Example.collaborators)
      Example.longLowerLabelRequest = Ok s
    /\ RenderSVG (collab := Example.collaborators) s = Ok map.
Proof.
  destruct (PrepareSVGRequest (collab := Example.collaborators)
              Example.longLowerLabelRequest) as [s|p] eqn:E;
    [|vm_compute in E; discriminate E].
  assert (Hj : getGeoJSON (collab := Example.collaborators)
                 Example.longLowerLabelRequest <> None)
    by (vm_compute; discriminate).
  destruct (prepared_request_renders (H := Example.collaborators)
              Example.longLowerLabelRequest s E Hj) as (_ & _ & [_ R]).
  destruct R as [map Em]; [left; discriminate|].
  exists s, map. split; [reflexivity|exact Em].
Defined.

(** ** The map and the legend agree *)

Lemma boundLt_numeric (a b : models.ChoroplethBreak) :
  boundLt a b -> numericBound a /\ numericBound b.
Proof.
  unfold boundLt, numericBound. rewrite lt_cmp. apply cmp_not_nan.
Qed.

Lemma strictly_sorted_numeric (l : list models.ChoroplethBreak) :
  StronglySorted boundLt l -> (2 <= length l)%nat -> Forall numericBound l.
Proof.
  intros HS Hn. destruct l as [|a [|b rest]]; cbn in Hn; try lia.
  apply StronglySorted_cons in HS as [Ha _].
  pose proof Ha as Ha'. apply Forall_cons in Ha' as [Hab _].
  constructor; [exact (proj1 (boundLt_numeric a b Hab))|].
  eapply Forall_impl; [exact Ha|]. intros x Hx.
  exact (proj2 (boundLt_numeric a x Hx)).
Qed.

Lemma boundLt_not_le (a b : models.ChoroplethBreak) :
  boundLt a b -> boundLe b a -> False.
Proof.
  unfold boundLt, boundLe. intros Hlt Hle.
  rewrite (lt_false_of_ge _ _ Hle) in Hlt. discriminate Hlt.
Qed.

(** X14.  A region is filled with the colour of the legend class its
    value lies in. When the lower bounds of the breaks are distinct
    numbers (the breaks sorted ascending strictly increase), a value
    that lies in a class of the legend, at or above its lower bound and
    below its upper bound, is given the colour of that class by
    [getColour] on the breaks sorted descending, as [mapDataToColour]
    calls it. The first class also takes every value below it, and the
    last class every value above it. *)
Theorem fill_matches_legend_class (req : RenderRequest)
    (choropleth : models.Choropleth) (data : list models.DataRow)
    (info : list breakInfo) (referencePos v : float) (i : nat)
    (c : breakInfo) :
  Choropleth_ req = Some choropleth ->
  Data req = Some data ->
  data <> [] ->
  (2 <= length (models.Breaks choropleth))%nat ->
  StronglySorted boundLt (sortBreaks (models.Breaks choropleth) true) ->
  getSortedBreakInfo req = Ok (info, referencePos) ->
  info !! i = Some c ->
  (i = 0%nat \/ F64.le (LowerBound c) v = true) ->
  (F64.lt v (UpperBound c) = true \/ info !! S i = None) ->
  getColour v (sortBreaks (models.Breaks choropleth) false) = Ok (Colour c).
Proof.
  intros Hc Hd Hne Hn HS Einfo Ec Hlow Hup.
  pose proof (sort_Slice_Permutation
                (fun ci cj => F64.lt (models.LowerBound ci)
                                     (models.LowerBound cj))
                (models.Breaks choropleth)) as Hperm.
  assert (Hlen : length (sortBreaks (models.Breaks choropleth) true)
                 = length (models.Breaks choropleth))
    by (unfold sortBreaks; apply sort_Slice_length).
  assert (Hb : models.Breaks choropleth <> []).
  { intros E. rewrite E in Hn. cbn in Hn. lia. }
  destruct (breakRange_Some data choropleth Hne Hb) as (mn & mx & Hr).
  rewrite (getSortedBreakInfo_eq req choropleth data mn mx Hc Hd Hr Hn)
    in Einfo.
  injection Einfo as <- _.
  unfold sortBreaks in HS, Hlen, Ec, Hup. cbn beta iota in HS, Hlen, Ec, Hup.
  set (l := sort_Slice _ (models.Breaks choropleth)) in *.
  assert (Hnl : Forall numericBound l).
  { apply strictly_sorted_numeric; [exact HS|lia]. }
  assert (Hnb : Forall numericBound (models.Breaks choropleth))
    by (rewrite <- Hperm; exact Hnl).
  assert (Hi : (i < length l)%nat).
  { apply lookup_lt_Some in Ec. rewrite classes_length in Ec. exact Ec. }
  destruct (lookup_lt_is_Some_2 l i Hi) as [bi Ebi].
  rewrite (classes_lookup l mn mx _ i bi Ebi) in Ec.
  cbv zeta in Ec. injection Ec as <-.
  cbn [LowerBound UpperBound Colour] in *.
  assert (Hup' : match l !! S i with
                 | Some next => F64.lt v (models.LowerBound next) = true
                 | None => True
                 end).
  { destruct (l !! S i) as [next|] eqn:En; [|exact I].
    destruct Hup as [Hup|Hup]; [exact Hup|].
    apply lookup_ge_None in Hup. rewrite classes_length in Hup.
    apply lookup_lt_Some in En. lia. }
  clear Hup.
  assert (Hlow' : i = 0%nat \/ F64.le (models.LowerBound bi) v = true).
  { destruct Hlow as [Hlow|Hlow]; [left; exact Hlow|].
    destruct i as [|i]; [left; reflexivity|right; exact Hlow]. }
  clear Hlow.
  assert (Hfound :
            exists b,
              b ∈ models.Breaks choropleth
              /\ getColour v (sortBreaks (models.Breaks choropleth) false)
                 = Ok (models.Colour b)
              /\ ((F64.le (models.LowerBound b) v = true
                   /\ forall b', b' ∈ models.Breaks choropleth ->
                        F64.le (models.LowerBound b') v = true -> boundLe b' b)
                  \/ (Forall (fun b' =>
                                F64.le (models.LowerBound b') v = false)
                             (models.Breaks choropleth)
                      /\ forall b', b' ∈ models.Breaks choropleth ->
                                    boundLe b b'))).
  { unfold getColour.
    destruct (getColour_scan v (sortBreaks (models.Breaks choropleth) false))
      as [c|] eqn:Es.
    - destruct (sorted_scan_found v _ c Hnb Es) as (b & Hin & <- & Hq & Hmax).
      exists b. split; [exact Hin|]. split; [reflexivity|]. left. auto.
    - destruct (sorted_scan_none v _ Hb Hnb Es)
        as (b & Hin & -> & Hnone & Hmin).
      exists b. split; [exact Hin|]. split; [reflexivity|]. right. auto. }
  destruct Hfound as (b & Hin & -> & Hpick).
  rewrite <- Hperm in Hin.
  apply list_elem_of_lookup in Hin as [k Ek].
  assert (Hle_of : forall j m x y,
             l !! j = Some x -> l !! m = Some y -> (j <= m)%nat ->
             boundLe x y).
  { intros j m x y Ex Ey Hjm. destruct (decide (j = m)) as [->|Hneq].
    - rewrite Ex in Ey. injection Ey as <-. apply le_refl.
      rewrite Forall_forall in Hnl. apply Hnl.
      apply list_elem_of_lookup. eauto.
    - apply le_of_lt.
      apply (StronglySorted_lookup_lt boundLt l j m x y HS Ex Ey). lia. }
  assert (Hki : k = i).
  { destruct (Nat.lt_trichotomy k i) as [Hlt|[Heq|Hgt]]; [|exact Heq|].
    - exfalso.
      pose proof (StronglySorted_lookup_lt boundLt l k i b bi HS Ek Ebi Hlt)
        as Hstrict.
      destruct Hpick as [[_ Hmax]|[Hnone Hmin]].
      + destruct Hlow' as [->|Hq]; [lia|].
        apply (boundLt_not_le b bi Hstrict). apply Hmax; [|exact Hq].
        rewrite <- Hperm. apply list_elem_of_lookup. eauto.
      + destruct Hlow' as [->|Hq]; [lia|].
        rewrite Forall_forall in Hnone.
        rewrite (Hnone bi) in Hq; [discriminate Hq|].
        rewrite <- Hperm. apply list_elem_of_lookup. eauto.
    - exfalso.
      destruct (lookup_lt_is_Some_2 l (S i)) as [next En].
      { apply lookup_lt_Some in Ek. lia. }
      rewrite En in Hup'.
      destruct Hpick as [[Hq _]|[_ Hmin]].
      + pose proof (Hle_of (S i) k next b En Ek ltac:(lia)) as Hnb'.
        unfold boundLe in Hnb'.
        pose proof (le_trans _ _ _ Hnb' Hq) as Hnv.
        rewrite (lt_false_of_ge _ _ Hnv) in Hup'. discriminate Hup'.
      + apply (boundLt_not_le bi b).
        * apply (StronglySorted_lookup_lt boundLt l i k bi b HS Ebi Ek Hgt).
        * apply Hmin. rewrite <- Hperm. apply list_elem_of_lookup. eauto. }
  rewrite Hki in Ek. rewrite Ebi in Ek. injection Ek as <-. reflexivity.
Qed.

(** The sample request has the classes that start at -123456 and at 0:
    the value 3 lies in the second and gets its colour. *)
Lemma fill_matches_legend_class_witness :
  exists info referencePos c,
    getSortedBreakInfo Example.longLowerLabelRequest = Ok (info, referencePos)
    /\ info !! 1%nat = Some c
    /\ getColour 3%float
         (sortBreaks (models.Breaks Example.longLowerLabelChoropleth) false)
       = Ok (Colour c).
Proof.
  destruct (getSortedBreakInfo Example.longLowerLabelRequest)
    as [[info referencePos]|p] eqn:E; [|vm_compute in E; discriminate E].
  assert (Hne : [Example.mkRow "E01" 1%float] <> []) by discriminate.
  assert (Hn : (2 <= length (models.Breaks Example.longLowerLabelChoropleth))%nat)
    by (cbn; lia).
  assert (HS : StronglySorted boundLt
                 (sortBreaks (models.Breaks Example.longLowerLabelChoropleth)
                             true)).
  { vm_compute. repeat constructor. }
  destruct (info !! 1%nat) as [c|] eqn:Ec;
    [|vm_compute in E; injection E as <- <-; discriminate Ec].
  exists info, referencePos, c. split; [reflexivity|]. split; [exact Ec|].
  apply (fill_matches_legend_class Example.longLowerLabelRequest
           Example.longLowerLabelChoropleth [Example.mkRow "E01" 1%float]
           info referencePos 3%float 1%nat c eq_refl eq_refl Hne Hn HS E Ec).
  - right. vm_compute in E. injection E as <- <-.
    cbn in Ec. injection Ec as <-. reflexivity.
  - right. vm_compute in E. injection E as <- <-. reflexivity.
Defined.
